(** * Liquid Reveal: the fluid reveal state machine of [script.js]

    A shallow embedding of [script.js]: the WebGL calls the script issues are
    functions on an explicit context state, the script's top-level variables
    are the fields of a [World] record, and every function of the script is a
    computation in a small state-and-exception monad, written in the order of
    the source.

    Numbers.  JavaScript numbers are IEEE doubles.  They are modelled by the
    real numbers, so rounding, overflow and NaN are outside the model; sizes in
    texels and object names are integers. *)

From Stdlib Require Import Reals Lra Lia ZArith List String Bool Permutation.
Import ListNotations.


(** ** JavaScript numbers and [Math] *)

Module JSNum.
Local Open Scope R_scope.

(** [x > y] *)
Definition gtb (x y : R) : bool := if Rlt_dec y x then true else false.
(** [x >= y] *)
Definition geb (x y : R) : bool := if Rle_dec y x then true else false.
(** [x < y] *)
Definition ltb (x y : R) : bool := if Rlt_dec x y then true else false.

Definition Math_min (x y : R) : R := Rmin x y.
Definition Math_max (x y : R) : R := Rmax x y.
Definition Math_sqrt (x : R) : R := sqrt x.
(** [Math.round]: the nearest integer, halves towards plus infinity. *)
Definition Math_round (x : R) : Z := Zfloor (x + / 2).

(** The usual clamp of [x] to the interval from [lo] to [hi]. *)
Definition clamp (x lo hi : R) : R := Math_max lo (Math_min x hi).
End JSNum.
Import JSNum.

(** ** The WebGL context

    Object names (textures, framebuffers, programs, buffers) are natural
    numbers handed out by one counter.  The image of a texture is kept
    symbolically: what a draw call writes is a function of the program, its
    uniforms and the textures bound at that moment, all of which the draw
    log records; the shader sources themselves live in the page and are not
    part of the script. *)

Inductive Pixels : Type :=
| NoImage                 (* a texture object without storage *)
| Zeroed                  (* every component is 0 *)
| BlackPixel              (* the 1x1 opaque black placeholder *)
| Picture (url : string)  (* a decoded image *)
| Drawn (k : nat).        (* the output of the k-th draw call *)

Inductive UValue : Type :=
| U1i (n : nat)
| U1f (x : R)
| U2f (x y : R)
| U3f (x y z : R).

Inductive ShaderType : Type := VERTEX_SHADER | FRAGMENT_SHADER.

Record Shader : Type := {
  shader_name : nat;
  shader_type : ShaderType;
  shader_source : string
}.

(** A uniform location belongs to one program. *)
Record Location : Type := {
  loc_program : nat;
  loc_name : string
}.

Record Draw : Type := {
  draw_program : nat;
  draw_uniform : string -> option UValue;
  draw_unit : nat -> option nat;
  draw_viewport : Z * Z;
  draw_target : option nat
}.

Record GLState : Type := {
  gl_next : nat;
  gl_pixels : nat -> Pixels;
  gl_attachment : nat -> option nat;
  gl_attached : nat -> list Shader;
  gl_links : list (nat * bool);
  gl_program : option nat;
  gl_uniforms : nat -> string -> option UValue;
  gl_active : nat;
  gl_units : nat -> option nat;
  gl_framebuffer : option nat;
  gl_array_buffer : option nat;
  gl_element_buffer : option nat;
  gl_attrib0 : option nat;
  gl_attrib0_enabled : bool;
  gl_viewport : Z * Z;
  gl_screen : Pixels;
  gl_draws : list Draw
}.

Definition upd {A : Type} (f : nat -> A) (k : nat) (v : A) : nat -> A :=
  fun x => if Nat.eqb x k then v else f x.

Module GL.

Definition fresh_context : GLState :=
  {| gl_next := 1;
     gl_pixels := fun _ => NoImage;
     gl_attachment := fun _ => None;
     gl_attached := fun _ => [];
     gl_links := [];
     gl_program := None;
     gl_uniforms := fun _ _ => None;
     gl_active := 0;
     gl_units := fun _ => None;
     gl_framebuffer := None;
     gl_array_buffer := None;
     gl_element_buffer := None;
     gl_attrib0 := None;
     gl_attrib0_enabled := false;
     gl_viewport := (0, 0)%Z;
     gl_screen := Zeroed;
     gl_draws := [] |}.

Definition set_next (v : nat) (g : GLState) : GLState :=
  Build_GLState v (gl_pixels g) (gl_attachment g) (gl_attached g)
    (gl_links g) (gl_program g) (gl_uniforms g) (gl_active g) (gl_units g)
    (gl_framebuffer g) (gl_array_buffer g) (gl_element_buffer g)
    (gl_attrib0 g) (gl_attrib0_enabled g) (gl_viewport g) (gl_screen g)
    (gl_draws g).
Definition set_pixels (v : nat -> Pixels) (g : GLState) : GLState :=
  Build_GLState (gl_next g) v (gl_attachment g) (gl_attached g)
    (gl_links g) (gl_program g) (gl_uniforms g) (gl_active g) (gl_units g)
    (gl_framebuffer g) (gl_array_buffer g) (gl_element_buffer g)
    (gl_attrib0 g) (gl_attrib0_enabled g) (gl_viewport g) (gl_screen g)
    (gl_draws g).
Definition set_attachment (v : nat -> option nat) (g : GLState) : GLState :=
  Build_GLState (gl_next g) (gl_pixels g) v (gl_attached g) (gl_links g)
    (gl_program g) (gl_uniforms g) (gl_active g) (gl_units g)
    (gl_framebuffer g) (gl_array_buffer g) (gl_element_buffer g)
    (gl_attrib0 g) (gl_attrib0_enabled g) (gl_viewport g) (gl_screen g)
    (gl_draws g).
Definition set_attached (v : nat -> list Shader) (g : GLState) : GLState :=
  Build_GLState (gl_next g) (gl_pixels g) (gl_attachment g) v (gl_links g)
    (gl_program g) (gl_uniforms g) (gl_active g) (gl_units g)
    (gl_framebuffer g) (gl_array_buffer g) (gl_element_buffer g)
    (gl_attrib0 g) (gl_attrib0_enabled g) (gl_viewport g) (gl_screen g)
    (gl_draws g).
Definition set_links (v : list (nat * bool)) (g : GLState) : GLState :=
  Build_GLState (gl_next g) (gl_pixels g) (gl_attachment g) (gl_attached g)
  v (gl_program g) (gl_uniforms g) (gl_active g) (gl_units g)
  (gl_framebuffer g) (gl_array_buffer g) (gl_element_buffer g)
  (gl_attrib0 g) (gl_attrib0_enabled g) (gl_viewport g) (gl_screen g)
  (gl_draws g).
Definition set_program (v : option nat) (g : GLState) : GLState :=
  Build_GLState (gl_next g) (gl_pixels g) (gl_attachment g) (gl_attached g)
    (gl_links g) v (gl_uniforms g) (gl_active g) (gl_units g)
    (gl_framebuffer g) (gl_array_buffer g) (gl_element_buffer g)
    (gl_attrib0 g) (gl_attrib0_enabled g) (gl_viewport g) (gl_screen g)
    (gl_draws g).
Definition set_uniforms (v : nat -> string -> option UValue) (g : GLState) : GLState :=
  Build_GLState (gl_next g) (gl_pixels g) (gl_attachment g) (gl_attached g)
    (gl_links g) (gl_program g) v (gl_active g) (gl_units g)
    (gl_framebuffer g) (gl_array_buffer g) (gl_element_buffer g)
    (gl_attrib0 g) (gl_attrib0_enabled g) (gl_viewport g) (gl_screen g)
    (gl_draws g).
Definition set_active (v : nat) (g : GLState) : GLState :=
  Build_GLState (gl_next g) (gl_pixels g) (gl_attachment g) (gl_attached g)
    (gl_links g) (gl_program g) (gl_uniforms g) v (gl_units g)
    (gl_framebuffer g) (gl_array_buffer g) (gl_element_buffer g)
    (gl_attrib0 g) (gl_attrib0_enabled g) (gl_viewport g) (gl_screen g)
    (gl_draws g).
Definition set_units (v : nat -> option nat) (g : GLState) : GLState :=
  Build_GLState (gl_next g) (gl_pixels g) (gl_attachment g) (gl_attached g)
    (gl_links g) (gl_program g) (gl_uniforms g) (gl_active g) v
    (gl_framebuffer g) (gl_array_buffer g) (gl_element_buffer g)
    (gl_attrib0 g) (gl_attrib0_enabled g) (gl_viewport g) (gl_screen g)
    (gl_draws g).
Definition set_framebuffer (v : option nat) (g : GLState) : GLState :=
  Build_GLState (gl_next g) (gl_pixels g) (gl_attachment g) (gl_attached g)
    (gl_links g) (gl_program g) (gl_uniforms g) (gl_active g) (gl_units g) v
    (gl_array_buffer g) (gl_element_buffer g) (gl_attrib0 g)
    (gl_attrib0_enabled g) (gl_viewport g) (gl_screen g) (gl_draws g).
Definition set_array_buffer (v : option nat) (g : GLState) : GLState :=
  Build_GLState (gl_next g) (gl_pixels g) (gl_attachment g) (gl_attached g)
    (gl_links g) (gl_program g) (gl_uniforms g) (gl_active g) (gl_units g)
    (gl_framebuffer g) v (gl_element_buffer g) (gl_attrib0 g)
    (gl_attrib0_enabled g) (gl_viewport g) (gl_screen g) (gl_draws g).
Definition set_element_buffer (v : option nat) (g : GLState) : GLState :=
  Build_GLState (gl_next g) (gl_pixels g) (gl_attachment g) (gl_attached g)
    (gl_links g) (gl_program g) (gl_uniforms g) (gl_active g) (gl_units g)
    (gl_framebuffer g) (gl_array_buffer g) v (gl_attrib0 g)
    (gl_attrib0_enabled g) (gl_viewport g) (gl_screen g) (gl_draws g).
Definition set_attrib0 (v : option nat) (e : bool) (g : GLState) : GLState :=
  Build_GLState (gl_next g) (gl_pixels g) (gl_attachment g) (gl_attached g)
    (gl_links g) (gl_program g) (gl_uniforms g) (gl_active g) (gl_units g)
    (gl_framebuffer g) (gl_array_buffer g) (gl_element_buffer g) v e
    (gl_viewport g) (gl_screen g) (gl_draws g).
Definition set_viewport (v : Z * Z) (g : GLState) : GLState :=
  Build_GLState (gl_next g) (gl_pixels g) (gl_attachment g) (gl_attached g)
    (gl_links g) (gl_program g) (gl_uniforms g) (gl_active g) (gl_units g)
    (gl_framebuffer g) (gl_array_buffer g) (gl_element_buffer g)
    (gl_attrib0 g) (gl_attrib0_enabled g) v (gl_screen g) (gl_draws g).
Definition set_screen (v : Pixels) (g : GLState) : GLState :=
  Build_GLState (gl_next g) (gl_pixels g) (gl_attachment g) (gl_attached g)
    (gl_links g) (gl_program g) (gl_uniforms g) (gl_active g) (gl_units g)
    (gl_framebuffer g) (gl_array_buffer g) (gl_element_buffer g)
    (gl_attrib0 g) (gl_attrib0_enabled g) (gl_viewport g) v (gl_draws g).
Definition set_draws (v : list Draw) (g : GLState) : GLState :=
  Build_GLState (gl_next g) (gl_pixels g) (gl_attachment g) (gl_attached g)
    (gl_links g) (gl_program g) (gl_uniforms g) (gl_active g) (gl_units g)
    (gl_framebuffer g) (gl_array_buffer g) (gl_element_buffer g)
    (gl_attrib0 g) (gl_attrib0_enabled g) (gl_viewport g) (gl_screen g) v.

(** [createTexture], [createFramebuffer], [createBuffer], [createProgram]:
    a new object name. *)
Definition create (g : GLState) : nat * GLState :=
  (gl_next g, set_next (S (gl_next g)) g).

Definition activeTexture (slot : nat) g := set_active slot g.

Definition bindTexture (tex : option nat) g :=
  set_units (upd (gl_units g) (gl_active g) tex) g.

(** Does the optional object name [o] designate [t]? *)
Definition designates (o : option nat) (t : nat) : bool :=
  match o with
  | Some x => Nat.eqb t x
  | None => false
  end.

(** The texture bound to the active unit. *)
Definition bound_texture g : option nat := gl_units g (gl_active g).

(** [texImage2D] on the texture bound to the active unit. *)
Definition texImage2D (image : Pixels) g :=
  set_pixels
    (fun t => if designates (bound_texture g) t then image
              else gl_pixels g t) g.

Definition bindFramebuffer (fb : option nat) g := set_framebuffer fb g.

Definition framebufferTexture2D (tex : nat) g :=
  set_attachment
    (fun fb => if designates (gl_framebuffer g) fb then Some tex
               else gl_attachment g fb) g.

Definition viewport (w h : Z) g := set_viewport (w, h) g.

(** The texture that receives what is written to the bound framebuffer;
    none for the canvas or for a framebuffer without attachment. *)
Definition target_texture g : option nat :=
  match gl_framebuffer g with
  | Some fb => gl_attachment g fb
  | None => None
  end.

(** Writing [image] to every texel of the bound framebuffer. *)
Definition write_target (image : Pixels) g :=
  set_screen
    (match gl_framebuffer g with
     | None => image
     | Some _ => gl_screen g
     end)
    (set_pixels
       (fun t => if designates (target_texture g) t then image
                 else gl_pixels g t) g).

(** [clear(COLOR_BUFFER_BIT)]: the clear colour is never changed by the
    script, so it is the initial (0, 0, 0, 0). *)
Definition clear g := write_target Zeroed g.

Definition bindBuffer_ARRAY (b : nat) g := set_array_buffer (Some b) g.
Definition bindBuffer_ELEMENT (b : nat) g := set_element_buffer (Some b) g.
Definition vertexAttribPointer0 g :=
  set_attrib0 (gl_array_buffer g) (gl_attrib0_enabled g) g.
Definition enableVertexAttribArray0 g := set_attrib0 (gl_attrib0 g) true g.

Definition useProgram (p : nat) g := set_program (Some p) g.

(** [uniform*] sets the uniform [n] of program [q] when the location is
    not null, belongs to the current program, and names [n] of [q]. *)
Definition uniform_hits (loc : option Location) g (q : nat) (n : string)
  : bool :=
  match loc, gl_program g with
  | Some l, Some p =>
      Nat.eqb (loc_program l) p && Nat.eqb q p && String.eqb n (loc_name l)
  | _, _ => false
  end.

Definition uniform (loc : option Location) (v : UValue) g :=
  set_uniforms
    (fun q n => if uniform_hits loc g q n then Some v
                else gl_uniforms g q n) g.

(** [drawElements]: the call is logged with the state it reads, and the
    bound target receives its output.  Without a current program nothing
    is drawn. *)
Definition drawElements g :=
  match gl_program g with
  | Some p =>
      let k := List.length (gl_draws g) in
      let d := {| draw_program := p;
                  draw_uniform := gl_uniforms g p;
                  draw_unit := gl_units g;
                  draw_viewport := gl_viewport g;
                  draw_target := gl_framebuffer g |} in
      write_target (Drawn k) (set_draws (gl_draws g ++ [d])%list g)
  | None => g
  end.

Definition attachShader (p : nat) (s : Shader) g :=
  set_attached (upd (gl_attached g) p (gl_attached g p ++ [s])%list) g.

Definition has_type (t : ShaderType) (s : Shader) : bool :=
  match t, shader_type s with
  | VERTEX_SHADER, VERTEX_SHADER => true
  | FRAGMENT_SHADER, FRAGMENT_SHADER => true
  | _, _ => false
  end.

(** [linkProgram]: linking needs a compiled vertex shader and a compiled
    fragment shader attached; whether such a pair links is up to the
    driver ([links]).  Every call is logged with its status. *)
Definition linkProgram (links : string -> string -> bool) (p : nat) g :=
  let status :=
    match find (has_type VERTEX_SHADER) (gl_attached g p),
          find (has_type FRAGMENT_SHADER) (gl_attached g p) with
    | Some v, Some f => links (shader_source v) (shader_source f)
    | _, _ => false
    end in
  set_links (gl_links g ++ [(p, status)])%list g.

(** [getProgramParameter(p, LINK_STATUS)] *)
Definition LINK_STATUS (p : nat) g : bool :=
  match find (fun e => Nat.eqb (fst e) p) (rev (gl_links g)) with
  | Some e => snd e
  | None => false
  end.

End GL.

(** ** Computations: state and exceptions

    A JavaScript function is a computation over a state [S] that either
    returns a value or throws; in both cases the mutations made so far
    remain. *)

Inductive Error : Type := TypeError.

Inductive Outcome (S A : Type) : Type :=
| Return (a : A) (s : S)
| Throw (e : Error) (s : S).
Arguments Return {S A} a s.
Arguments Throw {S A} e s.

Definition M (S A : Type) : Type := S -> Outcome S A.

Definition ret {S A} (a : A) : M S A := fun s => Return a s.

Definition bind {S A B} (m : M S A) (k : A -> M S B) : M S B :=
  fun s => match m s with
           | Return a s' => k a s'
           | Throw e s' => Throw e s'
           end.

Declare Scope js_scope.
Delimit Scope js_scope with js.
Notation "x <- m ;; k" := (bind m (fun x => k))
  (at level 61, m at next level, right associativity) : js_scope.
Notation "m ;; k" := (bind m (fun _ => k))
  (at level 61, right associativity) : js_scope.
Local Open Scope js_scope.

Definition get {S} : M S S := fun s => Return s s.
Definition modify {S} (f : S -> S) : M S unit := fun s => Return tt (f s).
Definition throw {S A} (e : Error) : M S A := fun s => Throw e s.

(** Reading a property of [o] throws a TypeError when [o] is null. *)
Definition deref {S A} (o : option A) : M S A :=
  match o with
  | Some a => ret a
  | None => throw TypeError
  end.

(** Running a computation on a component of the state. *)
Definition zoom {S T A} (proj : T -> S) (inj : S -> T -> T) (m : M S A)
  : M T A :=
  fun t => match m (proj t) with
           | Return a s => Return a (inj s t)
           | Throw e s => Throw e (inj s t)
           end.

(** [for (let i = 0; i < n; i++) body] *)
Fixpoint repeatM {S} (n : nat) (body : M S unit) : M S unit :=
  match n with
  | O => ret tt
  | S n' => body ;; repeatM n' body
  end.

(** The state a computation leaves behind, whether it returned or threw. *)
Definition state_of {S A} (o : Outcome S A) : S :=
  match o with
  | Return _ s => s
  | Throw _ s => s
  end.

Definition returned {S A} (o : Outcome S A) : bool :=
  match o with
  | Return _ _ => true
  | Throw _ _ => false
  end.

(** ** Configuration *)

Module CONFIG.
Local Open Scope R_scope.
Definition SIM_RESOLUTION : R := 128.
Definition DYE_RESOLUTION : R := 512.
Definition DENSITY_DISSIPATION : R := 1.0.
Definition VELOCITY_DISSIPATION : R := 0.85.
Definition PRESSURE_ITERATIONS : nat := 8.
Definition SPLAT_RADIUS : R := 0.004.
Definition SPLAT_FORCE : R := 6000.
Definition REVEAL_THRESHOLD : R := 0.65.
Definition IMAGES : list string :=
  ["resources/p1.jpg"; "resources/p2.jpg";
   "resources/p3.jpg"; "resources/p4.jpg"]%string.
End CONFIG.

(** ** The page around the script

    [Platform] is what the script shares with the browser: the WebGL context,
    the canvas size, the console and the alerts shown. *)

Record Platform : Type := {
  gl : GLState;
  canvas_width : Z;
  canvas_height : Z;
  console : list string;
  alerts : list string
}.

Definition set_gl (g : GLState) (p : Platform) : Platform :=
  Build_Platform g (canvas_width p) (canvas_height p) (console p) (alerts p).
Definition set_canvas (w h : Z) (p : Platform) : Platform :=
  Build_Platform (gl p) w h (console p) (alerts p).
Definition set_console (c : list string) (p : Platform) : Platform :=
  Build_Platform (gl p) (canvas_width p) (canvas_height p) c (alerts p).
Definition set_alerts (a : list string) (p : Platform) : Platform :=
  Build_Platform (gl p) (canvas_width p) (canvas_height p) (console p) a.

Definition gl_call (f : GLState -> GLState) : M Platform unit :=
  modify (fun p => set_gl (f (gl p)) p).

Definition gl_create : M Platform nat :=
  fun p => Return (fst (GL.create (gl p))) (set_gl (snd (GL.create (gl p))) p).

(** [console.error(msg, ...)]: the message is kept, the driver's info log is
    not. *)
Definition console_error (msg : string) : M Platform unit :=
  modify (fun p => set_console (console p ++ [msg])%list p).

Definition alert (msg : string) : M Platform unit :=
  modify (fun p => set_alerts (alerts p ++ [msg])%list p).

(** ** Framebuffer helpers *)

Module FBO.
Record t : Type := {
  fbo : nat;
  tex : nat;
  width : Z;
  height : Z;
  texelX : R;
  texelY : R
}.

(** The [attach(slot)] method. *)
Definition attach (f : t) (slot : nat) : M Platform nat :=
  gl_call (GL.activeTexture slot) ;;
  gl_call (GL.bindTexture (Some (tex f))) ;;
  ret slot.
End FBO.

(** The four [texParameteri] calls set sampling state (LINEAR filtering,
    CLAMP_TO_EDGE) that no draw of the model reads; they are left out. *)
Definition createFBO (w h : Z) : M Platform FBO.t :=
  tex <- gl_create ;;
  gl_call (GL.activeTexture 0) ;;
  gl_call (GL.bindTexture (Some tex)) ;;
  gl_call (GL.texImage2D Zeroed) ;;
  fbo <- gl_create ;;
  gl_call (GL.bindFramebuffer (Some fbo)) ;;
  gl_call (GL.framebufferTexture2D tex) ;;
  gl_call (GL.viewport w h) ;;
  gl_call GL.clear ;;
  ret {| FBO.fbo := fbo; FBO.tex := tex;
         FBO.width := w; FBO.height := h;
         FBO.texelX := (1.0 / IZR w)%R; FBO.texelY := (1.0 / IZR h)%R |}.

(** Double FBO: the closure variables [a] and [b] of the source are the
    fields [a] and [b]; [read] returns [a], [write] returns [b] and [swap]
    exchanges the two variables. *)
Module DoubleFBO.
Record t : Type := {
  width : Z;
  height : Z;
  texelX : R;
  texelY : R;
  a : FBO.t;
  b : FBO.t
}.

Definition read (d : t) : FBO.t := a d.
Definition write (d : t) : FBO.t := b d.
Definition swap (d : t) : t :=
  {| width := width d; height := height d;
     texelX := texelX d; texelY := texelY d;
     a := b d; b := a d |}.
End DoubleFBO.

Definition createDoubleFBO (w h : Z) : M Platform DoubleFBO.t :=
  a <- createFBO w h ;;
  b <- createFBO w h ;;
  ret {| DoubleFBO.width := w; DoubleFBO.height := h;
         DoubleFBO.texelX := (1.0 / IZR w)%R;
         DoubleFBO.texelY := (1.0 / IZR h)%R;
         DoubleFBO.a := a; DoubleFBO.b := b |}.

(** ** Simulation buffers *)

Module Res.
Record t : Type := { w : Z; h : Z }.
End Res.

(** The drawing buffer has the size of the canvas. *)
Definition getRes (target : R) (p : Platform) : Res.t :=
  let aspect := (IZR (canvas_width p) / IZR (canvas_height p))%R in
  let a := if ltb aspect 1 then (1 / aspect)%R else aspect in
  let min := Math_round target in
  let max := Math_round (target * a) in
  if (canvas_height p <? canvas_width p)%Z
  then {| Res.w := max; Res.h := min |}
  else {| Res.w := min; Res.h := max |}.

(** ** Image textures

    The [onload] and [onerror] handlers set up here run later, as events. *)
Definition loadImageTexture (url : string) : M Platform nat :=
  tex <- gl_create ;;
  gl_call (GL.bindTexture (Some tex)) ;;
  gl_call (GL.texImage2D BlackPixel) ;;
  ret tex.

Fixpoint mapM {S A B} (f : A -> M S B) (l : list A) : M S (list B) :=
  match l with
  | [] => ret []
  | x :: l' => y <- f x ;; ys <- mapM f l' ;; ret (y :: ys)
  end.

Definition bindImageTexture (tex : option nat) (slot : nat) : M Platform nat :=
  gl_call (GL.activeTexture slot) ;;
  gl_call (GL.bindTexture tex) ;;
  ret slot.

(** ** Programs *)

Record Program : Type := {
  program : nat;
  uniforms : list (string * Location)
}.

(** [p.uniforms.name]: undefined (a null location) when the linked program
    has no active uniform of that name. *)
Definition uniform_of (p : Program) (name : string) : option Location :=
  match find (fun e => String.eqb (fst e) name) (uniforms p) with
  | Some e => Some (snd e)
  | None => None
  end.

Module Programs.
Record t : Type := {
  advection : option Program;
  divergence : option Program;
  pressure : option Program;
  gradientSubtract : option Program;
  splat : option Program;
  display : option Program
}.
End Programs.

Module Pointer.
Record t : Type := {
  x : R;
  y : R;
  dx : R;
  dy : R;
  moved : bool
}.

Definition set_moved (v : bool) (p : t) : t :=
  {| x := x p; y := y p; dx := dx p; dy := dy p; moved := v |}.
End Pointer.

(** ** The script's top-level variables

    [scheduled] is not a variable of the script: it records that
    [requestAnimationFrame(render)] has been called and the callback has not
    run yet. *)

Record World : Type := {
  platform : Platform;
  programs : Programs.t;
  quadBuf : nat;
  quadIdx : nat;
  simRes : Res.t;
  dyeRes : Res.t;
  velocity : DoubleFBO.t;
  dye : DoubleFBO.t;
  divergence : FBO.t;
  pressure : DoubleFBO.t;
  imageTextures : list nat;
  currentImageIdx : nat;
  nextImageIdx : nat;
  blendFactor : R;
  isTransitioning : bool;
  transitionStart : R;
  pointer : Pointer.t;
  lastTime : R;
  totalSplatEnergy : R;
  scheduled : bool
}.

Definition set_platform (v : Platform) (s : World) : World :=
  Build_World v (programs s) (quadBuf s) (quadIdx s) (simRes s) (dyeRes s)
    (velocity s) (dye s) (divergence s) (pressure s) (imageTextures s)
    (currentImageIdx s) (nextImageIdx s) (blendFactor s) (isTransitioning s)
    (transitionStart s) (pointer s) (lastTime s) (totalSplatEnergy s)
    (scheduled s).
Definition set_simRes (v : Res.t) (s : World) : World :=
  Build_World (platform s) (programs s) (quadBuf s) (quadIdx s) v (dyeRes s)
    (velocity s) (dye s) (divergence s) (pressure s) (imageTextures s)
    (currentImageIdx s) (nextImageIdx s) (blendFactor s) (isTransitioning s)
    (transitionStart s) (pointer s) (lastTime s) (totalSplatEnergy s)
    (scheduled s).
Definition set_dyeRes (v : Res.t) (s : World) : World :=
  Build_World (platform s) (programs s) (quadBuf s) (quadIdx s) (simRes s) v
    (velocity s) (dye s) (divergence s) (pressure s) (imageTextures s)
    (currentImageIdx s) (nextImageIdx s) (blendFactor s) (isTransitioning s)
    (transitionStart s) (pointer s) (lastTime s) (totalSplatEnergy s)
    (scheduled s).
Definition set_velocity (v : DoubleFBO.t) (s : World) : World :=
  Build_World (platform s) (programs s) (quadBuf s) (quadIdx s) (simRes s)
    (dyeRes s) v (dye s) (divergence s) (pressure s) (imageTextures s)
    (currentImageIdx s) (nextImageIdx s) (blendFactor s) (isTransitioning s)
    (transitionStart s) (pointer s) (lastTime s) (totalSplatEnergy s)
    (scheduled s).
Definition set_dye (v : DoubleFBO.t) (s : World) : World :=
  Build_World (platform s) (programs s) (quadBuf s) (quadIdx s) (simRes s)
    (dyeRes s) (velocity s) v (divergence s) (pressure s) (imageTextures s)
    (currentImageIdx s) (nextImageIdx s) (blendFactor s) (isTransitioning s)
    (transitionStart s) (pointer s) (lastTime s) (totalSplatEnergy s)
    (scheduled s).
Definition set_divergence (v : FBO.t) (s : World) : World :=
  Build_World (platform s) (programs s) (quadBuf s) (quadIdx s) (simRes s)
    (dyeRes s) (velocity s) (dye s) v (pressure s) (imageTextures s)
    (currentImageIdx s) (nextImageIdx s) (blendFactor s) (isTransitioning s)
    (transitionStart s) (pointer s) (lastTime s) (totalSplatEnergy s)
    (scheduled s).
Definition set_pressure (v : DoubleFBO.t) (s : World) : World :=
  Build_World (platform s) (programs s) (quadBuf s) (quadIdx s) (simRes s)
    (dyeRes s) (velocity s) (dye s) (divergence s) v (imageTextures s)
    (currentImageIdx s) (nextImageIdx s) (blendFactor s) (isTransitioning s)
    (transitionStart s) (pointer s) (lastTime s) (totalSplatEnergy s)
    (scheduled s).
Definition set_currentImageIdx (v : nat) (s : World) : World :=
  Build_World (platform s) (programs s) (quadBuf s) (quadIdx s) (simRes s)
    (dyeRes s) (velocity s) (dye s) (divergence s) (pressure s)
    (imageTextures s) v (nextImageIdx s) (blendFactor s) (isTransitioning s)
    (transitionStart s) (pointer s) (lastTime s) (totalSplatEnergy s)
    (scheduled s).
Definition set_nextImageIdx (v : nat) (s : World) : World :=
  Build_World (platform s) (programs s) (quadBuf s) (quadIdx s) (simRes s)
    (dyeRes s) (velocity s) (dye s) (divergence s) (pressure s)
    (imageTextures s) (currentImageIdx s) v (blendFactor s)
    (isTransitioning s) (transitionStart s) (pointer s) (lastTime s)
    (totalSplatEnergy s) (scheduled s).
Definition set_blendFactor (v : R) (s : World) : World :=
  Build_World (platform s) (programs s) (quadBuf s) (quadIdx s) (simRes s)
    (dyeRes s) (velocity s) (dye s) (divergence s) (pressure s)
    (imageTextures s) (currentImageIdx s) (nextImageIdx s) v
    (isTransitioning s) (transitionStart s) (pointer s) (lastTime s)
    (totalSplatEnergy s) (scheduled s).
Definition set_isTransitioning (v : bool) (s : World) : World :=
  Build_World (platform s) (programs s) (quadBuf s) (quadIdx s) (simRes s)
    (dyeRes s) (velocity s) (dye s) (divergence s) (pressure s)
    (imageTextures s) (currentImageIdx s) (nextImageIdx s) (blendFactor s) v
    (transitionStart s) (pointer s) (lastTime s) (totalSplatEnergy s)
    (scheduled s).
Definition set_transitionStart (v : R) (s : World) : World :=
  Build_World (platform s) (programs s) (quadBuf s) (quadIdx s) (simRes s)
    (dyeRes s) (velocity s) (dye s) (divergence s) (pressure s)
    (imageTextures s) (currentImageIdx s) (nextImageIdx s) (blendFactor s)
    (isTransitioning s) v (pointer s) (lastTime s) (totalSplatEnergy s)
    (scheduled s).
Definition set_pointer (v : Pointer.t) (s : World) : World :=
  Build_World (platform s) (programs s) (quadBuf s) (quadIdx s) (simRes s)
    (dyeRes s) (velocity s) (dye s) (divergence s) (pressure s)
    (imageTextures s) (currentImageIdx s) (nextImageIdx s) (blendFactor s)
    (isTransitioning s) (transitionStart s) v (lastTime s)
    (totalSplatEnergy s) (scheduled s).
Definition set_lastTime (v : R) (s : World) : World :=
  Build_World (platform s) (programs s) (quadBuf s) (quadIdx s) (simRes s)
    (dyeRes s) (velocity s) (dye s) (divergence s) (pressure s)
    (imageTextures s) (currentImageIdx s) (nextImageIdx s) (blendFactor s)
    (isTransitioning s) (transitionStart s) (pointer s) v
    (totalSplatEnergy s) (scheduled s).
Definition set_totalSplatEnergy (v : R) (s : World) : World :=
  Build_World (platform s) (programs s) (quadBuf s) (quadIdx s) (simRes s)
    (dyeRes s) (velocity s) (dye s) (divergence s) (pressure s)
    (imageTextures s) (currentImageIdx s) (nextImageIdx s) (blendFactor s)
    (isTransitioning s) (transitionStart s) (pointer s) (lastTime s) v
    (scheduled s).
Definition set_scheduled (v : bool) (s : World) : World :=
  Build_World (platform s) (programs s) (quadBuf s) (quadIdx s) (simRes s)
    (dyeRes s) (velocity s) (dye s) (divergence s) (pressure s)
    (imageTextures s) (currentImageIdx s) (nextImageIdx s) (blendFactor s)
    (isTransitioning s) (transitionStart s) (pointer s) (lastTime s)
    (totalSplatEnergy s) v.

(** Reading a top-level variable at this point of the execution. *)
Definition the {A} (f : World -> A) : M World A := fun s => Return (f s) s.

Definition onPlatform {A} (m : M Platform A) : M World A :=
  zoom platform set_platform m.

Definition glw (f : GLState -> GLState) : M World unit :=
  onPlatform (gl_call f).

Definition uniform1i (loc : option Location) (v : nat) : M World unit :=
  glw (GL.uniform loc (U1i v)).
Definition uniform1f (loc : option Location) (x : R) : M World unit :=
  glw (GL.uniform loc (U1f x)).
Definition uniform2f (loc : option Location) (x y : R) : M World unit :=
  glw (GL.uniform loc (U2f x y)).
Definition uniform3f (loc : option Location) (x y z : R) : M World unit :=
  glw (GL.uniform loc (U3f x y z)).

(** ** Fullscreen quad *)

Definition drawQuad (target : option FBO.t) : M World unit :=
  buf <- the quadBuf ;;
  glw (GL.bindBuffer_ARRAY buf) ;;
  idx <- the quadIdx ;;
  glw (GL.bindBuffer_ELEMENT idx) ;;
  glw GL.vertexAttribPointer0 ;;
  glw GL.enableVertexAttribArray0 ;;
  match target with
  | Some target =>
      glw (GL.viewport (FBO.width target) (FBO.height target)) ;;
      glw (GL.bindFramebuffer (Some (FBO.fbo target)))
  | None =>
      p <- the platform ;;
      glw (GL.viewport (canvas_width p) (canvas_height p)) ;;
      glw (GL.bindFramebuffer None)
  end ;;
  glw GL.drawElements.

(** The [swap()] method of each double FBO held in a top-level variable. *)
Definition velocity_swap : M World unit :=
  modify (fun s => set_velocity (DoubleFBO.swap (velocity s)) s).
Definition dye_swap : M World unit :=
  modify (fun s => set_dye (DoubleFBO.swap (dye s)) s).
Definition pressure_swap : M World unit :=
  modify (fun s => set_pressure (DoubleFBO.swap (pressure s)) s).

(** [f.attach(slot)] on the platform of the world. *)
Definition attach (f : FBO.t) (slot : nat) : M World nat :=
  onPlatform (FBO.attach f slot).

(** Each mention of [velocity], [dye], [pressure] or [divergence] in the
   source reads the top-level variable at that point; [attach_read] and
   [drawQuad_write] are [f.read().attach(slot)] and [drawQuad(f.write())]. *)

Definition attach_read (f : World -> DoubleFBO.t) (slot : nat) : M World nat :=
  r <- the (fun s => DoubleFBO.read (f s)) ;;
  attach r slot.

Definition drawQuad_write (f : World -> DoubleFBO.t) : M World unit :=
  t <- the (fun s => DoubleFBO.write (f s)) ;;
  drawQuad (Some t).

(** ** Fluid splat *)

Definition addSplat (x y dx dy : R) (color : R * R * R) : M World unit :=
  table <- the programs ;;
  p <- deref (Programs.splat table) ;;
  glw (GL.useProgram (program p)) ;;
  (* Splat into velocity field *)
  slot <- attach_read velocity 0 ;;
  uniform1i (uniform_of p "u_target") slot ;;
  canvas <- the platform ;;
  uniform1f (uniform_of p "u_ratio")
    (IZR (canvas_width canvas) / IZR (canvas_height canvas)) ;;
  uniform2f (uniform_of p "u_point")
    (x / IZR (canvas_width canvas)) (1.0 - y / IZR (canvas_height canvas)) ;;
  uniform3f (uniform_of p "u_color") dx (- dy) 0 ;;
  uniform1f (uniform_of p "u_radius") CONFIG.SPLAT_RADIUS ;;
  drawQuad_write velocity ;;
  velocity_swap ;;
  (* Splat into dye field (this becomes the visual mask) *)
  slot <- attach_read dye 0 ;;
  uniform1i (uniform_of p "u_target") slot ;;
  uniform3f (uniform_of p "u_color")
    (fst (fst color)) (snd (fst color)) (snd color) ;;
  drawQuad_write dye ;;
  dye_swap.

(** ** Main simulation step *)

Definition step (dt : R) : M World unit :=
  p <- the programs ;;
  (* 1. Advect velocity *)
  advection <- deref (Programs.advection p) ;;
  glw (GL.useProgram (program advection)) ;;
  v <- the velocity ;;
  uniform2f (uniform_of advection "u_texel")
    (DoubleFBO.texelX v) (DoubleFBO.texelY v) ;;
  v <- the velocity ;;
  uniform2f (uniform_of advection "u_dyeTexel")
    (DoubleFBO.texelX v) (DoubleFBO.texelY v) ;;
  slot <- attach_read velocity 0 ;;
  uniform1i (uniform_of advection "u_velocity") slot ;;
  slot <- attach_read velocity 0 ;;
  uniform1i (uniform_of advection "u_source") slot ;;
  uniform1f (uniform_of advection "u_dt") dt ;;
  uniform1f (uniform_of advection "u_dissipation")
    CONFIG.VELOCITY_DISSIPATION ;;
  drawQuad_write velocity ;;
  velocity_swap ;;
  (* 2. Advect dye *)
  v <- the velocity ;;
  uniform2f (uniform_of advection "u_texel")
    (DoubleFBO.texelX v) (DoubleFBO.texelY v) ;;
  d <- the dye ;;
  uniform2f (uniform_of advection "u_dyeTexel")
    (DoubleFBO.texelX d) (DoubleFBO.texelY d) ;;
  slot <- attach_read velocity 0 ;;
  uniform1i (uniform_of advection "u_velocity") slot ;;
  slot <- attach_read dye 1 ;;
  uniform1i (uniform_of advection "u_source") slot ;;
  uniform1f (uniform_of advection "u_dissipation")
    CONFIG.DENSITY_DISSIPATION ;;
  drawQuad_write dye ;;
  dye_swap ;;
  (* 3. Compute divergence *)
  divergenceP <- deref (Programs.divergence p) ;;
  glw (GL.useProgram (program divergenceP)) ;;
  v <- the velocity ;;
  uniform2f (uniform_of divergenceP "u_texel")
    (DoubleFBO.texelX v) (DoubleFBO.texelY v) ;;
  slot <- attach_read velocity 0 ;;
  uniform1i (uniform_of divergenceP "u_velocity") slot ;;
  dv <- the divergence ;;
  drawQuad (Some dv) ;;
  (* 4. Solve pressure *)
  pressureP <- deref (Programs.pressure p) ;;
  glw (GL.useProgram (program pressureP)) ;;
  v <- the velocity ;;
  uniform2f (uniform_of pressureP "u_texel")
    (DoubleFBO.texelX v) (DoubleFBO.texelY v) ;;
  dv <- the divergence ;;
  slot <- attach dv 0 ;;
  uniform1i (uniform_of pressureP "u_divergence") slot ;;
  repeatM CONFIG.PRESSURE_ITERATIONS
    (slot <- attach_read pressure 1 ;;
     uniform1i (uniform_of pressureP "u_pressure") slot ;;
     drawQuad_write pressure ;;
     pressure_swap) ;;
  (* 5. Subtract pressure gradient from velocity *)
  gradientSubtract <- deref (Programs.gradientSubtract p) ;;
  glw (GL.useProgram (program gradientSubtract)) ;;
  v <- the velocity ;;
  uniform2f (uniform_of gradientSubtract "u_texel")
    (DoubleFBO.texelX v) (DoubleFBO.texelY v) ;;
  slot <- attach_read pressure 0 ;;
  uniform1i (uniform_of gradientSubtract "u_pressure") slot ;;
  slot <- attach_read velocity 1 ;;
  uniform1i (uniform_of gradientSubtract "u_velocity") slot ;;
  drawQuad_write velocity ;;
  velocity_swap.

(** ** Reveal detection *)

Definition ADVANCE_ENERGY : R := 8000.
Definition TRANSITION_DURATION : R := 1200.

(** [tnow] is the reading of [performance.now()] inside [startTransition]:
    the clock is read a second time there, after the reading [now] that
    [render] took at its start. *)
Definition startTransition (tnow : R) : M World unit :=
  modify (set_isTransitioning true) ;;
  modify (set_transitionStart tnow).

Definition checkAdvance (tnow : R) : M World unit :=
  transitioning <- the isTransitioning ;;
  if transitioning then ret tt
  else
    energy <- the totalSplatEnergy ;;
    if gtb energy ADVANCE_ENERGY
    then startTransition tnow
    else ret tt.

Definition clearDye : M World unit :=
  dye_read <- the (fun s => DoubleFBO.read (dye s)) ;;
  glw (GL.bindFramebuffer (Some (FBO.fbo dye_read))) ;;
  glw GL.clear ;;
  dye_write <- the (fun s => DoubleFBO.write (dye s)) ;;
  glw (GL.bindFramebuffer (Some (FBO.fbo dye_write))) ;;
  glw GL.clear.

(** The remainder [%] is taken on naturals; the table of image textures is
    never empty. *)
Definition updateTransition (now : R) : M World unit :=
  transitioning <- the isTransitioning ;;
  if negb transitioning then ret tt
  else
    start <- the transitionStart ;;
    let t := Math_min ((now - start) / TRANSITION_DURATION) 1 in
    modify (set_blendFactor t) ;;
    if geb t 1 then
      (* Advance to next images *)
      next <- the nextImageIdx ;;
      modify (set_currentImageIdx next) ;;
      next <- the nextImageIdx ;;
      images <- the imageTextures ;;
      modify (set_nextImageIdx ((next + 1) mod List.length images)) ;;
      modify (set_blendFactor 0) ;;
      modify (set_isTransitioning false) ;;
      modify (set_totalSplatEnergy 0) ;;
      (* Clear the dye so the new image starts fresh *)
      clearDye
    else ret tt.

(** ** Render loop *)

Definition requestAnimationFrame_render : M World unit :=
  modify (set_scheduled true).

(** The block of [render] that applies the mouse splat if the pointer has
    moved. *)
Definition render_splat (dt tnow : R) : M World unit :=
  ptr <- the pointer ;;
  if Pointer.moved ptr then
    let speed :=
      Math_sqrt (Pointer.dx ptr * Pointer.dx ptr
                 + Pointer.dy ptr * Pointer.dy ptr) in
    addSplat (Pointer.x ptr) (Pointer.y ptr)
      (Pointer.dx ptr * CONFIG.SPLAT_FORCE * dt)
      (Pointer.dy ptr * CONFIG.SPLAT_FORCE * dt)
      (0.9, 0.85, 0.8)%R ;;
    modify (fun s => set_totalSplatEnergy (totalSplatEnergy s + speed) s) ;;
    modify (fun s => set_pointer (Pointer.set_moved false (pointer s)) s) ;;
    checkAdvance tnow
  else ret tt.

(** The block of [render] that draws the final output to the screen. *)
Definition render_display : M World unit :=
  table <- the programs ;;
  dp <- deref (Programs.display table) ;;
  glw (GL.useProgram (program dp)) ;;
  slot <- attach_read dye 0 ;;
  uniform1i (uniform_of dp "u_fluid") slot ;;
  images <- the imageTextures ;;
  current <- the currentImageIdx ;;
  slot <- onPlatform (bindImageTexture (nth_error images current) 1) ;;
  uniform1i (uniform_of dp "u_image0") slot ;;
  images <- the imageTextures ;;
  next <- the nextImageIdx ;;
  slot <- onPlatform (bindImageTexture (nth_error images next) 2) ;;
  uniform1i (uniform_of dp "u_image1") slot ;;
  blend <- the blendFactor ;;
  uniform1f (uniform_of dp "u_blend") blend ;;
  drawQuad None.

(** [now] is the reading of [performance.now()] at the start of the frame;
    the time step is capped at 0.016 s. *)
Definition frame_dt (now last : R) : R :=
  Math_min ((now - last) / 1000) 0.016.

Definition render (now tnow : R) : M World unit :=
  last <- the lastTime ;;
  let dt := frame_dt now last in
  modify (set_lastTime now) ;;
  (* Apply mouse splat if moved *)
  render_splat dt tnow ;;
  (* Run fluid physics *)
  step dt ;;
  (* Handle auto-transition timing *)
  updateTransition now ;;
  (* Draw final output *)
  render_display ;;
  requestAnimationFrame_render.

(** ** Input handling *)

Definition onMouseMove (clientX clientY rect_left rect_top : R) : M World unit :=
  let x := (clientX - rect_left)%R in
  let y := (clientY - rect_top)%R in
  modify (fun s =>
    set_pointer {| Pointer.x := x;
                   Pointer.y := y;
                   Pointer.dx := x - Pointer.x (pointer s);
                   Pointer.dy := y - Pointer.y (pointer s);
                   Pointer.moved := true |} s).

(** [touch] is [e.targetTouches[0]], undefined when the list is empty. *)
Definition onTouchMove (touch : option (R * R)) (rect_left rect_top : R)
  : M World unit :=
  t <- deref touch ;;
  let x := (fst t - rect_left)%R in
  let y := (snd t - rect_top)%R in
  modify (fun s =>
    set_pointer {| Pointer.x := x;
                   Pointer.y := y;
                   Pointer.dx := x - Pointer.x (pointer s);
                   Pointer.dy := y - Pointer.y (pointer s);
                   Pointer.moved := true |} s).

(** The resize listener. *)
Definition onResize (innerWidth innerHeight : Z) : M World unit :=
  onPlatform (modify (set_canvas innerWidth innerHeight)) ;;
  p <- the platform ;;
  modify (set_simRes (getRes CONFIG.SIM_RESOLUTION p)) ;;
  p <- the platform ;;
  modify (set_dyeRes (getRes CONFIG.DYE_RESOLUTION p)) ;;
  sim <- the simRes ;;
  v <- onPlatform (createDoubleFBO (Res.w sim) (Res.h sim)) ;;
  modify (set_velocity v) ;;
  res <- the dyeRes ;;
  d <- onPlatform (createDoubleFBO (Res.w res) (Res.h res)) ;;
  modify (set_dye d) ;;
  sim <- the simRes ;;
  dv <- onPlatform (createFBO (Res.w sim) (Res.h sim)) ;;
  modify (set_divergence dv) ;;
  sim <- the simRes ;;
  pr <- onPlatform (createDoubleFBO (Res.w sim) (Res.h sim)) ;;
  modify (set_pressure pr).

(** The [img.onload] and [img.onerror] handlers of [loadImageTexture]. *)
Definition onImageLoad (tex : nat) (url : string) : M World unit :=
  glw (GL.bindTexture (Some tex)) ;;
  glw (GL.texImage2D (Picture url)).

Definition onImageError (url : string) : M World unit :=
  onPlatform (console_error "Failed to load image:").

(** ** Events

    After start-up the script only runs in callbacks.  An exception thrown
    by a callback ends that callback; the page goes on. *)

Inductive Event : Type :=
| mousemove (clientX clientY rect_left rect_top : R)
| touchstart (touch : option (R * R)) (rect_left rect_top : R)
| touchmove (touch : option (R * R)) (rect_left rect_top : R)
| resize (innerWidth innerHeight : Z)
| animationFrame (now tnow : R)
| imageLoad (i : nat)
| imageError (i : nat).

Definition handle (e : Event) : M World unit :=
  match e with
  | mousemove clientX clientY rect_left rect_top =>
      onMouseMove clientX clientY rect_left rect_top
  | touchstart touch rect_left rect_top => onTouchMove touch rect_left rect_top
  | touchmove touch rect_left rect_top => onTouchMove touch rect_left rect_top
  | resize innerWidth innerHeight => onResize innerWidth innerHeight
  | animationFrame now tnow =>
      pending <- the scheduled ;;
      if pending then modify (set_scheduled false) ;; render now tnow
      else ret tt
  | imageLoad i =>
      images <- the imageTextures ;;
      match nth_error images i, nth_error CONFIG.IMAGES i with
      | Some tex, Some url => onImageLoad tex url
      | _, _ => ret tt
      end
  | imageError i =>
      match nth_error CONFIG.IMAGES i with
      | Some url => onImageError url
      | None => ret tt
      end
  end.

Definition dispatch (s : World) (e : Event) : World := state_of (handle e s).

Definition run (es : list Event) (s : World) : World :=
  fold_left dispatch es s.

(** ** Start-up

    What the script cannot see from its own text is supplied by the host:
    whether a WebGL context is available, the text of the page's shader
    script elements, whether the driver compiles a source and links a pair
    of sources, the active uniforms of a linked program, and whether a null
    argument to [attachShader] raises a TypeError (as the current binding
    does) or only records a GL error. *)

Record Host : Type := {
  host_webgl : bool;
  host_script : string -> option string;
  host_compiles : ShaderType -> string -> bool;
  host_links : string -> string -> bool;
  host_active_uniforms : string -> string -> list string;
  host_null_argument_throws : bool
}.

Section Startup.

Variable host : Host.

(** Shader compilation helpers *)

Definition compileShader (type : ShaderType) (src : string)
  : M Platform (option Shader) :=
  name <- gl_create ;;
  let shader := {| shader_name := name; shader_type := type;
                   shader_source := src |} in
  if negb (host_compiles host type src) then
    console_error "Shader compile error:" ;;
    ret None
  else ret (Some shader).

Definition attachShader (prog : nat) (shader : option Shader)
  : M Platform unit :=
  match shader with
  | Some sh => gl_call (GL.attachShader prog sh)
  | None =>
      if host_null_argument_throws host then throw TypeError else ret tt
  end.

Definition createProgram (vertSrc fragSrc : string)
  : M Platform (option Program) :=
  vert <- compileShader VERTEX_SHADER vertSrc ;;
  frag <- compileShader FRAGMENT_SHADER fragSrc ;;
  prog <- gl_create ;;
  attachShader prog vert ;;
  attachShader prog frag ;;
  gl_call (GL.linkProgram (host_links host) prog) ;;
  g <- get ;;
  if negb (GL.LINK_STATUS prog (gl g)) then
    console_error "Program link error:" ;;
    ret None
  else
    (* Auto-collect uniforms *)
    let uniforms :=
      map (fun name =>
             (name, {| loc_program := prog; loc_name := name |}))
          (host_active_uniforms host vertSrc fragSrc) in
    ret (Some {| program := prog; uniforms := uniforms |}).

(** Get shader source from script tags in the page. *)
Definition shaderSrc (id : string) : M Platform string :=
  deref (host_script host id).

(** The top-level statements of the script up to, and without, the final
    call [render()].  [t0] is the reading of [performance.now()] that
    initialises [lastTime]. *)
Definition boot (innerWidth innerHeight : Z) (t0 : R) : M Platform World :=
  modify (set_canvas innerWidth innerHeight) ;;
  (if host_webgl host then ret tt
   else
     alert "WebGL not supported in your browser. Try Chrome or Firefox." ;;
     (* gl is null: gl.getExtension throws *)
     throw TypeError) ;;
  (* Build all programs *)
  vertSrc <- shaderSrc "vertShader" ;;
  src <- shaderSrc "fragAdvection" ;;
  advection <- createProgram vertSrc src ;;
  src <- shaderSrc "fragDivergence" ;;
  divergence <- createProgram vertSrc src ;;
  src <- shaderSrc "fragPressure" ;;
  pressure <- createProgram vertSrc src ;;
  src <- shaderSrc "fragGradientSubtract" ;;
  gradientSubtract <- createProgram vertSrc src ;;
  src <- shaderSrc "fragSplat" ;;
  splat <- createProgram vertSrc src ;;
  src <- shaderSrc "fragDisplay" ;;
  display <- createProgram vertSrc src ;;
  (* Fullscreen quad geometry *)
  quadBuf <- gl_create ;;
  gl_call (GL.bindBuffer_ARRAY quadBuf) ;;
  quadIdx <- gl_create ;;
  gl_call (GL.bindBuffer_ELEMENT quadIdx) ;;
  (* Simulation buffers *)
  p <- get ;;
  let simRes := getRes CONFIG.SIM_RESOLUTION p in
  let dyeRes := getRes CONFIG.DYE_RESOLUTION p in
  velocity <- createDoubleFBO (Res.w simRes) (Res.h simRes) ;;
  dye <- createDoubleFBO (Res.w dyeRes) (Res.h dyeRes) ;;
  divergenceF <- createFBO (Res.w simRes) (Res.h simRes) ;;
  pressureF <- createDoubleFBO (Res.w simRes) (Res.h simRes) ;;
  (* Image textures *)
  imageTextures <- mapM loadImageTexture CONFIG.IMAGES ;;
  p <- get ;;
  ret {| platform := p;
         programs :=
           {| Programs.advection := advection;
              Programs.divergence := divergence;
              Programs.pressure := pressure;
              Programs.gradientSubtract := gradientSubtract;
              Programs.splat := splat;
              Programs.display := display |};
         quadBuf := quadBuf;
         quadIdx := quadIdx;
         simRes := simRes;
         dyeRes := dyeRes;
         velocity := velocity;
         dye := dye;
         divergence := divergenceF;
         pressure := pressureF;
         imageTextures := imageTextures;
         currentImageIdx := 0;
         nextImageIdx := 1;
         blendFactor := 0;
         isTransitioning := false;
         transitionStart := 0;
         pointer := {| Pointer.x := 0.5 * IZR (canvas_width p);
                       Pointer.y := 0.5 * IZR (canvas_height p);
                       Pointer.dx := 0; Pointer.dy := 0;
                       Pointer.moved := false |};
         lastTime := t0;
         totalSplatEnergy := 0;
         scheduled := false |}.

(** The page before the script runs. *)
Definition page : Platform :=
  {| gl := GL.fresh_context;
     canvas_width := 300; canvas_height := 150;
     console := []; alerts := [] |}.

(** How the script ends its top-level run: either an exception aborted it
    before the render loop was entered, or [render()] was called. *)
Inductive Startup : Type :=
| Aborted (e : Error) (p : Platform)
| Entered (s : World) (first : Outcome World unit).

Definition main (innerWidth innerHeight : Z) (t0 now tnow : R) : Startup :=
  match boot innerWidth innerHeight t0 page with
  | Throw e p => Aborted e p
  | Return s _ => Entered s (render now tnow s)
  end.

End Startup.

(** * Vocabulary of the properties *)

(** Every program of the table compiled and linked. *)
Definition linked (t : Programs.t) : bool :=
  match t with
  | {| Programs.advection := Some _; Programs.divergence := Some _;
       Programs.pressure := Some _; Programs.gradientSubtract := Some _;
       Programs.splat := Some _; Programs.display := Some _ |} => true
  | _ => false
  end.

Definition loaded (s : World) : Prop := linked (programs s) = true.

(** The linked program [p] has an active uniform called [name]. *)
Definition declares (p : Program) (name : string) : Prop :=
  uniform_of p name = Some {| loc_program := program p; loc_name := name |}.

(** What the script keeps besides the simulation buffers and the context. *)
Definition control (s : World) :=
  (programs s, quadBuf s, quadIdx s, imageTextures s,
   (currentImageIdx s, nextImageIdx s, blendFactor s),
   (isTransitioning s, transitionStart s, totalSplatEnergy s),
   (pointer s, lastTime s, scheduled s)).

(** The draw calls logged between two worlds. *)
Definition draws (s : World) : list Draw := gl_draws (gl (platform s)).

Definition new_draws (s s' : World) : list Draw :=
  skipn (List.length (draws s)) (draws s').

(** The image held by the texture of a framebuffer object. *)
Definition image_of (s : World) (f : FBO.t) : Pixels :=
  gl_pixels (gl (platform s)) (FBO.tex f).

(** The framebuffer object renders into its own texture. *)
Definition attached (s : World) (f : FBO.t) : Prop :=
  gl_attachment (gl (platform s)) (FBO.fbo f) = Some (FBO.tex f).

(** The seven buffers of the simulation. *)
Definition buffers (s : World) : list FBO.t :=
  [DoubleFBO.a (velocity s); DoubleFBO.b (velocity s);
   DoubleFBO.a (dye s); DoubleFBO.b (dye s);
   divergence s;
   DoubleFBO.a (pressure s); DoubleFBO.b (pressure s)].

(** Each buffer renders into its own texture and no two share one. *)
Definition buffers_ok (s : World) : Prop :=
  Forall (attached s) (buffers s) /\ NoDup (map FBO.tex (buffers s)).

(** What [buffers_ok] reads: the attachments of the context and the
    script's four fields. *)
Definition rig (s : World) :=
  (gl_attachment (gl (platform s)), velocity s, dye s, divergence s,
   pressure s).

(** Applying a state change to the state an outcome carries. *)
Definition map_outcome {S A} (f : S -> S) (o : Outcome S A) : Outcome S A :=
  match o with
  | Return a s => Return a (f s)
  | Throw e s => Throw e (f s)
  end.

(** [m] leaves the observation [f] of the state as it was, whether it
    returns or throws. *)
Definition preserves {S T A} (f : S -> T) (m : M S A) : Prop :=
  forall s, f (state_of (m s)) = f s.

(** [m] neither reads nor writes [totalSplatEnergy]. *)
Definition energy_blind {A} (m : M World A) : Prop :=
  forall e s,
    m (set_totalSplatEnergy e s) = map_outcome (set_totalSplatEnergy e) (m s).

(** The worlds the script can be in: it started on some host and window, the
    first frame was rendered, and any events followed. *)
Definition reachable (host : Host) (s : World) : Prop :=
  exists innerWidth innerHeight t0 now tnow s0 first es,
    main host innerWidth innerHeight t0 now tnow = Entered s0 first /\
    s = run es (state_of first).

(** The direct successors of [nextImageIdx] in the cyclic order. *)
Definition cyclic_next (s : World) : nat :=
  (nextImageIdx s + 1) mod List.length (imageTextures s).

(** The speed magnitude of the pointer's last displacement. *)
Definition speed (p : Pointer.t) : R :=
  Math_sqrt (Pointer.dx p * Pointer.dx p + Pointer.dy p * Pointer.dy p).

(** The world when a transition has just been started at [tnow]. *)
Definition started (tnow : R) (s : World) : World :=
  set_transitionStart tnow (set_isTransitioning true s).

(** The world when a movement of speed [v] has been counted. *)
Definition counted (v : R) (s : World) : World :=
  set_pointer (Pointer.set_moved false (pointer s))
    (set_totalSplatEnergy (totalSplatEnergy s + v) s).

(** A location of a linked program's table is the location of that name in
    that program, as [createProgram] builds it. *)
Definition faithful (p : Program) : Prop :=
  forall name l,
    uniform_of p name = Some l ->
    l = {| loc_program := program p; loc_name := name |}.

(** One pass of the solver: the program that runs, the buffer it renders
    into and the buffers it samples, by texture unit. *)
Record Pass : Type := {
  pass_program : nat;
  pass_target : FBO.t;
  pass_inputs : list (nat * FBO.t)
}.

(** The draw call [d] is the pass [p]. *)
Definition performs (d : Draw) (p : Pass) : Prop :=
  draw_program d = pass_program p /\
  draw_target d = Some (FBO.fbo (pass_target p)) /\
  draw_viewport d = (FBO.width (pass_target p), FBO.height (pass_target p)) /\
  Forall (fun i => draw_unit d (fst i) = Some (FBO.tex (snd i)))
    (pass_inputs p).

(** [n] Jacobi iterations on the pressure field [P]: each renders into the
    write side from the read side and the divergence, then swaps. *)
Fixpoint jacobi (pressureP : Program) (dv : FBO.t) (n : nat)
  (P : DoubleFBO.t) : list Pass :=
  match n with
  | O => []
  | S n' =>
      {| pass_program := program pressureP;
         pass_target := DoubleFBO.write P;
         pass_inputs := [(0%nat, dv); (1%nat, DoubleFBO.read P)] |}
      :: jacobi pressureP dv n' (DoubleFBO.swap P)
  end.

(** The fixed sequence of passes of one solver step that starts in world
    [s]: velocity self-advection, dye advection, divergence, eight pressure
    iterations, gradient subtraction. *)
Definition solver_passes (advection divergenceP pressureP gradient : Program)
  (s : World) : list Pass :=
  let V := velocity s in
  let V1 := DoubleFBO.swap V in
  let D := dye s in
  [ {| pass_program := program advection;
       pass_target := DoubleFBO.write V;
       pass_inputs := [(0%nat, DoubleFBO.read V)] |};
    {| pass_program := program advection;
       pass_target := DoubleFBO.write D;
       pass_inputs := [(0%nat, DoubleFBO.read V1);
                       (1%nat, DoubleFBO.read D)] |};
    {| pass_program := program divergenceP;
       pass_target := divergence s;
       pass_inputs := [(0%nat, DoubleFBO.read V1)] |} ]
  ++ jacobi pressureP (divergence s) 8 (pressure s)
  ++ [ {| pass_program := program gradient;
          pass_target := DoubleFBO.write V1;
          pass_inputs := [(0%nat, DoubleFBO.read (pressure s));
                          (1%nat, DoubleFBO.read V1)] |} ].

(** From a state that satisfies [P], [m] leaves a state that satisfies [Q],
    whether it returns or throws. *)
Definition moves {S A} (P Q : S -> Prop) (m : M S A) : Prop :=
  forall s, P s -> Q (state_of (m s)).

(** The world after the completion branch of [updateTransition]. *)
Definition completed (s : World) : World :=
  state_of
    (clearDye
       (set_totalSplatEnergy 0
          (set_isTransitioning false
             (set_blendFactor 0
                (set_nextImageIdx (cyclic_next s)
                   (set_currentImageIdx (nextImageIdx s)
                      (set_blendFactor 1 s))))))).

(** The state of the reveal machine: whether a transition runs, when it
    started, and the energy accumulated. *)
Definition reveal (s : World) : bool * R * R :=
  (isTransitioning s, transitionStart s, totalSplatEnergy s).

(** Two worlds are akin when they are the same, or a transition is running
    and they differ in the accumulated energy only. *)
Definition akin (s s' : World) : Prop :=
  s' = s \/
  (isTransitioning s = true /\ exists e, s' = set_totalSplatEnergy e s).

(** Two outcomes are akin when they end the same way in akin worlds. *)
Definition akin_outcome {A} (o o' : Outcome World A) : Prop :=
  match o, o' with
  | Return a s, Return a' s' => a' = a /\ akin s s'
  | Throw e s, Throw e' s' => e' = e /\ akin s s'
  | _, _ => False
  end.

(** [m] takes akin worlds to akin outcomes. *)
Definition respects_akin {A} (m : M World A) : Prop :=
  forall s s', akin s s' -> akin_outcome (m s) (m s').


(** * Concrete inputs

    A host on which everything compiles and links, whose page gives each
    shader script its own id as text, and whose programs have the uniforms
    the script sets. *)

Definition sample_uniforms : list string :=
  ["u_texel"; "u_dyeTexel"; "u_velocity"; "u_source"; "u_dt";
   "u_dissipation"; "u_divergence"; "u_pressure"; "u_target"; "u_ratio";
   "u_point"; "u_color"; "u_radius"; "u_fluid"; "u_image0"; "u_image1";
   "u_blend"]%string.

(** The program object the sample host's driver yields under the name
    [p]. *)
Definition sample_program (p : nat) : Program :=
  {| program := p;
     uniforms :=
       map (fun name => (name, {| loc_program := p; loc_name := name |}))
         sample_uniforms |}.

Definition sample_host : Host :=
  {| host_webgl := true;
     host_script := fun id => Some id;
     host_compiles := fun _ _ => true;
     host_links := fun _ _ => true;
     host_active_uniforms := fun _ _ => sample_uniforms;
     host_null_argument_throws := true |}.

(** The same host, except that the display program does not link. *)
Definition display_fails_host : Host :=
  {| host_webgl := true;
     host_script := fun id => Some id;
     host_compiles := fun _ _ => true;
     host_links := fun _ frag => negb (String.eqb frag "fragDisplay");
     host_active_uniforms := fun _ _ => sample_uniforms;
     host_null_argument_throws := true |}.

(** A world whose variables are all zero or empty; it stands for the result
    of a start-up that did not return. *)
Definition blank_world : World :=
  let f := {| FBO.fbo := 0; FBO.tex := 0; FBO.width := 0; FBO.height := 0;
              FBO.texelX := 0; FBO.texelY := 0 |} in
  let d := {| DoubleFBO.width := 0; DoubleFBO.height := 0;
              DoubleFBO.texelX := 0; DoubleFBO.texelY := 0;
              DoubleFBO.a := f; DoubleFBO.b := f |} in
  {| platform := page;
     programs := {| Programs.advection := None; Programs.divergence := None;
                    Programs.pressure := None;
                    Programs.gradientSubtract := None;
                    Programs.splat := None; Programs.display := None |};
     quadBuf := 0; quadIdx := 0;
     simRes := {| Res.w := 0; Res.h := 0 |};
     dyeRes := {| Res.w := 0; Res.h := 0 |};
     velocity := d; dye := d; divergence := f; pressure := d;
     imageTextures := [];
     currentImageIdx := 0; nextImageIdx := 0; blendFactor := 0;
     isTransitioning := false; transitionStart := 0;
     pointer := {| Pointer.x := 0; Pointer.y := 0; Pointer.dx := 0;
                   Pointer.dy := 0; Pointer.moved := false |};
     lastTime := 0; totalSplatEnergy := 0; scheduled := false |}.

(** The world a start-up returns. *)
Definition booted (host : Host) (innerWidth innerHeight : Z) (t0 : R)
  : World :=
  match boot host innerWidth innerHeight t0 page with
  | Return s _ => s
  | Throw _ _ => blank_world
  end.

(** The sample host in an 800 by 600 window, after start-up at time 0 and
    the first frame at time 0. *)
Definition sample_start : World := booted sample_host 800 600 0.

Definition sample_world : World := state_of (render 0 0 sample_start).

(** Then the pointer moves 8001 pixels to the right and a frame at 16 ms
    starts a transition; a frame at 616 ms finds it half way. *)
Definition sample_triggered : World :=
  run [mousemove 8401 300 0 0; animationFrame 16 16] sample_world.

Definition sample_halfway : World :=
  run [animationFrame 616 616] sample_triggered.

(** The size of a double-buffered field and of its two buffers. *)
Definition sized (d : DoubleFBO.t) (r : Res.t) : Prop :=
  DoubleFBO.width d = Res.w r /\ DoubleFBO.height d = Res.h r /\
  FBO.width (DoubleFBO.a d) = Res.w r /\
  FBO.height (DoubleFBO.a d) = Res.h r /\
  FBO.width (DoubleFBO.b d) = Res.w r /\
  FBO.height (DoubleFBO.b d) = Res.h r.

(** The programs of the table in the order the script builds them, and
    the ids of the page's fragment shader scripts in the same order. *)
Definition entries (t : Programs.t) : list (option Program) :=
  [Programs.advection t; Programs.divergence t; Programs.pressure t;
   Programs.gradientSubtract t; Programs.splat t; Programs.display t].

Definition fragment_ids : list string :=
  ["fragAdvection"; "fragDivergence"; "fragPressure";
   "fragGradientSubtract"; "fragSplat"; "fragDisplay"]%string.

Definition is_null {A} (o : option A) : bool :=
  match o with
  | Some _ => false
  | None => true
  end.

(** Does the driver link the page's vertex shader with the fragment shader
    of the script [id]? *)
Definition links_ok (host : Host) (id : string) : bool :=
  match host_script host "vertShader", host_script host id with
  | Some v, Some f => host_links host v f
  | _, _ => false
  end.

(** No shader is attached to a name the context has not handed out. *)
Definition clean (p : Platform) : Prop :=
  forall k, (gl_next (gl p) <= k)%nat -> gl_attached (gl p) k = [].

(** The diagnostics of a start-up in which every shader compiles: one line
    for each program that does not link. *)
Definition link_errors (host : Host) : list string :=
  flat_map (fun id => if links_ok host id then []
                      else ["Program link error:"%string])
    fragment_ids.

(** The page has every shader script the script asks for. *)
Definition scripts_present (host : Host) : Prop :=
  forall id, In id ("vertShader"%string :: fragment_ids) ->
             host_script host id <> None.

(** Does the driver compile the shader of the script [id]? *)
Definition compiles_ok (host : Host) (t : ShaderType) (id : string) : bool :=
  match host_script host id with
  | Some src => host_compiles host t src
  | None => false
  end.

(** The size of the canvas. *)
Definition canvas_size (s : World) : Z * Z :=
  (canvas_width (platform s), canvas_height (platform s)).

(** What the page shows for the script's work: the draw calls so far, what
    the canvas holds, and whether a frame is pending. *)
Definition output (s : World) :=
  (draws s, gl_screen (gl (platform s)), scheduled s).

(** What decides the picture apart from the dye: the image textures, the
    two image indices, whether a transition runs, and the blend factor. *)
Definition show (s : World) :=
  (imageTextures s, currentImageIdx s, nextImageIdx s, isTransitioning s,
   blendFactor s).

(** The image indices are in step: there are four image textures, the
    current index is in range and the next index is its cyclic successor. *)
Definition in_step (s : World) : Prop :=
  List.length (imageTextures s) = 4%nat /\
  (currentImageIdx s < 4)%nat /\
  nextImageIdx s = ((currentImageIdx s + 1) mod 4)%nat.

(** The blend factor is below 1, and 0 when no transition runs. *)
Definition blend_ok (s : World) : Prop :=
  (blendFactor s < 1)%R /\ (isTransitioning s = false -> blendFactor s = 0%R).


(** What the names in use depend on: the counter of the context, the image
    textures and the script's four fields. *)
Definition stock (s : World) :=
  (gl_next (gl (platform s)), imageTextures s, velocity s, dye s,
   divergence s, pressure s).

(** The textures of the script, images first. *)
Definition textures (s : World) : list nat :=
  (imageTextures s ++ map FBO.tex (buffers s))%list.

(** No two of the script's textures are the same, and each is a name the
    context has handed out. *)
Definition textures_ok (s : World) : Prop :=
  NoDup (textures s) /\
  Forall (fun t => (t < gl_next (gl (platform s)))%nat) (textures s).

(** In the draw [d] the sampler uniform [name] designates a texture unit,
    and that unit holds the texture of the buffer [f]. *)
Definition wired (d : Draw) (name : string) (f : FBO.t) : Prop :=
  exists u, draw_uniform d name = Some (U1i u) /\
            draw_unit d u = Some (FBO.tex f).

(** * Properties *)

(** ** Numbers *)

Section Numbers.
Local Open Scope R_scope.

Lemma gtb_true x y : gtb x y = true <-> y < x.
Proof. unfold gtb; destruct (Rlt_dec y x); split; (congruence || tauto). Qed.

Lemma gtb_false x y : gtb x y = false <-> x <= y.
Proof.
  unfold gtb; destruct (Rlt_dec y x); split; intros; try congruence; lra.
Qed.

Lemma geb_true x y : geb x y = true <-> y <= x.
Proof. unfold geb; destruct (Rle_dec y x); split; (congruence || tauto). Qed.

Lemma geb_false x y : geb x y = false <-> x < y.
Proof.
  unfold geb; destruct (Rle_dec y x); split; intros; try congruence; lra.
Qed.


Lemma min_one_lt x : x < 1 -> Math_min x 1 = x.
Proof. intros H. unfold Math_min, Rmin. destruct (Rle_dec x 1); lra. Qed.

Lemma min_one_ge x : 1 <= x -> Math_min x 1 = 1.
Proof. intros H. unfold Math_min, Rmin. destruct (Rle_dec x 1); lra. Qed.


Lemma speed_nonneg dx dy : 0 <= Math_sqrt (dx * dx + dy * dy).
Proof. apply sqrt_pos. Qed.

End Numbers.

(** ** Symbolic execution

    [exec] unfolds the monad, the setters and the context calls, and leaves
    arithmetic, comparisons and look-ups in place. *)

Ltac exec :=
  cbv beta iota zeta delta
    [bind ret the deref modify get throw glw onPlatform zoom gl_call gl_create
     console_error alert
     uniform1i uniform1f uniform2f uniform3f
     attach attach_read drawQuad_write drawQuad velocity_swap dye_swap
     pressure_swap FBO.attach repeatM CONFIG.PRESSURE_ITERATIONS
     clearDye startTransition requestAnimationFrame_render bindImageTexture
     createFBO createDoubleFBO loadImageTexture mapM
     state_of returned map_outcome fst snd negb
     platform programs quadBuf quadIdx simRes dyeRes velocity dye divergence
     pressure imageTextures currentImageIdx nextImageIdx blendFactor
     isTransitioning transitionStart pointer lastTime totalSplatEnergy
     scheduled
     gl canvas_width canvas_height console alerts
     gl_next gl_pixels gl_attachment gl_attached gl_links gl_program
     gl_uniforms gl_active gl_units gl_framebuffer gl_array_buffer
     gl_element_buffer gl_attrib0 gl_attrib0_enabled gl_viewport gl_screen
     gl_draws
     DoubleFBO.a DoubleFBO.b
     DoubleFBO.width DoubleFBO.height DoubleFBO.texelX DoubleFBO.texelY
     Pointer.x Pointer.y Pointer.dx Pointer.dy Pointer.moved
     Programs.advection Programs.divergence Programs.pressure
     Programs.gradientSubtract Programs.splat Programs.display
     Res.w Res.h
     set_platform set_simRes set_dyeRes set_velocity set_dye set_divergence
     set_pressure set_currentImageIdx set_nextImageIdx set_blendFactor
     set_isTransitioning set_transitionStart set_pointer set_lastTime
     set_totalSplatEnergy set_scheduled
     set_gl set_canvas set_console set_alerts
     GL.set_next GL.set_pixels GL.set_attachment GL.set_attached GL.set_links
     GL.set_program GL.set_uniforms GL.set_active GL.set_units
     GL.set_framebuffer GL.set_array_buffer GL.set_element_buffer
     GL.set_attrib0 GL.set_viewport GL.set_screen GL.set_draws
     GL.create GL.activeTexture GL.bindTexture GL.bound_texture GL.texImage2D
     GL.bindFramebuffer GL.framebufferTexture2D GL.viewport GL.target_texture
     GL.write_target GL.clear GL.bindBuffer_ARRAY GL.bindBuffer_ELEMENT
     GL.vertexAttribPointer0 GL.enableVertexAttribArray0 GL.useProgram
     GL.uniform GL.uniform_hits GL.drawElements GL.attachShader
     GL.linkProgram
     DoubleFBO.read DoubleFBO.write DoubleFBO.swap Pointer.set_moved
     draws image_of attached cyclic_next].

Tactic Notation "exec" "in" hyp(H) :=
  cbv beta iota zeta delta
    [bind ret the deref modify get throw glw onPlatform zoom gl_call gl_create
     console_error alert
     uniform1i uniform1f uniform2f uniform3f
     attach attach_read drawQuad_write drawQuad velocity_swap dye_swap
     pressure_swap FBO.attach repeatM CONFIG.PRESSURE_ITERATIONS
     clearDye startTransition requestAnimationFrame_render bindImageTexture
     createFBO createDoubleFBO loadImageTexture mapM
     state_of returned map_outcome fst snd negb
     platform programs quadBuf quadIdx simRes dyeRes velocity dye divergence
     pressure imageTextures currentImageIdx nextImageIdx blendFactor
     isTransitioning transitionStart pointer lastTime totalSplatEnergy
     scheduled
     gl canvas_width canvas_height console alerts
     gl_next gl_pixels gl_attachment gl_attached gl_links gl_program
     gl_uniforms gl_active gl_units gl_framebuffer gl_array_buffer
     gl_element_buffer gl_attrib0 gl_attrib0_enabled gl_viewport gl_screen
     gl_draws
     DoubleFBO.a DoubleFBO.b
     DoubleFBO.width DoubleFBO.height DoubleFBO.texelX DoubleFBO.texelY
     Pointer.x Pointer.y Pointer.dx Pointer.dy Pointer.moved
     Programs.advection Programs.divergence Programs.pressure
     Programs.gradientSubtract Programs.splat Programs.display
     Res.w Res.h
     set_platform set_simRes set_dyeRes set_velocity set_dye set_divergence
     set_pressure set_currentImageIdx set_nextImageIdx set_blendFactor
     set_isTransitioning set_transitionStart set_pointer set_lastTime
     set_totalSplatEnergy set_scheduled
     set_gl set_canvas set_console set_alerts
     GL.set_next GL.set_pixels GL.set_attachment GL.set_attached GL.set_links
     GL.set_program GL.set_uniforms GL.set_active GL.set_units
     GL.set_framebuffer GL.set_array_buffer GL.set_element_buffer
     GL.set_attrib0 GL.set_viewport GL.set_screen GL.set_draws
     GL.create GL.activeTexture GL.bindTexture GL.bound_texture GL.texImage2D
     GL.bindFramebuffer GL.framebufferTexture2D GL.viewport GL.target_texture
     GL.write_target GL.clear GL.bindBuffer_ARRAY GL.bindBuffer_ELEMENT
     GL.vertexAttribPointer0 GL.enableVertexAttribArray0 GL.useProgram
     GL.uniform GL.uniform_hits GL.drawElements GL.attachShader
     GL.linkProgram
     DoubleFBO.read DoubleFBO.write DoubleFBO.swap Pointer.set_moved
     draws image_of attached cyclic_next] in H.

(** Naming the fields of a world, so that facts about them can be used
    after [exec]. *)
Ltac open_world s :=
  destruct s as [s_pf s_prg s_qb s_qi s_sres s_dres s_vel s_dye s_dv s_pr
                 s_imgs s_cur s_nxt s_blend s_tr s_start s_ptr s_last s_en
                 s_sch];
  destruct s_pf as [s_gl s_cw s_ch s_con s_al];
  destruct s_gl as [g_next g_pix g_att g_sh g_links g_prog g_uni g_act
                    g_units g_fb g_ab g_eb g_a0 g_a0e g_vp g_scr g_draws];
  destruct s_vel as [v_w v_h v_tx v_ty v_a v_b];
  destruct s_dye as [d_w d_h d_tx d_ty d_a d_b];
  destruct s_pr as [p_w p_h p_tx p_ty p_a p_b];
  destruct s_ptr as [m_x m_y m_dx m_dy m_moved];
  cbn [platform programs quadBuf quadIdx simRes dyeRes velocity dye
       divergence pressure imageTextures currentImageIdx nextImageIdx
       blendFactor isTransitioning transitionStart pointer lastTime
       totalSplatEnergy scheduled
       gl canvas_width canvas_height console alerts
       gl_next gl_pixels gl_attachment gl_attached gl_links gl_program
       gl_uniforms gl_active gl_units gl_framebuffer gl_array_buffer
       gl_element_buffer gl_attrib0 gl_attrib0_enabled gl_viewport gl_screen
       gl_draws
       DoubleFBO.a DoubleFBO.b DoubleFBO.read DoubleFBO.write
       DoubleFBO.width DoubleFBO.height DoubleFBO.texelX DoubleFBO.texelY
       Pointer.x Pointer.y Pointer.dx Pointer.dy Pointer.moved] in *.

(** ** The transition state machine *)

Section Transition.
Local Open Scope R_scope.

Lemma designates_same t : GL.designates (Some t) t = true.
Proof. simpl. apply Nat.eqb_refl. Qed.

Lemma designates_other t x : x <> t -> GL.designates (Some t) x = false.
Proof. intros H. simpl. now apply Nat.eqb_neq. Qed.

(** While idle, [updateTransition] does nothing. *)
Lemma updateTransition_idle now s :
  isTransitioning s = false -> updateTransition now s = Return tt s.
Proof.
  intros H. open_world s. subst. reflexivity.
Qed.

(** Before the fraction reaches 1 only [blendFactor] changes. *)
Lemma updateTransition_running now s :
  isTransitioning s = true ->
  (now - transitionStart s) / TRANSITION_DURATION < 1 ->
  updateTransition now s =
  Return tt (set_blendFactor ((now - transitionStart s) / TRANSITION_DURATION) s).
Proof.
  intros H Hlt. open_world s. subst. unfold updateTransition. exec.
  rewrite (min_one_lt _ Hlt), (proj2 (geb_false _ _) Hlt). reflexivity.
Qed.

Lemma updateTransition_completes now s :
  isTransitioning s = true ->
  1 <= (now - transitionStart s) / TRANSITION_DURATION ->
  updateTransition now s = Return tt (completed s).
Proof.
  intros H Hge. open_world s. subst. unfold updateTransition, completed. exec.
  rewrite (min_one_ge _ Hge), (proj2 (geb_true 1 1)) by lra. reflexivity.
Qed.

Lemma completed_control s :
  currentImageIdx (completed s) = nextImageIdx s /\
  nextImageIdx (completed s) = cyclic_next s /\
  blendFactor (completed s) = 0 /\
  isTransitioning (completed s) = false /\
  totalSplatEnergy (completed s) = 0 /\
  transitionStart (completed s) = transitionStart s /\
  pointer (completed s) = pointer s /\
  lastTime (completed s) = lastTime s /\
  scheduled (completed s) = scheduled s /\
  programs (completed s) = programs s /\
  imageTextures (completed s) = imageTextures s.
Proof. open_world s. repeat split. Qed.

Lemma completed_buffers s :
  velocity (completed s) = velocity s /\
  dye (completed s) = dye s /\
  divergence (completed s) = divergence s /\
  pressure (completed s) = pressure s /\
  draws (completed s) = draws s /\
  gl_attachment (gl (platform (completed s))) = gl_attachment (gl (platform s)).
Proof. open_world s. repeat split. Qed.


End Transition.

Section TransitionClaims.
Local Open Scope R_scope.

(** In a list without duplicates, different positions hold different
    elements. *)
Lemma NoDup_apart (l : list nat) (i j : nat) :
  NoDup l -> (i < List.length l)%nat -> (j < List.length l)%nat -> i <> j ->
  nth i l O <> nth j l O.
Proof.
  intros Hnd Hi Hj Hij E. apply Hij.
  now apply (proj1 (NoDup_nth l O) Hnd).
Qed.




End TransitionClaims.

(** ** Frame reasoning *)

Section Frames.
Context {S T : Type} (f : S -> T).

Lemma preserves_ret {A} (a : A) : preserves f (ret a).
Proof. now intros s. Qed.

Lemma preserves_throw {A} e : preserves f (@throw S A e).
Proof. now intros s. Qed.

Lemma preserves_deref {A} (o : option A) : preserves f (deref o).
Proof. destruct o; now intros s. Qed.

Lemma preserves_get : preserves f get.
Proof. now intros s. Qed.

Lemma preserves_modify g : (forall s, f (g s) = f s) -> preserves f (modify g).
Proof. intros H s. apply H. Qed.

Lemma preserves_bind {A B} (m : M S A) (k : A -> M S B) :
  preserves f m -> (forall a, preserves f (k a)) -> preserves f (bind m k).
Proof.
  intros Hm Hk s. unfold bind. specialize (Hm s).
  destruct (m s) as [a s'|e s']; simpl in *; [|exact Hm].
  now rewrite Hk.
Qed.

Lemma preserves_repeatM n (body : M S unit) :
  preserves f body -> preserves f (repeatM n body).
Proof.
  intros Hb. induction n as [|n IH]; simpl.
  - apply preserves_ret.
  - apply preserves_bind; auto.
Qed.

Lemma preserves_mapM {A B} (g : A -> M S B) l :
  (forall a, preserves f (g a)) -> preserves f (mapM g l).
Proof.
  intros Hg. induction l as [|a l IH]; simpl.
  - apply preserves_ret.
  - apply preserves_bind; [apply Hg|]. intros b.
    apply preserves_bind; [apply IH|]. intros bs. apply preserves_ret.
Qed.

Lemma preserves_zoom {U A} (proj : S -> U) (inj : U -> S -> S) (m : M U A) :
  (forall u s, f (inj u s) = f s) -> preserves f (zoom proj inj m).
Proof.
  intros H s. unfold zoom. destruct (m (proj s)); simpl; apply H.
Qed.

End Frames.

Lemma preserves_the {T A} (f : World -> T) (g : World -> A) :
  preserves f (the g).
Proof. now intros s. Qed.

Lemma moves_bind {S A B} (P R Q : S -> Prop) (m : M S A) (k : A -> M S B) :
  moves P R m -> (forall s, R s -> Q s) -> (forall a, moves R Q (k a)) ->
  moves P Q (bind m k).
Proof.
  intros Hm HRQ Hk s Hs. unfold bind. specialize (Hm s Hs).
  destruct (m s) as [a s'|e s']; simpl in *; [|now apply HRQ].
  now apply Hk.
Qed.

Lemma moves_preserved {S T A} (f : S -> T) (I : S -> Prop) (m : M S A) :
  (forall s s', f s' = f s -> I s -> I s') -> preserves f m -> moves I I m.
Proof. intros HI Hm s Hs. exact (HI s _ (Hm s) Hs). Qed.

Lemma moves_the {A} (I : World -> Prop) (g : World -> A) : moves I I (the g).
Proof. now intros s. Qed.

(** What a sequence does: the first part throws, or the rest runs from the
    state it returns. *)
Lemma bind_cases {S A B} (m : M S A) (k : A -> M S B) s :
  (exists a s1, m s = Return a s1 /\ bind m k s = k a s1) \/
  (exists e s1, m s = Throw e s1 /\ bind m k s = Throw e s1).
Proof.
  unfold bind. destruct (m s) as [a s1|e s1]; [left|right]; eauto.
Qed.

Create HintDb frame.

Ltac frame_step :=
  first
    [ apply preserves_bind; [ | intros ]
    | apply preserves_ret
    | apply preserves_the
    | apply preserves_deref
    | apply preserves_throw
    | apply preserves_get
    | apply preserves_repeatM
    | apply preserves_mapM; intros
    | apply preserves_zoom; intros; reflexivity
    | apply preserves_modify; intros; reflexivity
    | match goal with
      | |- preserves _ (if ?b then _ else _) => destruct b
      | |- preserves _ (match ?o with Some _ => _ | None => _ end) =>
          destruct o
      end
    | solve [ auto with frame ] ].

Ltac frame := repeat frame_step.

(** The calls on the context leave the script's own state alone. *)

Lemma control_onPlatform {A} (m : M Platform A) :
  preserves control (onPlatform m).
Proof. unfold onPlatform. frame. Qed.

Lemma control_glw f : preserves control (glw f).
Proof. unfold glw. apply control_onPlatform. Qed.
#[export] Hint Resolve control_glw control_onPlatform : frame.

Lemma control_uniform1i l v : preserves control (uniform1i l v).
Proof. unfold uniform1i. frame. Qed.

Lemma control_uniform1f l v : preserves control (uniform1f l v).
Proof. unfold uniform1f. frame. Qed.

Lemma control_uniform2f l x y : preserves control (uniform2f l x y).
Proof. unfold uniform2f. frame. Qed.

Lemma control_uniform3f l x y z : preserves control (uniform3f l x y z).
Proof. unfold uniform3f. frame. Qed.
#[export] Hint Resolve control_uniform1i control_uniform1f control_uniform2f
  control_uniform3f : frame.

Lemma control_attach f slot : preserves control (attach f slot).
Proof. unfold attach. frame. Qed.
#[export] Hint Resolve control_attach : frame.

Lemma control_attach_read f slot : preserves control (attach_read f slot).
Proof. unfold attach_read. frame. Qed.

Lemma control_drawQuad t : preserves control (drawQuad t).
Proof. unfold drawQuad. frame. Qed.
#[export] Hint Resolve control_attach_read control_drawQuad : frame.

Lemma control_drawQuad_write f : preserves control (drawQuad_write f).
Proof. unfold drawQuad_write. frame. Qed.

Lemma control_velocity_swap : preserves control velocity_swap.
Proof. unfold velocity_swap. frame. Qed.

Lemma control_dye_swap : preserves control dye_swap.
Proof. unfold dye_swap. frame. Qed.

Lemma control_pressure_swap : preserves control pressure_swap.
Proof. unfold pressure_swap. frame. Qed.
#[export] Hint Resolve control_drawQuad_write control_velocity_swap
  control_dye_swap control_pressure_swap : frame.

Lemma control_addSplat x y dx dy c : preserves control (addSplat x y dx dy c).
Proof. unfold addSplat. frame. Qed.

Lemma control_step dt : preserves control (step dt).
Proof. unfold step. frame. Qed.

Lemma control_render_display : preserves control render_display.
Proof. unfold render_display. frame. Qed.

(** The parts of [control] one by one. *)
Lemma control_fields s s' :
  control s' = control s ->
  programs s' = programs s /\
  imageTextures s' = imageTextures s /\
  currentImageIdx s' = currentImageIdx s /\
  nextImageIdx s' = nextImageIdx s /\
  blendFactor s' = blendFactor s /\
  isTransitioning s' = isTransitioning s /\
  transitionStart s' = transitionStart s /\
  totalSplatEnergy s' = totalSplatEnergy s /\
  pointer s' = pointer s /\
  lastTime s' = lastTime s /\
  scheduled s' = scheduled s.
Proof. unfold control. intros H. inversion H. repeat split; assumption. Qed.

(** ** Reveal detection *)

Section Reveal.
Local Open Scope R_scope.

Lemma checkAdvance_transitioning tnow s :
  isTransitioning s = true -> checkAdvance tnow s = Return tt s.
Proof. intros H. unfold checkAdvance, bind, the. now rewrite H. Qed.

Lemma checkAdvance_triggers tnow s :
  isTransitioning s = false ->
  ADVANCE_ENERGY < totalSplatEnergy s ->
  checkAdvance tnow s = Return tt (started tnow s).
Proof.
  intros H He. unfold checkAdvance, bind, the. rewrite H.
  now rewrite (proj2 (gtb_true _ _) He).
Qed.

Lemma checkAdvance_below tnow s :
  isTransitioning s = false ->
  totalSplatEnergy s <= ADVANCE_ENERGY ->
  checkAdvance tnow s = Return tt s.
Proof.
  intros H He. unfold checkAdvance, bind, the. rewrite H.
  now rewrite (proj2 (gtb_false _ _) He).
Qed.

(** [checkAdvance] returns, and only ever starts a transition. *)
Lemma checkAdvance_cases tnow s :
  checkAdvance tnow s = Return tt s \/
  (isTransitioning s = false /\ ADVANCE_ENERGY < totalSplatEnergy s /\
   checkAdvance tnow s = Return tt (started tnow s)).
Proof.
  destruct (isTransitioning s) eqn:H.
  - left. now apply checkAdvance_transitioning.
  - destruct (Rlt_dec ADVANCE_ENERGY (totalSplatEnergy s)) as [He|He].
    + right. repeat split; trivial. now apply checkAdvance_triggers.
    + left. apply checkAdvance_below; trivial. lra.
Qed.

Lemma updateTransition_cases now s :
  updateTransition now s = Return tt s /\ isTransitioning s = false \/
  (isTransitioning s = true /\
   (now - transitionStart s) / TRANSITION_DURATION < 1 /\
   updateTransition now s =
   Return tt
     (set_blendFactor ((now - transitionStart s) / TRANSITION_DURATION) s)) \/
  (isTransitioning s = true /\
   1 <= (now - transitionStart s) / TRANSITION_DURATION /\
   updateTransition now s = Return tt (completed s)).
Proof.
  destruct (isTransitioning s) eqn:H.
  - right.
    destruct (Rlt_dec ((now - transitionStart s) / TRANSITION_DURATION) 1)
      as [Hlt|Hge].
    + left. repeat split; trivial. now apply updateTransition_running.
    + right. apply Rnot_lt_le in Hge. repeat split; trivial.
      now apply updateTransition_completes.
  - left. split; trivial. now apply updateTransition_idle.
Qed.

(** The splat block: nothing when the pointer has not moved; otherwise the
    splat, then the movement is counted and the threshold checked. *)
Lemma render_splat_still dt tnow s :
  Pointer.moved (pointer s) = false -> render_splat dt tnow s = Return tt s.
Proof. intros H. unfold render_splat, bind, the. now rewrite H. Qed.

Lemma render_splat_moved dt tnow s :
  Pointer.moved (pointer s) = true ->
  render_splat dt tnow s =
  match addSplat (Pointer.x (pointer s)) (Pointer.y (pointer s))
          (Pointer.dx (pointer s) * CONFIG.SPLAT_FORCE * dt)
          (Pointer.dy (pointer s) * CONFIG.SPLAT_FORCE * dt)
          (0.9, 0.85, 0.8) s with
  | Return _ s1 => checkAdvance tnow (counted (speed (pointer s)) s1)
  | Throw e s1 => Throw e s1
  end.
Proof.
  intros H. unfold render_splat, bind, the. rewrite H.
  destruct (addSplat _ _ _ _ _ s) as [[] s1|e s1]; reflexivity.
Qed.

End Reveal.

(** ** The solver step *)

Section Solver.
Local Open Scope R_scope.

Lemma skipn_app_exact {A} (l l' : list A) :
  skipn (List.length l) (l ++ l') = l'.
Proof. induction l; simpl; auto. Qed.

(** With its four programs linked, [step] returns, issues exactly the
    solver's passes in order, and leaves velocity and pressure in their
    original roles and dye swapped. *)
Lemma step_passes dt s adv div pre gra :
  Programs.advection (programs s) = Some adv ->
  Programs.divergence (programs s) = Some div ->
  Programs.pressure (programs s) = Some pre ->
  Programs.gradientSubtract (programs s) = Some gra ->
  exists s',
    step dt s = Return tt s' /\
    Forall2 performs (new_draws s s') (solver_passes adv div pre gra s) /\
    velocity s' = velocity s /\
    dye s' = DoubleFBO.swap (dye s) /\
    pressure s' = pressure s /\
    divergence s' = divergence s.
Proof.
  intros Ha Hd Hp Hg. unfold new_draws, draws.
  open_world s. destruct s_prg as [? ? ? ? ? ?]. simpl in Ha, Hd, Hp, Hg. subst.
  eexists. split; [unfold step; exec; reflexivity|].
  exec. split; [|repeat split].
  rewrite <- !app_assoc, skipn_app_exact. cbn [app].
  unfold solver_passes. cbn [jacobi app]. exec.
  repeat (apply Forall2_cons; [unfold performs, upd; cbn; repeat split; repeat constructor|]).
  constructor.
Qed.

(** The dissipation factors that the two advection passes of a step run
    with. *)
Lemma step_dissipation dt s adv div pre gra :
  Programs.advection (programs s) = Some adv ->
  Programs.divergence (programs s) = Some div ->
  Programs.pressure (programs s) = Some pre ->
  Programs.gradientSubtract (programs s) = Some gra ->
  declares adv "u_dissipation" ->
  exists d1 d2 rest,
    new_draws s (state_of (step dt s)) = d1 :: d2 :: rest /\
    draw_uniform d1 "u_dissipation" = Some (U1f CONFIG.VELOCITY_DISSIPATION) /\
    draw_uniform d2 "u_dissipation" = Some (U1f CONFIG.DENSITY_DISSIPATION).
Proof.
  intros Ha Hd Hp Hg Hdis. unfold new_draws, draws.
  open_world s. destruct s_prg as [? ? ? ? ? ?].
  simpl in Ha, Hd, Hp, Hg. subst.
  unfold step. exec.
  rewrite <- !app_assoc, skipn_app_exact. cbn [app].
  do 3 eexists. split; [reflexivity|].
  cbn [draw_uniform]. unfold declares in *. rewrite Hdis.
  cbn [loc_program loc_name]. rewrite !Nat.eqb_refl. cbn. split; reflexivity.
Qed.


End Solver.

(** ** One frame *)

Section Frame.
Local Open Scope R_scope.

Lemma addSplat_returns x y dx dy c s p :
  Programs.splat (programs s) = Some p ->
  exists s1, addSplat x y dx dy c s = Return tt s1 /\ control s1 = control s.
Proof.
  intros Hp. pose proof (control_addSplat x y dx dy c s) as Hc.
  assert (H : exists s1, addSplat x y dx dy c s = Return tt s1).
  { open_world s. destruct s_prg as [? ? ? ? ? ?]. simpl in Hp. subst.
    eexists. unfold addSplat. exec. reflexivity. }
  destruct H as [s1 H]. rewrite H in Hc. eauto.
Qed.

Lemma render_display_returns s p :
  Programs.display (programs s) = Some p ->
  exists s', render_display s = Return tt s' /\ control s' = control s.
Proof.
  intros Hp. pose proof (control_render_display s) as Hc.
  assert (H : exists s', render_display s = Return tt s').
  { open_world s. destruct s_prg as [? ? ? ? ? ?]. simpl in Hp. subst.
    eexists. unfold render_display. exec. reflexivity. }
  destruct H as [s' H]. rewrite H in Hc. eauto.
Qed.

Lemma step_returns dt s :
  loaded s -> exists s', step dt s = Return tt s' /\ control s' = control s.
Proof.
  intros Hl. pose proof (control_step dt s) as Hc. unfold loaded in Hl.
  destruct (programs s) as [[adv|] [div|] [pre|] [gra|] [spl|] [dis|]] eqn:Hp;
    try discriminate.
  destruct (step_passes dt s adv div pre gra) as (s' & H & _);
    try (rewrite Hp; reflexivity).
  rewrite H in Hc. eauto.
Qed.

Lemma render_splat_returns dt tnow s :
  loaded s ->
  exists s1,
    render_splat dt tnow s = Return tt s1 /\ programs s1 = programs s.
Proof.
  intros Hl. destruct (Pointer.moved (pointer s)) eqn:Hm.
  - rewrite (render_splat_moved dt tnow s Hm). unfold loaded in Hl.
    destruct (programs s) as [[adv|] [div|] [pre|] [gra|] [spl|] [dis|]] eqn:Hp;
      try discriminate.
    edestruct (addSplat_returns (Pointer.x (pointer s)) (Pointer.y (pointer s)))
      as (s1 & -> & Hc); [rewrite Hp; reflexivity|].
    apply control_fields in Hc. destruct Hc as (Hc & _).
    destruct (checkAdvance_cases tnow (counted (speed (pointer s)) s1))
      as [H|(_ & _ & H)]; rewrite H; eexists; split; try reflexivity;
      rewrite <- Hp, <- Hc; reflexivity.
  - rewrite (render_splat_still dt tnow s Hm). eauto.
Qed.

Lemma updateTransition_returns now s :
  exists s',
    updateTransition now s = Return tt s' /\ programs s' = programs s /\
    draws s' = draws s.
Proof.
  destruct (updateTransition_cases now s) as [[H _]|[(_ & _ & H)|(_ & _ & H)]];
    rewrite H; eexists; (split; [reflexivity|]).
  - split; reflexivity.
  - split; reflexivity.
  - destruct (completed_control s) as (_&_&_&_&_&_&_&_&_&Hp&_).
    destruct (completed_buffers s) as (_&_&_&_&Hd&_). now split.
Qed.

(** A frame of a world with all programs linked runs its five blocks to the
    end and requests the next frame. *)
Lemma render_loaded now tnow s :
  loaded s ->
  let dt := frame_dt now (lastTime s) in
  exists s1 s2 s3 s4,
    render_splat dt tnow (set_lastTime now s) = Return tt s1 /\
    step dt s1 = Return tt s2 /\
    updateTransition now s2 = Return tt s3 /\
    render_display s3 = Return tt s4 /\
    render now tnow s = Return tt (set_scheduled true s4) /\
    programs s1 = programs s /\
    control s2 = control s1 /\
    control s4 = control s3.
Proof.
  intros Hl dt.
  destruct (render_splat_returns dt tnow (set_lastTime now s) Hl)
    as (s1 & H1 & P1).
  assert (Hl1 : loaded s1) by (unfold loaded; rewrite P1; exact Hl).
  destruct (step_returns dt s1 Hl1) as (s2 & H2 & C2).
  destruct (updateTransition_returns now s2) as (s3 & H3 & P3 & _).
  assert (Hl3 : loaded s3).
  { unfold loaded. rewrite P3.
    apply control_fields in C2. destruct C2 as (-> & _). exact Hl1. }
  unfold loaded in Hl3.
  destruct (programs s3) as [[adv|] [div|] [pre|] [gra|] [spl|] [dis|]] eqn:Hp;
    try discriminate.
  destruct (render_display_returns s3 dis) as (s4 & H4 & C4);
    [rewrite Hp; reflexivity|].
  exists s1, s2, s3, s4. repeat split; trivial.
  unfold render. unfold bind at 1. unfold the at 1.
  unfold bind at 1. unfold modify at 1.
  fold dt. unfold bind at 1. rewrite H1.
  unfold bind at 1. rewrite H2.
  unfold bind at 1. rewrite H3.
  unfold bind at 1. rewrite H4. reflexivity.
Qed.

End Frame.

Section FrameClaims.
Local Open Scope R_scope.

(** What the splat block leaves when the pointer has moved in a world whose
    splat program is linked. *)
Lemma render_splat_counts dt tnow s :
  loaded s ->
  Pointer.moved (pointer s) = true ->
  exists s1,
    control s1 = control s /\
    render_splat dt tnow s = checkAdvance tnow (counted (speed (pointer s)) s1).
Proof.
  intros Hl Hm. rewrite (render_splat_moved dt tnow s Hm). unfold loaded in Hl.
  destruct (programs s) as [[adv|] [div|] [pre|] [gra|] [spl|] [dis|]] eqn:Hp;
    try discriminate.
  edestruct (addSplat_returns (Pointer.x (pointer s)) (Pointer.y (pointer s)))
    as (s1 & -> & Hc); [rewrite Hp; reflexivity|].
  eauto.
Qed.

(** A frame in which the pointer has moved, in an idle world, takes the
    accumulated energy above the threshold: the transition starts in that
    frame, at the second clock reading. *)
Lemma render_triggers now tnow s :
  loaded s ->
  isTransitioning s = false ->
  Pointer.moved (pointer s) = true ->
  ADVANCE_ENERGY < totalSplatEnergy s + speed (pointer s) ->
  now <= tnow ->
  exists s',
    render now tnow s = Return tt s' /\
    isTransitioning s' = true /\
    transitionStart s' = tnow /\
    totalSplatEnergy s' = totalSplatEnergy s + speed (pointer s) /\
    blendFactor s' = (now - tnow) / TRANSITION_DURATION /\
    currentImageIdx s' = currentImageIdx s /\
    nextImageIdx s' = nextImageIdx s /\
    programs s' = programs s /\
    lastTime s' = now /\
    scheduled s' = true /\
    Pointer.moved (pointer s') = false.
Proof.
  intros Hl Hi Hm He Hclock.
  destruct (render_loaded now tnow s Hl)
    as (s1 & s2 & s3 & s4 & H1 & H2 & H3 & H4 & Hr & _ & C2 & C4).
  destruct (render_splat_counts (frame_dt now (lastTime s)) tnow
              (set_lastTime now s) Hl Hm) as (sa & Ca & Hs).
  rewrite Hs in H1. apply control_fields in Ca.
  destruct Ca as (Pa & Ia & Ca & Na & Ba & Ta & Sa & Ea & Qa & La & Da).
  cbn [set_lastTime programs imageTextures currentImageIdx nextImageIdx
       blendFactor isTransitioning transitionStart totalSplatEnergy pointer
       lastTime scheduled] in *.
  rewrite checkAdvance_triggers in H1.
  2:{ unfold counted. cbn. congruence. }
  2:{ unfold counted. cbn. rewrite Ea. exact He. }
  injection H1 as <-.
  apply control_fields in C2.
  destruct C2 as (P2 & I2 & Cu2 & N2 & B2 & T2 & S2 & E2 & Q2 & L2 & D2).
  unfold started, counted in *.
  cbn [set_transitionStart set_isTransitioning set_pointer
       set_totalSplatEnergy programs imageTextures currentImageIdx
       nextImageIdx blendFactor isTransitioning transitionStart
       totalSplatEnergy pointer lastTime scheduled] in *.
  assert (Hlt : (now - transitionStart s2) / TRANSITION_DURATION < 1).
  { rewrite S2. unfold TRANSITION_DURATION. lra. }
  rewrite (updateTransition_running now s2 T2 Hlt) in H3. injection H3 as <-.
  apply control_fields in C4.
  destruct C4 as (P4 & I4 & Cu4 & N4 & B4 & T4 & S4 & E4 & Q4 & L4 & D4).
  cbn [set_blendFactor programs imageTextures currentImageIdx nextImageIdx
       blendFactor isTransitioning transitionStart totalSplatEnergy pointer
       lastTime scheduled] in *.
  exists (set_scheduled true s4). split; [exact Hr|].
  cbn [set_scheduled programs imageTextures currentImageIdx nextImageIdx
       blendFactor isTransitioning transitionStart totalSplatEnergy pointer
       lastTime scheduled].
  repeat split; try congruence.
  rewrite Q4, Q2. reflexivity.
Qed.

(** C7.  The threshold is 8000.  In an idle world with no accumulated
    energy, a frame that finds a pointer movement of speed 8001 returns with
    the state transitioning, started in that very frame.  The trigger itself,
    [checkAdvance], does nothing while a transition is in progress; while idle
    it starts a transition exactly when the energy strictly exceeds the
    threshold. *)
Theorem threshold_trigger :
  ADVANCE_ENERGY = 8000 /\
  (forall s now tnow,
     loaded s ->
     isTransitioning s = false ->
     totalSplatEnergy s = 0 ->
     Pointer.moved (pointer s) = true ->
     speed (pointer s) = 8001 ->
     now <= tnow ->
     exists s',
       render now tnow s = Return tt s' /\
       isTransitioning s' = true /\
       transitionStart s' = tnow /\
       totalSplatEnergy s' = 8001) /\
  (forall s tnow,
     isTransitioning s = true -> checkAdvance tnow s = Return tt s) /\
  (forall s tnow,
     isTransitioning s = false ->
     totalSplatEnergy s <= ADVANCE_ENERGY ->
     checkAdvance tnow s = Return tt s) /\
  (forall s tnow,
     isTransitioning s = false ->
     ADVANCE_ENERGY < totalSplatEnergy s ->
     exists s',
       checkAdvance tnow s = Return tt s' /\
       isTransitioning s' = true /\ transitionStart s' = tnow).
Proof.
  split; [reflexivity|]. split; [|split; [|split]].
  - intros s now tnow Hl Hi He Hm Hs Hc.
    destruct (render_triggers now tnow s Hl Hi Hm) as (s' & Hr & Ht & Hst & Hen & _);
      [rewrite He, Hs; unfold ADVANCE_ENERGY; lra|exact Hc|].
    exists s'. rewrite Hen, He, Hs. repeat split; trivial. lra.
  - intros s tnow. apply checkAdvance_transitioning.
  - intros s tnow. apply checkAdvance_below.
  - intros s tnow Hi He. exists (started tnow s).
    split; [now apply checkAdvance_triggers|]. split; reflexivity.
Qed.

End FrameClaims.

(** ** The accumulated energy *)

Section Energy.
Local Open Scope R_scope.

Lemma reveal_of_control {A} (m : M World A) :
  preserves control m -> preserves reveal m.
Proof.
  intros H s. specialize (H s). apply control_fields in H.
  destruct H as (_ & _ & _ & _ & _ & H1 & H2 & H3 & _).
  unfold reveal. now rewrite H1, H2, H3.
Qed.

(** A property of the reveal state is kept by what leaves [control] alone. *)
Lemma moves_control {A} (I : World -> Prop) (m : M World A) :
  (forall s s', reveal s' = reveal s -> I s -> I s') ->
  preserves control m -> moves I I m.
Proof.
  intros HI Hm. apply (moves_preserved reveal); trivial.
  now apply reveal_of_control.
Qed.

(** The states the splat block can leave. *)
Lemma render_splat_reveal dt tnow s :
  let s1 := state_of (render_splat dt tnow s) in
  reveal s1 = reveal s \/
  (exists v, 0 <= v /\
     (reveal s1 = (isTransitioning s, transitionStart s, totalSplatEnergy s + v)
      \/ (isTransitioning s = false /\
          reveal s1 = (true, tnow, totalSplatEnergy s + v)))).
Proof.
  cbv zeta. destruct (Pointer.moved (pointer s)) eqn:Hm.
  - rewrite (render_splat_moved dt tnow s Hm).
    pose proof (control_addSplat (Pointer.x (pointer s)) (Pointer.y (pointer s))
                  (Pointer.dx (pointer s) * CONFIG.SPLAT_FORCE * dt)
                  (Pointer.dy (pointer s) * CONFIG.SPLAT_FORCE * dt)
                  (0.9, 0.85, 0.8) s) as Hc.
    destruct (addSplat _ _ _ _ _ s) as [[] s1|e s1]; simpl in Hc;
      apply control_fields in Hc;
      destruct Hc as (_ & _ & _ & _ & _ & H1 & H2 & H3 & _).
    + right. exists (speed (pointer s)). split; [apply sqrt_pos|].
      destruct (checkAdvance_cases tnow (counted (speed (pointer s)) s1))
        as [H|(Hi & _ & H)]; rewrite H; unfold reveal, started, counted; cbn.
      * left. now rewrite H1, H2, H3.
      * right. unfold counted in Hi. cbn in Hi. split; [congruence|].
        now rewrite H3.
    + left. unfold reveal. cbn. now rewrite H1, H2, H3.
  - rewrite (render_splat_still dt tnow s Hm). now left.
Qed.

(** The states [updateTransition] can leave. *)
Lemma updateTransition_reveal now s :
  let s' := state_of (updateTransition now s) in
  reveal s' = reveal s \/
  (isTransitioning s = true /\
   1 <= (now - transitionStart s) / TRANSITION_DURATION /\
   reveal s' = (false, transitionStart s, 0)).
Proof.
  cbv zeta.
  destruct (updateTransition_cases now s) as [[H _]|[(_ & _ & H)|(Ht & Hge & H)]];
    rewrite H.
  - now left.
  - now left.
  - right. repeat split; trivial.
Qed.

(** A frame threads a property of the reveal state through its blocks when
    the splat block, and [updateTransition], keep or establish it. *)
Lemma render_moves (P R Q : World -> Prop) now tnow :
  (forall s s', reveal s' = reveal s -> P s -> P s') ->
  (forall s s', reveal s' = reveal s -> R s -> R s') ->
  (forall s s', reveal s' = reveal s -> Q s -> Q s') ->
  (forall dt, moves P R (render_splat dt tnow)) ->
  moves R Q (updateTransition now) ->
  (forall s, P s -> R s) ->
  (forall s, R s -> Q s) ->
  moves P Q (render now tnow).
Proof.
  intros HP HR HQ Hsplat Hupd HPR HRQ. unfold render.
  apply moves_bind with (R := P); [apply moves_the|auto|intros last].
  apply moves_bind with (R := P); [|auto|intros _].
  { intros s. apply HP. reflexivity. }
  apply moves_bind with (R := R); [apply Hsplat|exact HRQ|intros _].
  apply moves_bind with (R := R); [|exact HRQ|intros _].
  { apply moves_control; [exact HR|apply control_step]. }
  apply moves_bind with (R := Q); [exact Hupd|auto|intros _].
  apply moves_bind with (R := Q); [|auto|intros _].
  { apply moves_control; [exact HQ|apply control_render_display]. }
  intros s. apply HQ. reflexivity.
Qed.

(** The energy never becomes negative. *)
Lemma render_nonneg now tnow :
  moves (fun s => 0 <= totalSplatEnergy s) (fun s => 0 <= totalSplatEnergy s)
    (render now tnow).
Proof.
  apply render_moves with (R := fun s => 0 <= totalSplatEnergy s); auto.
  - unfold reveal. intros s s' H. now inversion H.
  - unfold reveal. intros s s' H. now inversion H.
  - unfold reveal. intros s s' H. now inversion H.
  - intros dt s Hs.
    destruct (render_splat_reveal dt tnow s) as [H|(v & Hv & [H|[_ H]])];
      unfold reveal in H; inversion H; lra.
  - intros s Hs.
    destruct (updateTransition_reveal now s) as [H|(_ & _ & H)];
      unfold reveal in H; inversion H; lra.
Qed.

(** Nothing but a frame touches the reveal state. *)
Lemma handle_reveal e :
  (forall now tnow, e <> animationFrame now tnow) ->
  preserves reveal (handle e).
Proof.
  intros He. destruct e; cbn [handle];
    try (exfalso; eapply He; reflexivity).
  - unfold onMouseMove. frame.
  - unfold onTouchMove. frame.
  - unfold onTouchMove. frame.
  - unfold onResize, onPlatform, createDoubleFBO, createFBO. frame.
  - unfold onImageLoad, glw, onPlatform. frame.
  - unfold onImageError, onPlatform. frame.
Qed.

Lemma handle_energy e s :
  (forall now tnow, e <> animationFrame now tnow) ->
  totalSplatEnergy (state_of (handle e s)) = totalSplatEnergy s.
Proof.
  intros He. pose proof (handle_reveal e He s) as H.
  unfold reveal in H. now inversion H.
Qed.

Lemma dispatch_nonneg s e :
  0 <= totalSplatEnergy s -> 0 <= totalSplatEnergy (dispatch s e).
Proof.
  intros Hs. unfold dispatch.
  destruct e as [? ? ? ?|? ? ?|? ? ?|? ?|now tnow|?|?];
    try (rewrite handle_energy by discriminate; exact Hs).
  cbn [handle]. unfold bind, the, modify.
  destruct (scheduled s); [|exact Hs].
  pose proof (render_nonneg now tnow) as H. apply H. exact Hs.
Qed.

Lemma run_nonneg es s :
  0 <= totalSplatEnergy s -> 0 <= totalSplatEnergy (run es s).
Proof.
  revert s. unfold run.
  induction es as [|e es IH]; intros s Hs; simpl; [exact Hs|].
  apply IH. now apply dispatch_nonneg.
Qed.

End Energy.

(** ** Start-up *)

Section Boot.
Local Open Scope R_scope.

Lemma bind_returns {S A B} (m : M S A) (k : A -> M S B) s b s' :
  bind m k s = Return b s' ->
  exists a s1, m s = Return a s1 /\ k a s1 = Return b s'.
Proof.
  unfold bind. destruct (m s) as [a s1|e s1]; [eauto|discriminate].
Qed.

(** The script's own variables when start-up succeeds. *)
Lemma boot_initial host innerWidth innerHeight t0 p s p' :
  boot host innerWidth innerHeight t0 p = Return s p' ->
  currentImageIdx s = 0%nat /\
  nextImageIdx s = 1%nat /\
  blendFactor s = 0 /\
  isTransitioning s = false /\
  totalSplatEnergy s = 0 /\
  lastTime s = t0 /\
  scheduled s = false /\
  Pointer.moved (pointer s) = false /\
  platform s = p'.
Proof.
  intros H. unfold boot in H.
  repeat (apply bind_returns in H; destruct H as (? & ? & ? & H)).
  unfold ret in H. injection H as <- <-.
  repeat match goal with
         | E : get _ = Return _ _ |- _ => unfold get in E; injection E as <- <-
         end.
  repeat split.
Qed.

Lemma main_entered host innerWidth innerHeight t0 now tnow s first :
  main host innerWidth innerHeight t0 now tnow = Entered s first ->
  (exists p, boot host innerWidth innerHeight t0 page = Return s p) /\
  first = render now tnow s.
Proof.
  unfold main.
  destruct (boot host innerWidth innerHeight t0 page) as [s0 p|e p];
    [|discriminate].
  intros H. injection H as <- <-. eauto.
Qed.

(** The energy is never negative in a world the script can reach. *)
Lemma reachable_nonneg host s : reachable host s -> 0 <= totalSplatEnergy s.
Proof.
  intros (iw & ih & t0 & now & tnow & s0 & first & es & Hm & ->).
  apply main_entered in Hm. destruct Hm as ((p & Hb) & ->).
  apply boot_initial in Hb. destruct Hb as (_ & _ & _ & _ & He & _).
  apply run_nonneg. pose proof (render_nonneg now tnow) as H. apply H.
  rewrite He. lra.
Qed.

End Boot.

Section EnergyClaim.
Local Open Scope R_scope.

(** While idle, a frame never lowers the energy, the clock being monotone:
    the reading taken when a transition starts is not before the reading
    taken at the start of the frame. *)
Lemma render_idle_monotone now tnow s :
  isTransitioning s = false ->
  now <= tnow ->
  totalSplatEnergy s <= totalSplatEnergy (state_of (render now tnow s)).
Proof.
  intros Hi Hclock.
  set (I := fun s' : World =>
              totalSplatEnergy s <= totalSplatEnergy s' /\
              (isTransitioning s' = true -> now <= transitionStart s')).
  assert (HI : forall a b, reveal b = reveal a -> I a -> I b).
  { unfold reveal, I. intros a b H. injection H as H1 H2 H3.
    now rewrite H1, H2, H3. }
  assert (H : moves I I (render now tnow)).
  { apply render_moves with (R := I); auto.
    - intros dt a [Ha1 Ha2]. unfold I.
      destruct (render_splat_reveal dt tnow a) as [H|(v & Hv & [H|[Hai H]])];
        unfold reveal in H; injection H as H1 H2 H3.
      + now rewrite H1, H2, H3.
      + rewrite H1, H2, H3. split; [lra|exact Ha2].
      + rewrite H1, H2, H3. split; [lra|trivial].
    - intros a [Ha1 Ha2]. unfold I.
      destruct (updateTransition_reveal now a) as [H|(Hat & Hge & H)];
        unfold reveal in H; injection H as H1 H2 H3.
      + now rewrite H1, H2, H3.
      + specialize (Ha2 Hat). unfold TRANSITION_DURATION in Hge. lra. }
  apply H. unfold I. split; [lra|]. rewrite Hi. discriminate.
Qed.

(** A frame that ends a transition leaves no energy. *)
Lemma render_edge_zero now tnow s :
  isTransitioning s = true ->
  isTransitioning (state_of (render now tnow s)) = false ->
  totalSplatEnergy (state_of (render now tnow s)) = 0.
Proof.
  intros Ht.
  set (A := fun s' : World => isTransitioning s' = true).
  set (J := fun s' : World =>
              isTransitioning s' = false -> totalSplatEnergy s' = 0).
  assert (H : moves A J (render now tnow)).
  { apply render_moves with (R := A).
    - unfold reveal, A. intros a b H. injection H as H1 H2 H3.
      now rewrite H1.
    - unfold reveal, A. intros a b H. injection H as H1 H2 H3.
      now rewrite H1.
    - unfold reveal, J. intros a b H. injection H as H1 H2 H3.
      now rewrite H1, H3.
    - intros dt a Ha. unfold A in *.
      destruct (render_splat_reveal dt tnow a) as [H|(v & Hv & [H|[Hai H]])];
        unfold reveal in H; injection H as H1 H2 H3; congruence.
    - intros a Ha. unfold A, J in *.
      destruct (updateTransition_reveal now a) as [H|(Hat & Hge & H)];
        unfold reveal in H; injection H as H1 H2 H3; congruence.
    - auto.
    - unfold A, J. congruence. }
  apply H. exact Ht.
Qed.

(** C3.  In every world the script reaches the accumulated energy is not
    negative.  A frame taken while idle never lowers it.  A frame that
    takes the state from transitioning to idle leaves it exactly 0. *)
Theorem energy_invariants :
  (forall host s, reachable host s -> 0 <= totalSplatEnergy s) /\
  (forall s now tnow,
     isTransitioning s = false ->
     now <= tnow ->
     totalSplatEnergy s
     <= totalSplatEnergy (state_of (render now tnow s))) /\
  (forall s now tnow,
     isTransitioning s = true ->
     isTransitioning (state_of (render now tnow s)) = false ->
     totalSplatEnergy (state_of (render now tnow s)) = 0).
Proof.
  split; [exact reachable_nonneg|]. split.
  - intros s now tnow. apply render_idle_monotone.
  - intros s now tnow. apply render_edge_zero.
Qed.

End EnergyClaim.

(** ** Energy accumulated during a transition *)


Lemma blind_ret {A} (a : A) : energy_blind (ret a).
Proof. now intros e s. Qed.

Lemma blind_throw {A} x : energy_blind (@throw World A x).
Proof. now intros e s. Qed.

Lemma blind_deref {A} (o : option A) : energy_blind (deref o).
Proof. destruct o; now intros e s. Qed.

Lemma blind_the {A} (f : World -> A) :
  (forall e s, f (set_totalSplatEnergy e s) = f s) -> energy_blind (the f).
Proof. intros H e s. unfold the. now rewrite H. Qed.

Lemma blind_modify (g : World -> World) :
  (forall e s, g (set_totalSplatEnergy e s) = set_totalSplatEnergy e (g s)) ->
  energy_blind (modify g).
Proof. intros H e s. unfold modify. simpl. now rewrite H. Qed.

Lemma blind_onPlatform {A} (m : M Platform A) : energy_blind (onPlatform m).
Proof.
  intros e s. unfold onPlatform, zoom. simpl.
  destruct (m (platform s)); reflexivity.
Qed.

Lemma blind_bind {A B} (m : M World A) (k : A -> M World B) :
  energy_blind m -> (forall a, energy_blind (k a)) -> energy_blind (bind m k).
Proof.
  intros Hm Hk e s. unfold bind. rewrite Hm.
  destruct (m s) as [a s1|x s1]; simpl; [apply Hk|reflexivity].
Qed.

Lemma blind_repeatM n (body : M World unit) :
  energy_blind body -> energy_blind (repeatM n body).
Proof.
  intros Hb. induction n as [|n IH]; simpl.
  - apply blind_ret.
  - apply blind_bind; auto.
Qed.

Create HintDb blind.

Ltac blind_step :=
  first
    [ apply blind_bind; [ | intros ]
    | apply blind_ret
    | apply blind_deref
    | apply blind_throw
    | apply blind_repeatM
    | apply blind_onPlatform
    | apply blind_the; intros; reflexivity
    | apply blind_modify; intros; reflexivity
    | match goal with
      | |- energy_blind (if ?b then _ else _) => destruct b
      | |- energy_blind (match ?o with Some _ => _ | None => _ end) =>
          destruct o
      end
    | solve [ auto with blind ] ].

Ltac blind := repeat blind_step.

Lemma blind_glw f : energy_blind (glw f).
Proof. unfold glw. blind. Qed.

Lemma blind_uniform1i l v : energy_blind (uniform1i l v).
Proof. unfold uniform1i, glw. blind. Qed.

Lemma blind_uniform1f l v : energy_blind (uniform1f l v).
Proof. unfold uniform1f, glw. blind. Qed.

Lemma blind_uniform2f l x y : energy_blind (uniform2f l x y).
Proof. unfold uniform2f, glw. blind. Qed.

Lemma blind_uniform3f l x y z : energy_blind (uniform3f l x y z).
Proof. unfold uniform3f, glw. blind. Qed.

Lemma blind_attach_read f slot :
  (forall e s, f (set_totalSplatEnergy e s) = f s) ->
  energy_blind (attach_read f slot).
Proof.
  intros H. unfold attach_read, attach.
  apply blind_bind; [|intros; blind].
  apply blind_the. intros. now rewrite H.
Qed.

Lemma blind_drawQuad t : energy_blind (drawQuad t).
Proof. unfold drawQuad, glw. blind. Qed.

Lemma blind_drawQuad_write f :
  (forall e s, f (set_totalSplatEnergy e s) = f s) ->
  energy_blind (drawQuad_write f).
Proof.
  intros H. unfold drawQuad_write.
  apply blind_bind; [|intros; apply blind_drawQuad].
  apply blind_the. intros. now rewrite H.
Qed.

Lemma blind_swaps :
  energy_blind velocity_swap /\ energy_blind dye_swap /\
  energy_blind pressure_swap.
Proof. unfold velocity_swap, dye_swap, pressure_swap. repeat split; blind. Qed.

#[export] Hint Resolve blind_glw blind_uniform1i blind_uniform1f
  blind_uniform2f blind_uniform3f blind_drawQuad : blind.
#[export] Hint Extern 1 (energy_blind (attach_read _ _)) =>
  apply blind_attach_read; intros; reflexivity : blind.
#[export] Hint Extern 1 (energy_blind (drawQuad_write _)) =>
  apply blind_drawQuad_write; intros; reflexivity : blind.
#[export] Hint Extern 1 (energy_blind velocity_swap) =>
  apply blind_swaps : blind.
#[export] Hint Extern 1 (energy_blind dye_swap) => apply blind_swaps : blind.
#[export] Hint Extern 1 (energy_blind pressure_swap) =>
  apply blind_swaps : blind.
#[export] Hint Extern 1 (energy_blind (attach _ _)) =>
  unfold attach; apply blind_onPlatform : blind.

Lemma blind_addSplat x y dx dy c : energy_blind (addSplat x y dx dy c).
Proof. unfold addSplat. blind. Qed.

Lemma blind_step dt : energy_blind (step dt).
Proof. unfold step. blind. Qed.

Lemma blind_render_display : energy_blind render_display.
Proof. unfold render_display. blind. Qed.

Lemma blind_clearDye : energy_blind clearDye.
Proof. unfold clearDye. blind. Qed.

(** Apart from a frame, no handler reads or writes the energy. *)
Lemma blind_handle e :
  (forall now tnow, e <> animationFrame now tnow) -> energy_blind (handle e).
Proof.
  intros He. destruct e; cbn [handle];
    try (exfalso; eapply He; reflexivity).
  - unfold onMouseMove. blind.
  - unfold onTouchMove. blind.
  - unfold onTouchMove. blind.
  - unfold onResize. blind.
  - unfold onImageLoad. blind.
  - unfold onImageError. blind.
Qed.

Section Akin.
Local Open Scope R_scope.

Lemma akin_refl s : akin s s.
Proof. now left. Qed.

Lemma akin_outcome_refl {A} (o : Outcome World A) : akin_outcome o o.
Proof. destruct o; simpl; split; trivial; apply akin_refl. Qed.

(** What is blind to the energy and keeps the reveal state respects
    kinship. *)
Lemma respects_blind {A} (m : M World A) :
  energy_blind m -> preserves reveal m -> respects_akin m.
Proof.
  intros Hb Hp s s' [->|(Ht & e & ->)]; [apply akin_outcome_refl|].
  rewrite Hb. specialize (Hp s).
  destruct (m s) as [a s1|x s1]; simpl in *; (split; [reflexivity|]);
    right; (split; [|eauto]); unfold reveal in Hp; injection Hp as H1 _ _;
    congruence.
Qed.

Lemma respects_bind {A B} (m : M World A) (k : A -> M World B) :
  respects_akin m -> (forall a, respects_akin (k a)) ->
  respects_akin (bind m k).
Proof.
  intros Hm Hk s s' Hs. unfold bind. specialize (Hm s s' Hs).
  destruct (m s) as [a s1|x s1], (m s') as [a' s1'|x' s1']; simpl in Hm;
    try contradiction; destruct Hm as [-> Hm].
  - now apply Hk.
  - simpl. now split.
Qed.

(** The energy a world carries does not show in what completion leaves. *)
Lemma completed_blind e s : completed (set_totalSplatEnergy e s) = completed s.
Proof. reflexivity. Qed.

Lemma respects_updateTransition now : respects_akin (updateTransition now).
Proof.
  intros s s' [->|(Ht & e & ->)]; [apply akin_outcome_refl|].
  destruct (updateTransition_cases now s)
    as [[_ Hi]|[(_ & Hlt & H)|(_ & Hge & H)]]; [congruence| |].
  - rewrite H.
    rewrite (updateTransition_running now (set_totalSplatEnergy e s) Ht Hlt).
    simpl. split; [reflexivity|]. right. split; [exact Ht|].
    exists e. reflexivity.
  - rewrite H.
    rewrite (updateTransition_completes now (set_totalSplatEnergy e s) Ht Hge).
    rewrite completed_blind. simpl. split; [reflexivity|apply akin_refl].
Qed.

Lemma respects_render_splat dt tnow : respects_akin (render_splat dt tnow).
Proof.
  intros s s' [->|(Ht & e & ->)]; [apply akin_outcome_refl|].
  destruct (Pointer.moved (pointer s)) eqn:Hm.
  - rewrite (render_splat_moved dt tnow s Hm).
    rewrite (render_splat_moved dt tnow (set_totalSplatEnergy e s) Hm).
    cbn [pointer set_totalSplatEnergy].
    rewrite blind_addSplat.
    pose proof (control_addSplat (Pointer.x (pointer s)) (Pointer.y (pointer s))
                  (Pointer.dx (pointer s) * CONFIG.SPLAT_FORCE * dt)
                  (Pointer.dy (pointer s) * CONFIG.SPLAT_FORCE * dt)
                  (0.9, 0.85, 0.8) s) as Hc.
    destruct (addSplat _ _ _ _ _ s) as [[] s1|x s1]; simpl in Hc;
      apply control_fields in Hc;
      destruct Hc as (_ & _ & _ & _ & _ & H1 & _); cbn [map_outcome].
    + rewrite !checkAdvance_transitioning by (cbn; congruence).
      simpl. split; [reflexivity|]. right. split; [cbn; congruence|].
      exists (e + speed (pointer s)). reflexivity.
    + simpl. split; [reflexivity|]. right. split; [congruence|eauto].
  - rewrite (render_splat_still dt tnow s Hm).
    rewrite (render_splat_still dt tnow (set_totalSplatEnergy e s) Hm).
    simpl. split; [reflexivity|]. right. eauto.
Qed.

Lemma respects_render now tnow : respects_akin (render now tnow).
Proof.
  unfold render.
  apply respects_bind; [|intros last].
  { apply respects_blind; [blind|apply preserves_the]. }
  apply respects_bind; [|intros _].
  { apply respects_blind; [blind|frame]. }
  apply respects_bind; [apply respects_render_splat|intros _].
  apply respects_bind; [|intros _].
  { apply respects_blind;
      [apply blind_step|apply reveal_of_control, control_step]. }
  apply respects_bind; [apply respects_updateTransition|intros _].
  apply respects_bind; [|intros _].
  { apply respects_blind;
      [apply blind_render_display
      |apply reveal_of_control, control_render_display]. }
  apply respects_blind; [unfold requestAnimationFrame_render; blind|].
  unfold requestAnimationFrame_render. frame.
Qed.

Lemma respects_handle e : respects_akin (handle e).
Proof.
  destruct e as [? ? ? ?|? ? ?|? ? ?|? ?|now tnow|?|?];
    try (apply respects_blind;
         [apply blind_handle; discriminate|apply handle_reveal; discriminate]).
  cbn [handle].
  apply respects_bind; [|intros pending].
  { apply respects_blind; [blind|apply preserves_the]. }
  destruct pending.
  - apply respects_bind; [|intros _; apply respects_render].
    apply respects_blind; [blind|frame].
  - apply respects_blind; [blind|frame].
Qed.

Lemma akin_dispatch s s' e : akin s s' -> akin (dispatch s e) (dispatch s' e).
Proof.
  intros H. unfold dispatch. pose proof (respects_handle e s s' H) as Ho.
  destruct (handle e s), (handle e s'); simpl in *; tauto.
Qed.

Lemma akin_run es s s' : akin s s' -> akin (run es s) (run es s').
Proof.
  revert s s'. unfold run.
  induction es as [|e es IH]; intros s s' H; simpl; [exact H|].
  apply IH. now apply akin_dispatch.
Qed.

End Akin.

Section SolverClaims.
Local Open Scope R_scope.

(** A frame of a world with all programs linked reaches the solver: the
    splat block returns some world [s1], the step runs from it with the
    frame's time step and returns, and so does the frame. *)
Lemma frame_reaches_solver now tnow s :
  loaded s ->
  exists s1 s2 s',
    render_splat (frame_dt now (lastTime s)) tnow (set_lastTime now s)
    = Return tt s1 /\
    step (frame_dt now (lastTime s)) s1 = Return tt s2 /\
    render now tnow s = Return tt s' /\
    programs s1 = programs s.
Proof.
  intros Hl.
  destruct (render_loaded now tnow s Hl)
    as (s1 & s2 & s3 & s4 & H1 & H2 & _ & _ & Hr & P1 & _).
  exists s1, s2, (set_scheduled true s4). auto.
Qed.

(** C5.  The density dissipation is exactly 1 and the velocity dissipation
    is below 1.  In every frame of a world whose programs are linked and
    whose advection program has the uniform [u_dissipation], the solver's
    first pass advects the velocity field with [u_dissipation] 0.85 and its
    second pass advects the dye field with [u_dissipation] 1. *)
Theorem dissipation_factors s now tnow adv :
  loaded s ->
  Programs.advection (programs s) = Some adv ->
  declares adv "u_dissipation" ->
  CONFIG.DENSITY_DISSIPATION = 1 /\
  CONFIG.VELOCITY_DISSIPATION < 1 /\
  exists s1 s2 s' d1 d2 rest,
    render_splat (frame_dt now (lastTime s)) tnow (set_lastTime now s)
    = Return tt s1 /\
    step (frame_dt now (lastTime s)) s1 = Return tt s2 /\
    render now tnow s = Return tt s' /\
    new_draws s1 s2 = d1 :: d2 :: rest /\
    draw_program d1 = program adv /\
    draw_target d1 = Some (FBO.fbo (DoubleFBO.write (velocity s1))) /\
    draw_uniform d1 "u_dissipation" = Some (U1f CONFIG.VELOCITY_DISSIPATION) /\
    draw_program d2 = program adv /\
    draw_target d2 = Some (FBO.fbo (DoubleFBO.write (dye s1))) /\
    draw_uniform d2 "u_dissipation" = Some (U1f CONFIG.DENSITY_DISSIPATION).
Proof.
  intros Hl Ha Hdis.
  split; [unfold CONFIG.DENSITY_DISSIPATION; lra|].
  split; [unfold CONFIG.VELOCITY_DISSIPATION; lra|].
  destruct (frame_reaches_solver now tnow s Hl) as (s1 & s2 & s' & H1 & H2 & Hr & P1).
  unfold loaded in Hl. rewrite <- P1 in Hl, Ha.
  destruct (programs s1) as [[adv'|] [div|] [pre|] [gra|] [spl|] [dis|]] eqn:Hp;
    try discriminate.
  cbn in Ha. injection Ha as ->.
  assert (Ha : Programs.advection (programs s1) = Some adv)
    by (rewrite Hp; reflexivity).
  assert (Hd : Programs.divergence (programs s1) = Some div)
    by (rewrite Hp; reflexivity).
  assert (Hpr : Programs.pressure (programs s1) = Some pre)
    by (rewrite Hp; reflexivity).
  assert (Hg : Programs.gradientSubtract (programs s1) = Some gra)
    by (rewrite Hp; reflexivity).
  destruct (step_dissipation (frame_dt now (lastTime s)) s1 adv div pre gra
              Ha Hd Hpr Hg Hdis) as (d1 & d2 & rest & Hn & U1 & U2).
  destruct (step_passes (frame_dt now (lastTime s)) s1 adv div pre gra
              Ha Hd Hpr Hg) as (s2' & H2' & Hpass & _).
  rewrite H2 in H2'. injection H2' as <-. rewrite H2 in Hn. cbn in Hn.
  rewrite Hn in Hpass. unfold solver_passes in Hpass. cbn [app] in Hpass.
  inversion Hpass as [|? ? ? ? (Q1 & Q2 & _) Hpass']; subst.
  inversion Hpass' as [|? ? ? ? (Q3 & Q4 & _) _]; subst.
  exists s1, s2, s', d1, d2, rest. repeat split; assumption.
Qed.



End SolverClaims.

Section Buffers.
Local Open Scope Z_scope.

Lemma swap_involutive d : DoubleFBO.swap (DoubleFBO.swap d) = d.
Proof. now destruct d. Qed.

Lemma createDoubleFBO_returns w h p :
  exists d p', createDoubleFBO w h p = Return d p'.
Proof. unfold createDoubleFBO. exec. eauto. Qed.

(** C8.  A double-buffered field built at any size of at least 1 by 1 and
    swapped twice is the field as built: [read] and [write] return the
    buffers they returned at first.  A swap exchanges what [read] and
    [write] return; it is a change of the field object alone, so the context
    and every texture image are untouched. *)
Theorem double_swap_identity (w h : Z) (p : Platform) :
  1 <= w -> 1 <= h ->
  exists d p',
    createDoubleFBO w h p = Return d p' /\
    DoubleFBO.swap (DoubleFBO.swap d) = d /\
    DoubleFBO.read (DoubleFBO.swap (DoubleFBO.swap d)) = DoubleFBO.read d /\
    DoubleFBO.write (DoubleFBO.swap (DoubleFBO.swap d)) = DoubleFBO.write d /\
    DoubleFBO.read (DoubleFBO.swap d) = DoubleFBO.write d /\
    DoubleFBO.write (DoubleFBO.swap d) = DoubleFBO.read d /\
    forall s,
      velocity s = d ->
      platform (state_of (velocity_swap s)) = platform s /\
      bind velocity_swap (fun _ => velocity_swap) s = Return tt s.
Proof.
  intros _ _. destruct (createDoubleFBO_returns w h p) as (d & p' & H).
  exists d, p'. split; [exact H|].
  split; [apply swap_involutive|].
  rewrite swap_involutive. do 4 (split; [reflexivity|]).
  intros s <-.
  destruct s as [? ? ? ? ? ? [? ? ? ? ? ?] ? ? ? ? ? ? ? ? ? ? ? ? ?].
  split; reflexivity.
Qed.

End Buffers.

Section DuringTransition.
Local Open Scope R_scope.

(** In a frame of a running transition that does not complete it, a
    movement of the pointer is counted. *)
Lemma render_counts_while_transitioning now tnow s :
  loaded s ->
  isTransitioning s = true ->
  Pointer.moved (pointer s) = true ->
  (now - transitionStart s) / TRANSITION_DURATION < 1 ->
  exists s',
    render now tnow s = Return tt s' /\
    isTransitioning s' = true /\
    transitionStart s' = transitionStart s /\
    totalSplatEnergy s' = totalSplatEnergy s + speed (pointer s).
Proof.
  intros Hl Ht Hm Hlt.
  destruct (render_loaded now tnow s Hl)
    as (s1 & s2 & s3 & s4 & H1 & H2 & H3 & H4 & Hr & _ & C2 & C4).
  destruct (render_splat_counts (frame_dt now (lastTime s)) tnow
              (set_lastTime now s) Hl Hm) as (sa & Ca & Hs).
  rewrite Hs in H1. apply control_fields in Ca.
  destruct Ca as (_ & _ & _ & _ & _ & Ta & Sa & Ea & _).
  cbn [set_lastTime isTransitioning transitionStart totalSplatEnergy pointer]
    in *.
  rewrite checkAdvance_transitioning in H1 by (cbn; congruence).
  injection H1 as <-.
  apply control_fields in C2.
  destruct C2 as (_ & _ & _ & _ & _ & T2 & S2 & E2 & _).
  unfold counted in *.
  cbn [set_pointer set_totalSplatEnergy isTransitioning transitionStart
       totalSplatEnergy] in *.
  assert (Hlt2 : (now - transitionStart s2) / TRANSITION_DURATION < 1)
    by (rewrite S2, Sa; exact Hlt).
  assert (T2' : isTransitioning s2 = true) by congruence.
  rewrite (updateTransition_running now s2 T2' Hlt2) in H3.
  injection H3 as <-.
  apply control_fields in C4.
  destruct C4 as (_ & _ & _ & _ & _ & T4 & S4 & E4 & _).
  cbn [set_blendFactor isTransitioning transitionStart totalSplatEnergy] in *.
  exists (set_scheduled true s4). split; [exact Hr|].
  cbn [set_scheduled isTransitioning transitionStart totalSplatEnergy].
  repeat split; congruence.
Qed.

(** C9.  Accumulation is not gated on the idle state: a frame of a running
    transition that finds a pointer movement adds its speed to the energy.
    That energy never counts: take any world in a transition and replace its
    energy by any other; after any events the two runs are the same world,
    or the transition is still running and they differ in the energy alone;
    in particular they are the same world whenever the first is idle. *)
Theorem energy_during_transition :
  (forall s now tnow,
     loaded s ->
     isTransitioning s = true ->
     Pointer.moved (pointer s) = true ->
     (now - transitionStart s) / TRANSITION_DURATION < 1 ->
     exists s',
       render now tnow s = Return tt s' /\
       isTransitioning s' = true /\
       totalSplatEnergy s' = totalSplatEnergy s + speed (pointer s)) /\
  (forall s e es,
     isTransitioning s = true ->
     akin (run es s) (run es (set_totalSplatEnergy e s))) /\
  (forall s e es,
     isTransitioning s = true ->
     isTransitioning (run es s) = false ->
     run es (set_totalSplatEnergy e s) = run es s).
Proof.
  assert (H : forall s e es,
             isTransitioning s = true ->
             akin (run es s) (run es (set_totalSplatEnergy e s))).
  { intros s e es Ht. apply akin_run. right. eauto. }
  split; [|split; [exact H|]].
  - intros s now tnow Hl Ht Hm Hlt.
    destruct (render_counts_while_transitioning now tnow s Hl Ht Hm Hlt)
      as (s' & Hr & Ht' & _ & He).
    eauto.
  - intros s e es Ht Hi. destruct (H s e es Ht) as [E|(Hc & _)];
      [exact E|congruence].
Qed.

End DuringTransition.

(** ** Frames in which the pointer has not moved *)

Section Quiet.
Local Open Scope R_scope.

Lemma render_quiet_idle now tnow s :
  loaded s ->
  isTransitioning s = false ->
  Pointer.moved (pointer s) = false ->
  exists s',
    render now tnow s = Return tt s' /\
    isTransitioning s' = false /\
    transitionStart s' = transitionStart s /\
    totalSplatEnergy s' = totalSplatEnergy s /\
    blendFactor s' = blendFactor s /\
    programs s' = programs s /\
    pointer s' = pointer s /\
    scheduled s' = true.
Proof.
  intros Hl Hi Hm.
  destruct (render_loaded now tnow s Hl)
    as (s1 & s2 & s3 & s4 & H1 & H2 & H3 & H4 & Hr & _ & C2 & C4).
  rewrite render_splat_still in H1 by exact Hm. injection H1 as <-.
  apply control_fields in C2.
  destruct C2 as (P2 & _ & _ & _ & B2 & T2 & S2 & E2 & Q2 & _).
  cbn [set_lastTime programs blendFactor isTransitioning transitionStart
       totalSplatEnergy pointer] in *.
  rewrite updateTransition_idle in H3 by congruence. injection H3 as <-.
  apply control_fields in C4.
  destruct C4 as (P4 & _ & _ & _ & B4 & T4 & S4 & E4 & Q4 & _).
  exists (set_scheduled true s4). split; [exact Hr|].
  cbn [set_scheduled programs blendFactor isTransitioning transitionStart
       totalSplatEnergy pointer scheduled].
  repeat split; congruence.
Qed.

Lemma render_quiet_running now tnow s :
  loaded s ->
  isTransitioning s = true ->
  Pointer.moved (pointer s) = false ->
  (now - transitionStart s) / TRANSITION_DURATION < 1 ->
  exists s',
    render now tnow s = Return tt s' /\
    isTransitioning s' = true /\
    transitionStart s' = transitionStart s /\
    totalSplatEnergy s' = totalSplatEnergy s /\
    blendFactor s' = (now - transitionStart s) / TRANSITION_DURATION /\
    programs s' = programs s /\
    pointer s' = pointer s /\
    scheduled s' = true.
Proof.
  intros Hl Ht Hm Hlt.
  destruct (render_loaded now tnow s Hl)
    as (s1 & s2 & s3 & s4 & H1 & H2 & H3 & H4 & Hr & _ & C2 & C4).
  rewrite render_splat_still in H1 by exact Hm. injection H1 as <-.
  apply control_fields in C2.
  destruct C2 as (P2 & _ & _ & _ & B2 & T2 & S2 & E2 & Q2 & _).
  cbn [set_lastTime programs blendFactor isTransitioning transitionStart
       totalSplatEnergy pointer] in *.
  rewrite updateTransition_running in H3 by congruence. injection H3 as <-.
  apply control_fields in C4.
  destruct C4 as (P4 & _ & _ & _ & B4 & T4 & S4 & E4 & Q4 & _).
  exists (set_scheduled true s4). split; [exact Hr|].
  cbn [set_scheduled set_blendFactor programs blendFactor isTransitioning
       transitionStart totalSplatEnergy pointer scheduled] in *.
  repeat split; congruence.
Qed.

End Quiet.

(** ** The sample run *)

Section Sample.
Local Open Scope R_scope.

Lemma booted_main host innerWidth innerHeight t0 now tnow :
  returned (boot host innerWidth innerHeight t0 page) = true ->
  main host innerWidth innerHeight t0 now tnow
  = Entered (booted host innerWidth innerHeight t0)
      (render now tnow (booted host innerWidth innerHeight t0)).
Proof.
  unfold main, booted.
  destruct (boot host innerWidth innerHeight t0 page);
    [reflexivity|discriminate].
Qed.

Lemma run_nil s : run [] s = s.
Proof. reflexivity. Qed.

Lemma run_app es es' s : run (es ++ es') s = run es' (run es s).
Proof. unfold run. apply fold_left_app. Qed.

Lemma run_cons e es s : run (e :: es) s = run es (dispatch s e).
Proof. reflexivity. Qed.

Lemma sample_start_facts :
  loaded sample_start /\
  isTransitioning sample_start = false /\
  transitionStart sample_start = 0 /\
  totalSplatEnergy sample_start = 0 /\
  blendFactor sample_start = 0 /\
  Pointer.moved (pointer sample_start) = false /\
  Pointer.x (pointer sample_start) = 0.5 * 800 /\
  Pointer.y (pointer sample_start) = 0.5 * 600.
Proof. repeat split. Qed.

Lemma sample_start_eq : sample_start = booted sample_host 800 600 0.
Proof. reflexivity. Qed.

Lemma sample_start_programs :
  Programs.advection (programs sample_start) = Some (sample_program 3) /\
  Programs.divergence (programs sample_start) = Some (sample_program 6) /\
  Programs.pressure (programs sample_start) = Some (sample_program 9) /\
  Programs.gradientSubtract (programs sample_start)
  = Some (sample_program 12).
Proof. repeat split. Qed.

Lemma sample_program_declares p name :
  In name sample_uniforms -> declares (sample_program p) name.
Proof.
  unfold sample_uniforms. cbn [In]. intros H.
  repeat (destruct H as [<-|H]; [reflexivity|]). destruct H.
Qed.

Lemma sample_world_facts :
  reachable sample_host sample_world /\
  loaded sample_world /\
  isTransitioning sample_world = false /\
  totalSplatEnergy sample_world = 0 /\
  blendFactor sample_world = 0 /\
  pointer sample_world = pointer sample_start /\
  scheduled sample_world = true.
Proof.
  destruct sample_start_facts as (Hl & Hi & Hs & He & Hbl & Hm & _).
  destruct (render_quiet_idle 0 0 sample_start Hl Hi Hm)
    as (s' & H & T' & S' & E' & B' & P' & Q' & Sc').
  assert (E : sample_world = s') by (unfold sample_world; now rewrite H).
  split.
  { exists 800%Z, 600%Z, 0, 0, 0, sample_start, (render 0 0 sample_start), [].
    split; [apply booted_main; reflexivity|].
    now rewrite run_nil. }
  rewrite E. clear E H.
  split; [unfold loaded; rewrite P'; exact Hl|].
  split; [exact T'|]. split; [now rewrite E'|].
  split; [now rewrite B'|]. split; assumption.
Qed.

Lemma sample_triggered_eq :
  sample_triggered
  = run [mousemove 8401 300 0 0; animationFrame 16 16] sample_world.
Proof. reflexivity. Qed.

Lemma sample_halfway_eq :
  sample_halfway = run [animationFrame 616 616] sample_triggered.
Proof. reflexivity. Qed.

End Sample.

(** From here on the sample worlds are used through these facts only. *)
Opaque sample_start sample_world sample_triggered sample_halfway.

Section SampleRun.
Local Open Scope R_scope.

Lemma reachable_run host s es : reachable host s -> reachable host (run es s).
Proof.
  intros (iw & ih & t0 & now & tnow & s0 & first & es0 & Hm & ->).
  exists iw, ih, t0, now, tnow, s0, first, (es0 ++ es)%list.
  split; [exact Hm|]. now rewrite run_app.
Qed.

Lemma dispatch_frame s now tnow :
  scheduled s = true ->
  dispatch s (animationFrame now tnow)
  = state_of (render now tnow (set_scheduled false s)).
Proof.
  intros H. unfold dispatch. cbn [handle]. unfold bind, the, modify.
  now rewrite H.
Qed.

Lemma dispatch_mousemove s clientX clientY rect_left rect_top :
  dispatch s (mousemove clientX clientY rect_left rect_top)
  = set_pointer
      {| Pointer.x := clientX - rect_left;
         Pointer.y := clientY - rect_top;
         Pointer.dx := clientX - rect_left - Pointer.x (pointer s);
         Pointer.dy := clientY - rect_top - Pointer.y (pointer s);
         Pointer.moved := true |} s.
Proof. reflexivity. Qed.

Lemma speed_horizontal x y dx dy m :
  0 <= dx -> dy = 0 ->
  speed {| Pointer.x := x; Pointer.y := y; Pointer.dx := dx;
           Pointer.dy := dy; Pointer.moved := m |} = dx.
Proof.
  intros Hx ->. unfold speed, Math_sqrt. cbn.
  replace (dx * dx + 0 * 0) with (dx * dx) by lra. now apply sqrt_square.
Qed.

Lemma sample_triggered_facts :
  reachable sample_host sample_triggered /\
  loaded sample_triggered /\
  isTransitioning sample_triggered = true /\
  transitionStart sample_triggered = 16 /\
  totalSplatEnergy sample_triggered = 8001 /\
  blendFactor sample_triggered = 0 /\
  Pointer.moved (pointer sample_triggered) = false /\
  scheduled sample_triggered = true.
Proof.
  destruct sample_world_facts as (Hre & Hl & Hi & He & Hb & Hp & Hs).
  destruct sample_start_facts as (_ & _ & _ & _ & _ & _ & Hx & Hy).
  rewrite sample_triggered_eq.
  split; [now apply reachable_run|].
  rewrite !run_cons, run_nil, dispatch_mousemove.
  rewrite dispatch_frame by exact Hs.
  set (ptr := {| Pointer.x := 8401 - 0; Pointer.y := 300 - 0;
                 Pointer.dx := 8401 - 0 - Pointer.x (pointer sample_world);
                 Pointer.dy := 300 - 0 - Pointer.y (pointer sample_world);
                 Pointer.moved := true |}).
  assert (Hsp : speed ptr = 8001).
  { unfold ptr. rewrite speed_horizontal; rewrite Hp, ?Hx, ?Hy; lra. }
  assert (Hen : ADVANCE_ENERGY <
                totalSplatEnergy
                  (set_scheduled false (set_pointer ptr sample_world))
                + speed
                    (pointer
                       (set_scheduled false (set_pointer ptr sample_world)))).
  { cbn [set_scheduled set_pointer totalSplatEnergy pointer].
    rewrite He, Hsp. unfold ADVANCE_ENERGY. lra. }
  destruct (render_triggers 16 16
              (set_scheduled false (set_pointer ptr sample_world))
              Hl Hi eq_refl Hen (Rle_refl 16))
    as (s' & H & Ht & Hs' & He' & Hb' & _ & _ & Hp' & _ & Hsc & Hm').
  rewrite H. cbn [state_of].
  cbn [set_scheduled set_pointer totalSplatEnergy pointer programs] in *.
  split; [unfold loaded; rewrite Hp'; exact Hl|].
  split; [exact Ht|]. split; [exact Hs'|].
  split; [rewrite He', He, Hsp; lra|].
  split; [rewrite Hb'; unfold TRANSITION_DURATION; lra|].
  split; assumption.
Qed.

Lemma sample_halfway_facts :
  reachable sample_host sample_halfway /\
  loaded sample_halfway /\
  isTransitioning sample_halfway = true /\
  transitionStart sample_halfway = 16 /\
  totalSplatEnergy sample_halfway = 8001 /\
  blendFactor sample_halfway = 0.5.
Proof.
  destruct sample_triggered_facts
    as (Hre & Hl & Ht & Hst & He & Hb & Hm & Hs).
  rewrite sample_halfway_eq.
  split; [now apply reachable_run|].
  rewrite run_cons, run_nil.
  rewrite dispatch_frame by exact Hs.
  assert (Hlt : (616 - transitionStart
                          (set_scheduled false sample_triggered))
                / TRANSITION_DURATION < 1).
  { cbn [set_scheduled transitionStart]. rewrite Hst.
    unfold TRANSITION_DURATION. lra. }
  destruct (render_quiet_running 616 616
              (set_scheduled false sample_triggered) Hl Ht Hm Hlt)
    as (s' & H & R1 & R2 & R3 & B' & P' & _).
  rewrite H. cbn [state_of].
  cbn [set_scheduled isTransitioning transitionStart totalSplatEnergy
       programs] in *.
  split; [unfold loaded; rewrite P'; exact Hl|].
  split; [congruence|]. split; [congruence|]. split; [congruence|].
  rewrite B', Hst. unfold TRANSITION_DURATION. lra.
Qed.

End SampleRun.

(** ** Viewport resize *)

(** Deciding the comparisons of object names that [exec] leaves. *)
Ltac decide_names :=
  unfold upd, GL.designates;
  repeat match goal with
         | |- context [Nat.eqb ?a ?b] =>
             first [ rewrite (Nat.eqb_refl a)
                   | rewrite (proj2 (Nat.eqb_neq a b)) by lia ]
         end.

Section Resize.
Local Open Scope R_scope.

Lemma onResize_spec innerWidth innerHeight s :
  exists s',
    onResize innerWidth innerHeight s = Return tt s' /\
    control s' = control s /\
    canvas_width (platform s') = innerWidth /\
    canvas_height (platform s') = innerHeight /\
    simRes s' = getRes CONFIG.SIM_RESOLUTION (platform s') /\
    dyeRes s' = getRes CONFIG.DYE_RESOLUTION (platform s') /\
    sized (velocity s') (simRes s') /\
    sized (dye s') (dyeRes s') /\
    sized (pressure s') (simRes s') /\
    FBO.width (divergence s') = Res.w (simRes s') /\
    FBO.height (divergence s') = Res.h (simRes s') /\
    Forall (fun f => (gl_next (gl (platform s)) <= FBO.tex f)%nat /\
                     (gl_next (gl (platform s)) <= FBO.fbo f)%nat /\
                     image_of s' f = Zeroed)
      (buffers s') /\
    buffers_ok s'.
Proof.
  open_world s. eexists. split; [unfold onResize; exec; reflexivity|].
  split; [reflexivity|]. split; [reflexivity|]. split; [reflexivity|].
  split; [reflexivity|]. split; [reflexivity|].
  split; [repeat split|]. split; [repeat split|]. split; [repeat split|].
  split; [reflexivity|]. split; [reflexivity|].
  split.
  - unfold buffers, image_of. exec.
    repeat (apply Forall_cons;
            [cbn [FBO.tex FBO.fbo]; split; [lia|split; [lia|]]|]);
      try apply Forall_nil.
    all: decide_names; reflexivity.
  - unfold buffers_ok, buffers, attached. exec. split.
    + repeat (apply Forall_cons; [cbn [FBO.tex FBO.fbo]|]);
        try apply Forall_nil.
      all: decide_names; reflexivity.
    + cbn [map FBO.tex].
      repeat (apply NoDup_cons; [cbn [In]; lia|]). apply NoDup_nil.
Qed.

(** C4 as amended.  A resize reallocates the velocity, dye, divergence and
    pressure fields at the resolutions of the new canvas: seven new buffers,
    each rendering into its own new texture, all zeroed.  Everything else
    the script keeps is as before; in particular a transition in flight
    stays in flight and the accumulated energy stays. *)
Theorem resize_reallocates (s : World) (innerWidth innerHeight : Z) :
  exists s',
    handle (resize innerWidth innerHeight) s = Return tt s' /\
    canvas_width (platform s') = innerWidth /\
    canvas_height (platform s') = innerHeight /\
    simRes s' = getRes CONFIG.SIM_RESOLUTION (platform s') /\
    dyeRes s' = getRes CONFIG.DYE_RESOLUTION (platform s') /\
    sized (velocity s') (simRes s') /\
    sized (dye s') (dyeRes s') /\
    sized (pressure s') (simRes s') /\
    FBO.width (divergence s') = Res.w (simRes s') /\
    FBO.height (divergence s') = Res.h (simRes s') /\
    Forall (fun f => (gl_next (gl (platform s)) <= FBO.tex f)%nat /\
                     (gl_next (gl (platform s)) <= FBO.fbo f)%nat /\
                     image_of s' f = Zeroed)
      (buffers s') /\
    buffers_ok s' /\
    isTransitioning s' = isTransitioning s /\
    blendFactor s' = blendFactor s /\
    transitionStart s' = transitionStart s /\
    totalSplatEnergy s' = totalSplatEnergy s /\
    currentImageIdx s' = currentImageIdx s /\
    nextImageIdx s' = nextImageIdx s /\
    pointer s' = pointer s.
Proof.
  destruct (onResize_spec innerWidth innerHeight s)
    as (s' & H & Hc & H1 & H2 & H3 & H4 & H5 & H6 & H7 & H8 & H9 & H10 & H11).
  apply control_fields in Hc.
  destruct Hc as (_ & _ & C1 & C2 & C3 & C4 & C5 & C6 & C7 & _).
  exists s'. cbn [handle]. repeat (split; [assumption|]). assumption.
Qed.

(** C4 as stated fails: half way through a transition of the sample run, a
    resize leaves the state transitioning, the blend factor at one half and
    the energy at 8001; none of the three is reset. *)
Lemma resize_keeps_transition :
  reachable sample_host sample_halfway /\
  isTransitioning sample_halfway = true /\
  blendFactor sample_halfway = 0.5 /\
  totalSplatEnergy sample_halfway = 8001 /\
  isTransitioning (dispatch sample_halfway (resize 1024 768)) = true /\
  blendFactor (dispatch sample_halfway (resize 1024 768)) = 0.5 /\
  totalSplatEnergy (dispatch sample_halfway (resize 1024 768)) = 8001 /\
  ~ (isTransitioning (dispatch sample_halfway (resize 1024 768)) = false /\
     blendFactor (dispatch sample_halfway (resize 1024 768)) = 0 /\
     totalSplatEnergy (dispatch sample_halfway (resize 1024 768)) = 0).
Proof.
  destruct sample_halfway_facts as (Hre & _ & Ht & _ & He & Hb).
  destruct (onResize_spec 1024 768 sample_halfway) as (s' & H & Hc & _).
  apply control_fields in Hc.
  destruct Hc as (_ & _ & _ & _ & C3 & C4 & _ & C6 & _).
  assert (E : dispatch sample_halfway (resize 1024 768) = s').
  { unfold dispatch. cbn [handle]. now rewrite H. }
  rewrite E, C3, C4, C6, Ht, Hb, He.
  repeat split; trivial. intros (Hf & _). discriminate.
Qed.

End Resize.

(** ** Shader compilation and linking *)

Ltac open_platform p :=
  destruct p as [p_gl p_cw p_ch p_con p_al];
  destruct p_gl as [g_next g_pix g_att g_sh g_links g_prog g_uni g_act
                    g_units g_fb g_ab g_eb g_a0 g_a0e g_vp g_scr g_draws];
  cbn [gl canvas_width canvas_height console alerts
       gl_next gl_pixels gl_attachment gl_attached gl_links gl_program
       gl_uniforms gl_active gl_units gl_framebuffer gl_array_buffer
       gl_element_buffer gl_attrib0 gl_attrib0_enabled gl_viewport gl_screen
       gl_draws] in *.

Section Linking.

Variable host : Host.

(** When both shaders compile, [createProgram] returns: the program when
    the pair links, null and a logged diagnostic otherwise.  One link is
    attempted either way. *)
Lemma createProgram_compiled vertSrc fragSrc p :
  host_compiles host VERTEX_SHADER vertSrc = true ->
  host_compiles host FRAGMENT_SHADER fragSrc = true ->
  clean p ->
  exists r p',
    createProgram host vertSrc fragSrc p = Return r p' /\
    is_null r = negb (host_links host vertSrc fragSrc) /\
    (forall q, r = Some q -> faithful q) /\
    console p' =
      (console p ++ if host_links host vertSrc fragSrc then []
                    else ["Program link error:"%string])%list /\
    gl_links (gl p') =
      (gl_links (gl p)
       ++ [(S (S (gl_next (gl p))), host_links host vertSrc fragSrc)])%list /\
    gl_next (gl p') = S (S (S (gl_next (gl p)))) /\
    alerts p' = alerts p /\
    canvas_width p' = canvas_width p /\
    canvas_height p' = canvas_height p /\
    clean p'.
Proof.
  intros Hv Hf Hc. unfold clean in Hc. open_platform p.
  unfold createProgram, compileShader, attachShader. rewrite Hv, Hf.
  exec. unfold GL.LINK_STATUS. cbn [gl_links].
  rewrite rev_unit. cbn [find fst snd]. rewrite Nat.eqb_refl.
  decide_names. rewrite (Hc (S (S g_next))) by lia.
  cbn [app find GL.has_type shader_type shader_source].
  destruct (host_links host vertSrc fragSrc) eqn:Hl; exec;
    do 2 eexists; (split; [reflexivity|]); cbn [is_null negb].
  - split; [reflexivity|]. split.
    { intros q Hq. injection Hq as <-. intros name l.
      unfold uniform_of. cbn [uniforms program].
      induction (host_active_uniforms host vertSrc fragSrc) as [|n ns IH];
        cbn [map find fst snd]; [discriminate|].
      destruct (String.eqb_spec n name) as [->|Hn]; [|exact IH].
      intros E. now injection E as <-. }
    rewrite app_nil_r. repeat split.
    intros k Hk. cbn [gl gl_next gl_attached] in Hk |- *.
    decide_names. apply Hc. lia.
  - split; [reflexivity|]. split; [discriminate|].
    repeat split. intros k Hk. cbn [gl gl_next gl_attached] in Hk |- *.
    decide_names. apply Hc. lia.
Qed.

(** When a shader does not compile and a null argument throws, so does
    [createProgram], after the diagnostic. *)
Lemma createProgram_throws vertSrc fragSrc p :
  host_null_argument_throws host = true ->
  host_compiles host VERTEX_SHADER vertSrc = false \/
  host_compiles host FRAGMENT_SHADER fragSrc = false ->
  exists p',
    createProgram host vertSrc fragSrc p = Throw TypeError p' /\
    In "Shader compile error:"%string (console p').
Proof.
  intros Ht H. open_platform p.
  unfold createProgram, compileShader, attachShader. rewrite Ht.
  destruct (host_compiles host VERTEX_SHADER vertSrc),
           (host_compiles host FRAGMENT_SHADER fragSrc);
    try (destruct H; discriminate); exec; eexists;
    (split; [reflexivity|]); cbn [console]; rewrite ?in_app_iff;
    cbn [In]; tauto.
Qed.

End Linking.

Section BootCompiled.

Variable host : Host.
Hypothesis webgl : host_webgl host = true.
Hypothesis scripts : scripts_present host.
Hypothesis compiles : forall t src, host_compiles host t src = true.

Lemma return_platform (o : Outcome Platform World) s p :
  o = Return s p -> platform s = p -> o = Return s (platform s).
Proof. now intros -> <-. Qed.

Lemma page_clean innerWidth innerHeight :
  clean (set_canvas innerWidth innerHeight page).
Proof. intros k _. reflexivity. Qed.

Lemma boot_compiled innerWidth innerHeight t0 :
  exists s,
    boot host innerWidth innerHeight t0 page = Return s (platform s) /\
    map is_null (entries (programs s))
    = map (fun id => negb (links_ok host id)) fragment_ids /\
    Forall (fun o => forall q, o = Some q -> faithful q)
      (entries (programs s)) /\
    console (platform s) = link_errors host /\
    map snd (gl_links (gl (platform s))) = map (links_ok host) fragment_ids /\
    map fst (gl_links (gl (platform s))) = [3; 6; 9; 12; 15; 18]%nat /\
    alerts (platform s) = [] /\
    Pointer.moved (pointer s) = false /\
    isTransitioning s = false /\
    scheduled s = false /\
    buffers_ok s.
Proof.
  unfold link_errors, links_ok, fragment_ids. unfold scripts_present in scripts.
  pose proof (scripts "vertShader"%string) as S0.
  pose proof (scripts "fragAdvection"%string) as S1.
  pose proof (scripts "fragDivergence"%string) as S2.
  pose proof (scripts "fragPressure"%string) as S3.
  pose proof (scripts "fragGradientSubtract"%string) as S4.
  pose proof (scripts "fragSplat"%string) as S5.
  pose proof (scripts "fragDisplay"%string) as S6.
  unfold fragment_ids in *. cbn [In] in *.
  destruct (host_script host "vertShader") as [v|] eqn:E0; [clear S0|tauto].
  destruct (host_script host "fragAdvection") as [f1|] eqn:E1;
    [clear S1|exfalso; apply S1; tauto].
  destruct (host_script host "fragDivergence") as [f2|] eqn:E2;
    [clear S2|exfalso; apply S2; tauto].
  destruct (host_script host "fragPressure") as [f3|] eqn:E3;
    [clear S3|exfalso; apply S3; tauto].
  destruct (host_script host "fragGradientSubtract") as [f4|] eqn:E4;
    [clear S4|exfalso; apply S4; tauto].
  destruct (host_script host "fragSplat") as [f5|] eqn:E5;
    [clear S5|exfalso; apply S5; tauto].
  destruct (host_script host "fragDisplay") as [f6|] eqn:E6;
    [clear S6|exfalso; apply S6; tauto].
  unfold boot, shaderSrc. rewrite webgl, E0, E1, E2, E3, E4, E5, E6.
  cbv beta iota delta [bind modify ret deref].
  destruct (createProgram_compiled host v f1 _ (compiles _ _) (compiles _ _)
              (page_clean innerWidth innerHeight))
    as (r1 & p1 & C1 & N1 & F1 & L1 & K1 & G1 & A1 & W1 & H1 & Cl1).
  rewrite C1.
  destruct (createProgram_compiled host v f2 p1 (compiles _ _) (compiles _ _) Cl1)
    as (r2 & p2 & C2 & N2 & F2 & L2 & K2 & G2 & A2 & W2 & H2 & Cl2).
  rewrite C2.
  destruct (createProgram_compiled host v f3 p2 (compiles _ _) (compiles _ _) Cl2)
    as (r3 & p3 & C3 & N3 & F3 & L3 & K3 & G3 & A3 & W3 & H3 & Cl3).
  rewrite C3.
  destruct (createProgram_compiled host v f4 p3 (compiles _ _) (compiles _ _) Cl3)
    as (r4 & p4 & C4 & N4 & F4 & L4 & K4 & G4 & A4 & W4 & H4 & Cl4).
  rewrite C4.
  destruct (createProgram_compiled host v f5 p4 (compiles _ _) (compiles _ _) Cl4)
    as (r5 & p5 & C5 & N5 & F5 & L5 & K5 & G5 & A5 & W5 & H5 & Cl5).
  rewrite C5.
  destruct (createProgram_compiled host v f6 p5 (compiles _ _) (compiles _ _) Cl5)
    as (r6 & p6 & C6 & N6 & F6 & L6 & K6 & G6 & A6 & W6 & H6 & Cl6).
  rewrite C6.
  rewrite L1, K1, G1, A1 in *. cbn [page gl console alerts gl_links
    GL.fresh_context gl_next set_canvas app] in *.
  rewrite L2, K2, G2, A2 in *. rewrite L3, K3, G3, A3 in *.
  rewrite L4, K4, G4, A4 in *. rewrite L5, K5, G5, A5 in *.
  clear C1 C2 C3 C4 C5 C6 Cl1 Cl2 Cl3 Cl4 Cl5 Cl6 W1 W2 W3 W4 W5 W6 H1 H2 H3 H4
    H5 H6.
  clear p1 p2 p3 p4 p5 G1 G2 G3 G4 G5 A1 A2 A3 A4 A5 L1 L2 L3 L4 L5 K1 K2 K3 K4
    K5.
  open_platform p6. subst.
  eexists. split.
  { eapply return_platform; [unfold CONFIG.IMAGES; exec; reflexivity|].
    reflexivity. }
  cbn [entries programs Programs.advection Programs.divergence
       Programs.pressure Programs.gradientSubtract Programs.splat
       Programs.display map flat_map].
  cbv beta iota. rewrite E1, E2, E3, E4, E5, E6.
  split; [now rewrite N1, N2, N3, N4, N5, N6|].
  split; [repeat (apply Forall_cons; [assumption|]); apply Forall_nil|].
  exec. cbn [map fst snd].
  split.
  { rewrite app_nil_r, <- !app_assoc. reflexivity. }
  split.
  { rewrite !map_app. reflexivity. }
  split.
  { rewrite !map_app. reflexivity. }
  split; [reflexivity|]. split; [reflexivity|]. split; [reflexivity|].
  split; [reflexivity|].
  unfold buffers_ok, buffers, attached. exec. split.
  + repeat (apply Forall_cons; [cbn [FBO.tex FBO.fbo]|]);
      try apply Forall_nil.
    all: decide_names; reflexivity.
  + cbn [map FBO.tex].
    repeat (apply NoDup_cons; [cbn [In]; lia|]). apply NoDup_nil.
Qed.

End BootCompiled.

Section FailedPrograms.
Local Open Scope R_scope.

(** With one of its four programs null, [step] throws a TypeError. *)
Lemma step_throws dt s :
  Programs.advection (programs s) = None \/
  Programs.divergence (programs s) = None \/
  Programs.pressure (programs s) = None \/
  Programs.gradientSubtract (programs s) = None ->
  exists s', step dt s = Throw TypeError s' /\ control s' = control s.
Proof.
  intros H.
  assert (E : exists s', step dt s = Throw TypeError s').
  { open_world s. destruct s_prg as [[adv|] [div|] [pre|] [gra|] spl dis];
      cbn [Programs.advection Programs.divergence Programs.pressure
           Programs.gradientSubtract] in H;
      try (exfalso; destruct H as [H|[H|[H|H]]]; discriminate H);
      eexists; unfold step; exec; reflexivity. }
  destruct E as (s' & E). pose proof (control_step dt s) as Hc.
  rewrite E in Hc. eauto.
Qed.

Lemma render_display_throws s :
  Programs.display (programs s) = None ->
  render_display s = Throw TypeError s.
Proof. intros H. unfold render_display, bind, the. now rewrite H. Qed.

(** A frame in which the pointer has not moved throws a TypeError when a
    program of the solver or the display program is null, and requests no
    further frame. *)
Lemma render_throws now tnow s :
  Pointer.moved (pointer s) = false ->
  Programs.advection (programs s) = None \/
  Programs.divergence (programs s) = None \/
  Programs.pressure (programs s) = None \/
  Programs.gradientSubtract (programs s) = None \/
  Programs.display (programs s) = None ->
  exists s', render now tnow s = Throw TypeError s' /\
             scheduled s' = scheduled s.
Proof.
  intros Hm H. unfold render. unfold bind at 1, the at 1.
  unfold bind at 1, modify at 1. unfold bind at 1.
  rewrite render_splat_still by exact Hm. unfold bind at 1.
  set (s0 := set_lastTime now s).
  set (dt := frame_dt now (lastTime s)).
  destruct (Programs.advection (programs s0)) as [adv|] eqn:Ha.
  2:{ destruct (step_throws dt s0) as (s' & E & C); [tauto|].
      rewrite E. apply control_fields in C. exists s'. split; [reflexivity|].
      now destruct C as (_&_&_&_&_&_&_&_&_&_&->). }
  destruct (Programs.divergence (programs s0)) as [div|] eqn:Hd.
  2:{ destruct (step_throws dt s0) as (s' & E & C); [tauto|].
      rewrite E. apply control_fields in C. exists s'. split; [reflexivity|].
      now destruct C as (_&_&_&_&_&_&_&_&_&_&->). }
  destruct (Programs.pressure (programs s0)) as [pre|] eqn:Hp.
  2:{ destruct (step_throws dt s0) as (s' & E & C); [tauto|].
      rewrite E. apply control_fields in C. exists s'. split; [reflexivity|].
      now destruct C as (_&_&_&_&_&_&_&_&_&_&->). }
  destruct (Programs.gradientSubtract (programs s0)) as [gra|] eqn:Hg.
  2:{ destruct (step_throws dt s0) as (s' & E & C); [tauto|].
      rewrite E. apply control_fields in C. exists s'. split; [reflexivity|].
      now destruct C as (_&_&_&_&_&_&_&_&_&_&->). }
  assert (Hdis : Programs.display (programs s) = None).
  { unfold s0 in *. cbn [set_lastTime programs] in *.
    destruct H as [H|[H|[H|[H|H]]]];
      [rewrite H in Ha; discriminate Ha|rewrite H in Hd; discriminate Hd
      |rewrite H in Hp; discriminate Hp|rewrite H in Hg; discriminate Hg
      |exact H]. }
  destruct (step_passes dt s0 adv div pre gra Ha Hd Hp Hg) as (s2 & E2 & _).
  pose proof (control_step dt s0) as C2. rewrite E2 in C2.
  cbn [state_of] in C2. rewrite E2.
  apply control_fields in C2.
  destruct C2 as (P2 & _ & _ & _ & _ & _ & _ & _ & _ & _ & S2).
  unfold bind at 1.
  destruct (updateTransition_cases now s2)
    as [[E3 _]|[(_ & _ & E3)|(_ & _ & E3)]]; rewrite E3; unfold bind at 1.
  - rewrite render_display_throws by (rewrite P2; exact Hdis).
    exists s2. split; [reflexivity|]. now rewrite S2.
  - rewrite render_display_throws
      by (cbn [set_blendFactor programs]; rewrite P2; exact Hdis).
    eexists. split; [reflexivity|]. cbn [set_blendFactor scheduled].
    now rewrite S2.
  - destruct (completed_control s2) as (_&_&_&_&_&_&_&_&S3&P3&_).
    rewrite render_display_throws by (rewrite P3, P2; exact Hdis).
    eexists. split; [reflexivity|]. now rewrite S3, S2.
Qed.

End FailedPrograms.

Section CompileFailure.

Variable host : Host.
Hypothesis webgl : host_webgl host = true.
Hypothesis scripts : scripts_present host.
Hypothesis throws : host_null_argument_throws host = true.

(** When a shader does not compile on a host where a null argument throws,
    start-up is aborted by a TypeError, after the diagnostic; [render] is
    never called. *)
Lemma boot_compile_failure innerWidth innerHeight t0 :
  compiles_ok host VERTEX_SHADER "vertShader" = false \/
  (exists id, In id fragment_ids /\
              compiles_ok host FRAGMENT_SHADER id = false) ->
  exists p,
    boot host innerWidth innerHeight t0 page = Throw TypeError p /\
    In "Shader compile error:"%string (console p).
Proof.
  unfold compiles_ok, fragment_ids. unfold scripts_present in scripts.
  pose proof (scripts "vertShader"%string) as S0.
  pose proof (scripts "fragAdvection"%string) as S1.
  pose proof (scripts "fragDivergence"%string) as S2.
  pose proof (scripts "fragPressure"%string) as S3.
  pose proof (scripts "fragGradientSubtract"%string) as S4.
  pose proof (scripts "fragSplat"%string) as S5.
  pose proof (scripts "fragDisplay"%string) as S6.
  unfold fragment_ids in *. cbn [In] in *.
  destruct (host_script host "vertShader") as [v|] eqn:E0; [clear S0|tauto].
  destruct (host_script host "fragAdvection") as [f1|] eqn:E1;
    [clear S1|exfalso; apply S1; tauto].
  destruct (host_script host "fragDivergence") as [f2|] eqn:E2;
    [clear S2|exfalso; apply S2; tauto].
  destruct (host_script host "fragPressure") as [f3|] eqn:E3;
    [clear S3|exfalso; apply S3; tauto].
  destruct (host_script host "fragGradientSubtract") as [f4|] eqn:E4;
    [clear S4|exfalso; apply S4; tauto].
  destruct (host_script host "fragSplat") as [f5|] eqn:E5;
    [clear S5|exfalso; apply S5; tauto].
  destruct (host_script host "fragDisplay") as [f6|] eqn:E6;
    [clear S6|exfalso; apply S6; tauto].
  intros H.
  unfold boot, shaderSrc. rewrite webgl, E0, E1, E2, E3, E4, E5, E6.
  cbv beta iota delta [bind modify ret deref].
  pose proof (page_clean innerWidth innerHeight) as Cl.
  destruct (host_compiles host VERTEX_SHADER v) eqn:Cv.
  2:{ destruct (createProgram_throws host v f1
                  (set_canvas innerWidth innerHeight page) throws
                  (or_introl Cv)) as (p' & E & Hin).
      rewrite E. eauto. }
  destruct (host_compiles host FRAGMENT_SHADER f1) eqn:C1.
  2:{ destruct (createProgram_throws host v f1
                  (set_canvas innerWidth innerHeight page) throws
                  (or_intror C1)) as (p' & E & Hin).
      rewrite E. eauto. }
  destruct (createProgram_compiled host v f1 _ Cv C1 Cl)
    as (r1 & p1 & X1 & _ & _ & _ & _ & _ & _ & _ & _ & Cl1).
  rewrite X1. clear X1 Cl.
  destruct (host_compiles host FRAGMENT_SHADER f2) eqn:C2.
  2:{ destruct (createProgram_throws host v f2 p1 throws (or_intror C2))
        as (p' & E & Hin). rewrite E. eauto. }
  destruct (createProgram_compiled host v f2 _ Cv C2 Cl1)
    as (r2 & p2 & X2 & _ & _ & _ & _ & _ & _ & _ & _ & Cl2).
  rewrite X2. clear X2 Cl1.
  destruct (host_compiles host FRAGMENT_SHADER f3) eqn:C3.
  2:{ destruct (createProgram_throws host v f3 p2 throws (or_intror C3))
        as (p' & E & Hin). rewrite E. eauto. }
  destruct (createProgram_compiled host v f3 _ Cv C3 Cl2)
    as (r3 & p3 & X3 & _ & _ & _ & _ & _ & _ & _ & _ & Cl3).
  rewrite X3. clear X3 Cl2.
  destruct (host_compiles host FRAGMENT_SHADER f4) eqn:C4.
  2:{ destruct (createProgram_throws host v f4 p3 throws (or_intror C4))
        as (p' & E & Hin). rewrite E. eauto. }
  destruct (createProgram_compiled host v f4 _ Cv C4 Cl3)
    as (r4 & p4 & X4 & _ & _ & _ & _ & _ & _ & _ & _ & Cl4).
  rewrite X4. clear X4 Cl3.
  destruct (host_compiles host FRAGMENT_SHADER f5) eqn:C5.
  2:{ destruct (createProgram_throws host v f5 p4 throws (or_intror C5))
        as (p' & E & Hin). rewrite E. eauto. }
  destruct (createProgram_compiled host v f5 _ Cv C5 Cl4)
    as (r5 & p5 & X5 & _ & _ & _ & _ & _ & _ & _ & _ & Cl5).
  rewrite X5. clear X5 Cl4.
  destruct (host_compiles host FRAGMENT_SHADER f6) eqn:C6.
  2:{ destruct (createProgram_throws host v f6 p5 throws (or_intror C6))
        as (p' & E & Hin). rewrite E. eauto. }
  exfalso. destruct H as [H|(id & Hid & H)]; [discriminate H|].
  destruct Hid as [<-|[<-|[<-|[<-|[<-|[<-|[]]]]]]];
    rewrite ?E1, ?E2, ?E3, ?E4, ?E5, ?E6 in H; congruence.
Qed.

End CompileFailure.

Section StartupClaim.
Local Open Scope R_scope.

(** C2 as amended.  On a host with a WebGL context and the page's shader
    scripts:
    - when every shader compiles, start-up is never aborted: [render] is
      called; a program is null exactly when it does not link, and each of
      those logs one diagnostic; every program is linked once, nothing is
      retried and no alert is shown.  With all six programs linked the first
      frame returns and requests the next one.  With a program of the solver
      or the display program null the first frame throws a TypeError and
      requests no further frame;
    - when a shader does not compile and a null argument to [attachShader]
      throws, start-up is aborted by a TypeError after the diagnostic. *)
Theorem link_failure_is_not_fatal :
  (forall host innerWidth innerHeight t0 now tnow,
     host_webgl host = true ->
     scripts_present host ->
     (forall t src, host_compiles host t src = true) ->
     exists s,
       main host innerWidth innerHeight t0 now tnow
       = Entered s (render now tnow s) /\
       map is_null (entries (programs s))
       = map (fun id => negb (links_ok host id)) fragment_ids /\
       console (platform s) = link_errors host /\
       map snd (gl_links (gl (platform s)))
       = map (links_ok host) fragment_ids /\
       NoDup (map fst (gl_links (gl (platform s)))) /\
       alerts (platform s) = [] /\
       (linked (programs s) = true ->
        exists s', render now tnow s = Return tt s' /\ scheduled s' = true) /\
       (Programs.advection (programs s) = None \/
        Programs.divergence (programs s) = None \/
        Programs.pressure (programs s) = None \/
        Programs.gradientSubtract (programs s) = None \/
        Programs.display (programs s) = None ->
        exists s',
          render now tnow s = Throw TypeError s' /\ scheduled s' = false)) /\
  (forall host innerWidth innerHeight t0 now tnow,
     host_webgl host = true ->
     scripts_present host ->
     host_null_argument_throws host = true ->
     compiles_ok host VERTEX_SHADER "vertShader" = false \/
     (exists id, In id fragment_ids /\
                 compiles_ok host FRAGMENT_SHADER id = false) ->
     exists p,
       main host innerWidth innerHeight t0 now tnow = Aborted TypeError p /\
       In "Shader compile error:"%string (console p)).
Proof.
  split.
  - intros host iw ih t0 now tnow Hw Hs Hc.
    destruct (boot_compiled host Hw Hs Hc iw ih t0)
      as (s & Hb & Hn & _ & Hco & Hl & Hf & Ha & Hm & Hi & Hsc & _).
    exists s. split; [unfold main; now rewrite Hb|].
    split; [exact Hn|]. split; [exact Hco|]. split; [exact Hl|].
    split.
    { rewrite Hf. repeat (apply NoDup_cons; [cbn [In]; lia|]).
      apply NoDup_nil. }
    split; [exact Ha|]. split.
    + intros Hlk.
      destruct (render_loaded now tnow s Hlk)
        as (s1 & s2 & s3 & s4 & _ & _ & _ & _ & Hr & _).
      exists (set_scheduled true s4). split; [exact Hr|reflexivity].
    + intros Hnull.
      destruct (render_throws now tnow s Hm Hnull) as (s' & Hr & Hs').
      exists s'. split; [exact Hr|]. now rewrite Hs'.
  - intros host iw ih t0 now tnow Hw Hs Ht Hfail.
    destruct (boot_compile_failure host Hw Hs Ht iw ih t0 Hfail)
      as (p & Hb & Hin).
    exists p. split; [unfold main; now rewrite Hb|exact Hin].
Qed.

(** C2 as stated fails: on the host whose display program does not link,
    start-up logs the diagnostic, leaves the display program null, and
    calls [render]: the frame loop is entered with a failed program. *)
Lemma link_failure_enters_loop :
  links_ok display_fails_host "fragDisplay" = false /\
  main display_fails_host 800 600 0 0 0
  = Entered (booted display_fails_host 800 600 0)
      (render 0 0 (booted display_fails_host 800 600 0)) /\
  Programs.display (programs (booted display_fails_host 800 600 0)) = None /\
  console (platform (booted display_fails_host 800 600 0))
  = ["Program link error:"%string].
Proof.
  split; [reflexivity|]. split; [apply booted_main; reflexivity|].
  split; reflexivity.
Qed.

End StartupClaim.

(** ** The buffers of every reachable world *)

Section Invariant.
Context {S : Type} (I : S -> Prop).

Lemma inv_ret {A} (a : A) : moves I I (ret a).
Proof. now intros s. Qed.

Lemma inv_throw {A} e : moves I I (@throw S A e).
Proof. now intros s. Qed.

Lemma inv_deref {A} (o : option A) : moves I I (deref o).
Proof. destruct o; now intros s. Qed.

Lemma inv_modify g : (forall s, I s -> I (g s)) -> moves I I (modify g).
Proof. intros H s. apply H. Qed.

Lemma inv_bind {A B} (m : M S A) (k : A -> M S B) :
  moves I I m -> (forall a, moves I I (k a)) -> moves I I (bind m k).
Proof. intros Hm Hk. apply moves_bind with (R := I); auto. Qed.

Lemma inv_repeatM n (body : M S unit) :
  moves I I body -> moves I I (repeatM n body).
Proof.
  intros Hb. induction n as [|n IH]; simpl.
  - apply inv_ret.
  - apply inv_bind; auto.
Qed.

End Invariant.

Lemma buffers_ok_rig s s' : rig s' = rig s -> buffers_ok s -> buffers_ok s'.
Proof.
  unfold rig, buffers_ok, buffers, attached. intros H.
  injection H as E1 E2 E3 E4 E5. now rewrite E1, E2, E3, E4, E5.
Qed.

Lemma rig_onPlatform {A} (m : M Platform A) :
  preserves (fun p => gl_attachment (gl p)) m -> preserves rig (onPlatform m).
Proof.
  intros H s. unfold onPlatform, zoom. specialize (H (platform s)).
  destruct (m (platform s)) as [a p|e p]; cbn in *; unfold rig; cbn;
    now rewrite H.
Qed.

Lemma rig_glw f :
  (forall g, gl_attachment (f g) = gl_attachment g) -> preserves rig (glw f).
Proof.
  intros H. unfold glw. apply rig_onPlatform. intros p. cbn. apply H.
Qed.

Ltac same_attachment := intros g; destruct g; reflexivity.

Lemma rig_uniform1i l v : preserves rig (uniform1i l v).
Proof. apply rig_glw. same_attachment. Qed.

Lemma rig_uniform1f l v : preserves rig (uniform1f l v).
Proof. apply rig_glw. same_attachment. Qed.

Lemma rig_uniform2f l x y : preserves rig (uniform2f l x y).
Proof. apply rig_glw. same_attachment. Qed.

Lemma rig_uniform3f l x y z : preserves rig (uniform3f l x y z).
Proof. apply rig_glw. same_attachment. Qed.

Lemma rig_useProgram p : preserves rig (glw (GL.useProgram p)).
Proof. apply rig_glw. same_attachment. Qed.

Lemma rig_bindFramebuffer f : preserves rig (glw (GL.bindFramebuffer f)).
Proof. apply rig_glw. same_attachment. Qed.

Lemma rig_clear : preserves rig (glw GL.clear).
Proof. apply rig_glw. same_attachment. Qed.

Lemma rig_bindTexture t : preserves rig (glw (GL.bindTexture t)).
Proof. apply rig_glw. same_attachment. Qed.

Lemma rig_texImage2D i : preserves rig (glw (GL.texImage2D i)).
Proof. apply rig_glw. same_attachment. Qed.

Lemma rig_drawElements : preserves rig (glw GL.drawElements).
Proof.
  apply rig_glw. intros g. destruct g as [? ? ? ? ? prog ? ? ? ? ? ? ? ? ? ? ?].
  destruct prog; reflexivity.
Qed.

Lemma rig_bindImageTexture t slot :
  preserves rig (onPlatform (bindImageTexture t slot)).
Proof.
  apply rig_onPlatform. intros p. unfold bindImageTexture. exec.
  destruct p as [g ? ? ? ?]. destruct g. reflexivity.
Qed.

Lemma rig_attach f slot : preserves rig (attach f slot).
Proof.
  unfold attach. apply rig_onPlatform. intros p. exec.
  destruct p as [g ? ? ? ?]. destruct g. reflexivity.
Qed.

Lemma rig_console_error msg : preserves rig (onPlatform (console_error msg)).
Proof. apply rig_onPlatform. intros p. reflexivity. Qed.

Create HintDb rig.
#[export] Hint Resolve rig_uniform1i rig_uniform1f rig_uniform2f
  rig_uniform3f rig_useProgram rig_bindFramebuffer rig_clear rig_bindTexture
  rig_texImage2D rig_drawElements rig_bindImageTexture rig_attach rig_console_error : rig.

Ltac rig_step :=
  first
    [ apply preserves_bind; [ | intros ]
    | apply preserves_ret
    | apply preserves_the
    | apply preserves_deref
    | apply preserves_throw
    | apply preserves_modify; intros; reflexivity
    | match goal with
      | |- preserves _ (if ?b then _ else _) => destruct b
      | |- preserves _ (match ?o with Some _ => _ | None => _ end) =>
          destruct o
      end
    | solve [ auto with rig ]
    | apply rig_glw; same_attachment ].

Ltac rig := repeat rig_step.

Lemma rig_attach_read f slot : preserves rig (attach_read f slot).
Proof. unfold attach_read. rig. Qed.

Lemma rig_drawQuad t : preserves rig (drawQuad t).
Proof. unfold drawQuad. rig. Qed.
#[export] Hint Resolve rig_attach_read rig_drawQuad : rig.

Lemma rig_drawQuad_write f : preserves rig (drawQuad_write f).
Proof. unfold drawQuad_write. rig. Qed.
#[export] Hint Resolve rig_drawQuad_write : rig.

Lemma rig_render_display : preserves rig render_display.
Proof. unfold render_display. rig. Qed.

Lemma rig_clearDye : preserves rig clearDye.
Proof. unfold clearDye. rig. Qed.

Lemma rig_updateTransition now : preserves rig (updateTransition now).
Proof. unfold updateTransition. rig. Qed.

Lemma rig_checkAdvance tnow : preserves rig (checkAdvance tnow).
Proof. unfold checkAdvance, startTransition. rig. Qed.

(** The swaps exchange two buffers of the list. *)

Lemma velocity_swap_ok : moves buffers_ok buffers_ok velocity_swap.
Proof.
  intros s [Ha Hn]. unfold velocity_swap, modify. cbn [state_of].
  unfold buffers_ok, buffers in *. cbn.
  split.
  - eapply Permutation_Forall; [apply perm_swap|].
    exact Ha.
  - eapply Permutation_NoDup; [apply perm_swap|].
    exact Hn.
Qed.

Lemma dye_swap_ok : moves buffers_ok buffers_ok dye_swap.
Proof.
  intros s [Ha Hn]. unfold dye_swap, modify. cbn [state_of].
  unfold buffers_ok, buffers in *. cbn.
  split.
  - eapply Permutation_Forall; [|exact Ha].
    do 2 apply perm_skip. apply perm_swap.
  - eapply Permutation_NoDup; [|exact Hn].
    do 2 apply perm_skip. apply perm_swap.
Qed.

Lemma pressure_swap_ok : moves buffers_ok buffers_ok pressure_swap.
Proof.
  intros s [Ha Hn]. unfold pressure_swap, modify. cbn [state_of].
  unfold buffers_ok, buffers in *. cbn.
  split.
  - eapply Permutation_Forall; [|exact Ha].
    do 5 apply perm_skip. apply perm_swap.
  - eapply Permutation_NoDup; [|exact Hn].
    do 5 apply perm_skip. apply perm_swap.
Qed.

Lemma rig_ok {A} (m : M World A) :
  preserves rig m -> moves buffers_ok buffers_ok m.
Proof. apply (moves_preserved rig). exact buffers_ok_rig. Qed.

Ltac ok_step :=
  first
    [ apply inv_bind; [ | intros ]
    | apply inv_ret
    | apply moves_the
    | apply inv_deref
    | apply inv_throw
    | apply velocity_swap_ok
    | apply dye_swap_ok
    | apply pressure_swap_ok
    | apply inv_repeatM
    | match goal with
      | |- moves _ _ (if ?b then _ else _) => destruct b
      end
    | apply rig_ok; solve [ rig ] ].

Ltac ok := repeat ok_step.

Lemma addSplat_ok x y dx dy c :
  moves buffers_ok buffers_ok (addSplat x y dx dy c).
Proof. unfold addSplat. ok. Qed.

Lemma step_ok dt : moves buffers_ok buffers_ok (step dt).
Proof. unfold step. ok. Qed.

Lemma render_splat_ok dt tnow :
  moves buffers_ok buffers_ok (render_splat dt tnow).
Proof.
  unfold render_splat. ok.
Qed.

Lemma render_ok now tnow : moves buffers_ok buffers_ok (render now tnow).
Proof.
  unfold render, requestAnimationFrame_render. ok.
Qed.

Lemma handle_ok e : moves buffers_ok buffers_ok (handle e).
Proof.
  destruct e as [? ? ? ?|? ? ?|? ? ?|iw ih|now tnow|i|i]; cbn [handle].
  - unfold onMouseMove. ok.
  - unfold onTouchMove. ok.
  - unfold onTouchMove. ok.
  - intros s _. destruct (onResize_spec iw ih s) as (s' & H & Hrest).
    rewrite H. cbn [state_of]. apply Hrest.
  - apply inv_bind; [apply moves_the|intros pending].
    destruct pending; [|apply inv_ret].
    apply inv_bind; [|intros _; apply render_ok].
    apply inv_modify. intros s. now apply buffers_ok_rig.
  - apply inv_bind; [apply moves_the|intros images].
    destruct (nth_error images i); [|apply inv_ret].
    destruct (nth_error CONFIG.IMAGES i); [|apply inv_ret].
    unfold onImageLoad. ok.
  - destruct (nth_error CONFIG.IMAGES i); [|apply inv_ret].
    unfold onImageError. ok.
Qed.

Lemma run_ok es s : buffers_ok s -> buffers_ok (run es s).
Proof.
  revert s. induction es as [|e es IH]; intros s Hs; [exact Hs|].
  rewrite run_cons. apply IH. unfold dispatch. now apply handle_ok.
Qed.

(** Start-up, when it returns, leaves seven buffers, each attached to its
    own texture. *)
Lemma boot_buffers_ok host innerWidth innerHeight t0 s p :
  boot host innerWidth innerHeight t0 page = Return s p -> buffers_ok s.
Proof.
  unfold boot, shaderSrc.
  destruct (host_webgl host); [|exec; discriminate].
  destruct (host_script host "vertShader") as [v|]; [|exec; discriminate].
  destruct (host_script host "fragAdvection") as [f1|]; [|exec; discriminate].
  destruct (host_script host "fragDivergence") as [f2|];
    [|cbv beta iota delta [bind modify ret deref throw];
      destruct (createProgram _ _ _ _); discriminate].
  cbv beta iota delta [bind modify ret deref throw].
  generalize (set_canvas innerWidth innerHeight page). intros p0.
  destruct (createProgram host v f1 p0) as [r1 p1|e p1]; [|discriminate].
  destruct (createProgram host v f2 p1) as [r2 p2|e p2]; [|discriminate].
  destruct (host_script host "fragPressure") as [f3|]; [|discriminate].
  destruct (createProgram host v f3 p2) as [r3 p3|e p3]; [|discriminate].
  destruct (host_script host "fragGradientSubtract") as [f4|];
    [|discriminate].
  destruct (createProgram host v f4 p3) as [r4 p4|e p4]; [|discriminate].
  destruct (host_script host "fragSplat") as [f5|]; [|discriminate].
  destruct (createProgram host v f5 p4) as [r5 p5|e p5]; [|discriminate].
  destruct (host_script host "fragDisplay") as [f6|]; [|discriminate].
  destruct (createProgram host v f6 p5) as [r6 p6|e p6]; [|discriminate].
  clear. open_platform p6. unfold CONFIG.IMAGES. exec.
  intros H. injection H as <- _.
  unfold buffers_ok, buffers, attached. exec. split.
  - repeat (apply Forall_cons; [cbn [FBO.tex FBO.fbo]|]);
      try apply Forall_nil.
    all: decide_names; reflexivity.
  - cbn [map FBO.tex].
    repeat (apply NoDup_cons; [cbn [In]; lia|]). apply NoDup_nil.
Qed.

(** In every reachable world the seven buffers are attached to seven
    different textures. *)
Lemma reachable_buffers_ok host s : reachable host s -> buffers_ok s.
Proof.
  intros (iw & ih & t0 & now & tnow & s0 & first & es & Hm & ->).
  apply run_ok. unfold main in Hm.
  destruct (boot host iw ih t0 page) as [s1 p1|e p1] eqn:Hb;
    [|discriminate Hm].
  injection Hm as <- <-. apply render_ok.
  exact (boot_buffers_ok host iw ih t0 s1 p1 Hb).
Qed.


(** ** Transitions in the worlds the script reaches *)

Section ReachableTransition.
Local Open Scope R_scope.





End ReachableTransition.

(** ** The claims on the sample run *)

Section Witnesses.
Local Open Scope R_scope.

Lemma sample_scripts : scripts_present sample_host.
Proof. intros id _. discriminate. Qed.

(** On the sample host start-up enters the frame loop without a
    diagnostic. *)
Lemma link_failure_is_not_fatal_witness :
  exists s,
    main sample_host 800 600 0 0 0 = Entered s (render 0 0 s) /\
    alerts (platform s) = [] /\
    console (platform s) = [].
Proof.
  destruct (proj1 link_failure_is_not_fatal sample_host 800%Z 600%Z 0 0 0
              eq_refl sample_scripts (fun _ _ => eq_refl))
    as (s & Hm & _ & Hc & _ & _ & Ha & _).
  exists s. split; [exact Hm|]. split; [exact Ha|].
  rewrite Hc. reflexivity.
Defined.

(** Half way through the sample run the energy is not negative. *)
Lemma energy_invariants_witness :
  reachable sample_host sample_halfway /\
  0 <= totalSplatEnergy sample_halfway.
Proof.
  destruct sample_halfway_facts as (Hre & _).
  split; [exact Hre|].
  exact (proj1 energy_invariants sample_host sample_halfway Hre).
Defined.

(** The first frame of the sample run advects velocity with 0.85 and dye
    with 1. *)
Lemma dissipation_factors_witness :
  loaded sample_start /\
  exists s1 s2 d1 d2 rest,
    step (frame_dt 16 (lastTime sample_start)) s1 = Return tt s2 /\
    new_draws s1 s2 = d1 :: d2 :: rest /\
    draw_uniform d1 "u_dissipation" = Some (U1f CONFIG.VELOCITY_DISSIPATION) /\
    draw_uniform d2 "u_dissipation" = Some (U1f CONFIG.DENSITY_DISSIPATION).
Proof.
  destruct sample_start_facts as (Hl & _).
  destruct sample_start_programs as (Ha & _).
  assert (Hd : declares (sample_program 3) "u_dissipation").
  { apply sample_program_declares. unfold sample_uniforms. cbn [In]. tauto. }
  split; [exact Hl|].
  destruct (dissipation_factors sample_start 16 16 (sample_program 3) Hl Ha
              Hd)
    as (_ & _ & s1 & s2 & s' & d1 & d2 & rest & _ & Hs & _ & Hn & _ & _ & H1
        & _ & _ & H2).
  exists s1, s2, d1, d2, rest.
  split; [exact Hs|]. split; [exact Hn|]. split; [exact H1|exact H2].
Defined.


(** In the sample world, idle with no energy, one pointer event of speed
    8001 starts the transition at the next frame. *)
Lemma threshold_trigger_witness :
  exists s',
    render 16 16
      (set_pointer {| Pointer.x := 8401; Pointer.y := 300;
                      Pointer.dx := 8001; Pointer.dy := 0;
                      Pointer.moved := true |} sample_world)
    = Return tt s' /\
    isTransitioning s' = true /\
    transitionStart s' = 16 /\
    totalSplatEnergy s' = 8001.
Proof.
  destruct sample_world_facts as (_ & Hl & Hi & He & _).
  apply (proj1 (proj2 threshold_trigger)).
  - exact Hl.
  - exact Hi.
  - exact He.
  - reflexivity.
  - cbn [set_pointer pointer]. apply speed_horizontal; [lra|reflexivity].
  - lra.
Defined.

(** A field of 128 by 128 texels swapped twice is the field as built. *)
Lemma double_swap_identity_witness :
  exists d p',
    createDoubleFBO 128 128 page = Return d p' /\
    DoubleFBO.swap (DoubleFBO.swap d) = d.
Proof.
  destruct (double_swap_identity 128 128 page) as (d & p' & H & Hs & _);
    [lia|lia|].
  exists d, p'. split; [exact H|exact Hs].
Defined.

(** Half way through the sample run's transition a pointer movement is
    still counted. *)
Lemma energy_during_transition_witness :
  exists s',
    render 700 700
      (set_pointer {| Pointer.x := 3; Pointer.y := 4;
                      Pointer.dx := 3; Pointer.dy := 4;
                      Pointer.moved := true |} sample_halfway)
    = Return tt s' /\
    isTransitioning s' = true /\
    totalSplatEnergy s'
    = totalSplatEnergy sample_halfway
      + speed {| Pointer.x := 3; Pointer.y := 4;
                 Pointer.dx := 3; Pointer.dy := 4;
                 Pointer.moved := true |}.
Proof.
  destruct sample_halfway_facts as (_ & Hl & Ht & Hst & _).
  apply (proj1 energy_during_transition).
  - exact Hl.
  - exact Ht.
  - reflexivity.
  - cbn [set_pointer transitionStart]. rewrite Hst.
    unfold TRANSITION_DURATION. lra.
Defined.

End Witnesses.

(** * Further properties of the script *)

(** ** Resolutions *)

Section Resolution.
Local Open Scope R_scope.









End Resolution.

(** ** Framebuffer objects *)

Section Framebuffers.
Local Open Scope R_scope.

(** What [createFBO] returns and what it leaves. *)
Lemma createFBO_spec (w h : Z) (p : Platform) :
  exists f p',
    createFBO w h p = Return f p' /\
    FBO.tex f = gl_next (gl p) /\
    FBO.fbo f = S (gl_next (gl p)) /\
    gl_next (gl p') = S (S (gl_next (gl p))) /\
    FBO.width f = w /\ FBO.height f = h /\
    FBO.texelX f = 1 / IZR w /\ FBO.texelY f = 1 / IZR h /\
    gl_attachment (gl p') (FBO.fbo f) = Some (FBO.tex f) /\
    gl_pixels (gl p') (FBO.tex f) = Zeroed /\
    (forall t, t <> FBO.tex f -> gl_pixels (gl p') t = gl_pixels (gl p) t) /\
    (forall b, b <> FBO.fbo f ->
               gl_attachment (gl p') b = gl_attachment (gl p) b) /\
    gl_screen (gl p') = gl_screen (gl p) /\
    gl_draws (gl p') = gl_draws (gl p) /\
    gl_framebuffer (gl p') = Some (FBO.fbo f) /\
    gl_viewport (gl p') = (w, h) /\
    gl_active (gl p') = 0%nat /\
    gl_units (gl p') 0%nat = Some (FBO.tex f) /\
    canvas_width p' = canvas_width p /\
    canvas_height p' = canvas_height p /\
    console p' = console p.
Proof.
  open_platform p. do 2 eexists.
  split; [unfold createFBO; exec; reflexivity|].
  cbn [FBO.tex FBO.fbo FBO.width FBO.height FBO.texelX FBO.texelY]. exec.
  do 5 (split; [reflexivity|]).
  split; [lra|]. split; [lra|].
  split; [decide_names; reflexivity|].
  split; [decide_names; reflexivity|].
  split.
  { intros t Ht. decide_names. reflexivity. }
  split.
  { intros b Hb. decide_names. reflexivity. }
  split; [reflexivity|]. split; [reflexivity|]. split; [reflexivity|].
  split; [reflexivity|]. split; [reflexivity|].
  split; [decide_names; reflexivity|].
  repeat split.
Qed.

(** X2.  [createFBO] never fails.  It takes two new object names, the
    texture first and the framebuffer next, attaches the one to the other,
    and leaves the texture zeroed.  No other texture image and no other
    attachment changes, the canvas is not written and nothing is drawn.  It
    returns the size it was given with texel sizes [1 / w] and [1 / h], and
    leaves its framebuffer bound, the viewport at its size, and its texture
    bound to unit 0, the active unit. *)
Theorem createFBO_fresh (w h : Z) (p : Platform) :
  exists f p',
    createFBO w h p = Return f p' /\
    FBO.tex f = gl_next (gl p) /\
    FBO.fbo f = S (gl_next (gl p)) /\
    gl_next (gl p') = S (S (gl_next (gl p))) /\
    FBO.width f = w /\ FBO.height f = h /\
    FBO.texelX f = 1 / IZR w /\ FBO.texelY f = 1 / IZR h /\
    gl_attachment (gl p') (FBO.fbo f) = Some (FBO.tex f) /\
    gl_pixels (gl p') (FBO.tex f) = Zeroed /\
    (forall t, t <> FBO.tex f -> gl_pixels (gl p') t = gl_pixels (gl p) t) /\
    (forall b, b <> FBO.fbo f ->
               gl_attachment (gl p') b = gl_attachment (gl p) b) /\
    gl_screen (gl p') = gl_screen (gl p) /\
    gl_draws (gl p') = gl_draws (gl p) /\
    gl_framebuffer (gl p') = Some (FBO.fbo f) /\
    gl_viewport (gl p') = (w, h) /\
    gl_active (gl p') = 0%nat /\
    gl_units (gl p') 0%nat = Some (FBO.tex f) /\
    canvas_width p' = canvas_width p /\
    canvas_height p' = canvas_height p /\
    console p' = console p.
Proof. exact (createFBO_spec w h p). Qed.

End Framebuffers.

(** ** Start-up that does not reach the frame loop *)

Section StartupFailure.
Local Open Scope R_scope.

(** X3.  Without a WebGL context the script sizes the canvas, shows its one
    alert, and is then ended by the TypeError of the first call on the null
    context: nothing is logged, no GL object is created, and [render] is
    never called. *)
Theorem no_webgl_aborts (host : Host) (innerWidth innerHeight : Z)
  (t0 now tnow : R) :
  host_webgl host = false ->
  main host innerWidth innerHeight t0 now tnow
  = Aborted TypeError
      (set_alerts
         ["WebGL not supported in your browser. Try Chrome or Firefox."%string]
         (set_canvas innerWidth innerHeight page)).
Proof. intros H. unfold main, boot. rewrite H. reflexivity. Qed.

Lemma no_webgl_aborts_witness :
  exists p,
    main {| host_webgl := false;
            host_script := fun id => Some id;
            host_compiles := fun _ _ => true;
            host_links := fun _ _ => true;
            host_active_uniforms := fun _ _ => sample_uniforms;
            host_null_argument_throws := true |} 800 600 0 0 0
    = Aborted TypeError p /\
    List.length (alerts p) = 1%nat /\
    console p = [] /\
    gl p = GL.fresh_context.
Proof.
  eexists. split; [apply no_webgl_aborts; reflexivity|].
  repeat split.
Defined.

Lemma alerts_gl_create : preserves alerts gl_create.
Proof. intros p. reflexivity. Qed.

Lemma alerts_createProgram host vertSrc fragSrc :
  preserves alerts (createProgram host vertSrc fragSrc).
Proof.
  pose proof alerts_gl_create as Hc.
  unfold createProgram, compileShader, attachShader, gl_call, console_error.
  frame; try exact Hc.
Qed.

Lemma alerts_createFBO w h : preserves alerts (createFBO w h).
Proof.
  pose proof alerts_gl_create as Hc. unfold createFBO, gl_call.
  frame; exact Hc.
Qed.

Lemma alerts_boot host innerWidth innerHeight t0 :
  host_webgl host = true ->
  preserves alerts (boot host innerWidth innerHeight t0).
Proof.
  intros Hw. pose proof alerts_gl_create as Hc.
  pose proof (alerts_createProgram host) as Hp.
  pose proof alerts_createFBO as Hf.
  unfold boot, shaderSrc, createDoubleFBO, loadImageTexture, gl_call.
  rewrite Hw.
  repeat first [exact Hc | apply Hp | apply Hf | frame_step].
Qed.

(** A missing script element makes start-up throw. *)
Lemma boot_missing_script host innerWidth innerHeight t0 id :
  host_webgl host = true ->
  In id ("vertShader"%string :: fragment_ids) ->
  host_script host id = None ->
  returned (boot host innerWidth innerHeight t0 page) = false.
Proof.
  intros Hw Hin Hnone. unfold boot, shaderSrc. rewrite Hw.
  generalize page. intros p0.
  unfold fragment_ids in Hin. cbn [In] in Hin.
  destruct Hin as [<-|[<-|[<-|[<-|[<-|[<-|[<-|[]]]]]]]]; rewrite Hnone;
    cbv beta iota delta [bind modify ret deref throw];
    repeat (cbv beta iota;
            match goal with
            | |- returned (match ?x with _ => _ end) = false => destruct x
            end);
    reflexivity.
Qed.

(** X4.  When the page lacks one of the seven shader script elements,
    start-up is ended by a TypeError before [render] is called, and no alert
    is shown. *)
Theorem missing_script_aborts (host : Host) (innerWidth innerHeight : Z)
  (t0 now tnow : R) (id : string) :
  host_webgl host = true ->
  In id ("vertShader"%string :: fragment_ids) ->
  host_script host id = None ->
  exists p,
    main host innerWidth innerHeight t0 now tnow = Aborted TypeError p /\
    alerts p = [].
Proof.
  intros Hw Hin Hnone.
  pose proof (boot_missing_script host innerWidth innerHeight t0 id Hw Hin
                Hnone) as Hr.
  pose proof (alerts_boot host innerWidth innerHeight t0 Hw page) as Ha.
  unfold main.
  destruct (boot host innerWidth innerHeight t0 page) as [s p|e p];
    [discriminate Hr|].
  destruct e. exists p. split; [reflexivity|exact Ha].
Qed.

Lemma missing_script_aborts_witness :
  exists p,
    main {| host_webgl := true;
            host_script :=
              fun id => if String.eqb id "fragSplat" then None else Some id;
            host_compiles := fun _ _ => true;
            host_links := fun _ _ => true;
            host_active_uniforms := fun _ _ => sample_uniforms;
            host_null_argument_throws := true |} 800 600 0 0 0
    = Aborted TypeError p /\
    alerts p = [].
Proof.
  apply (missing_script_aborts _ 800%Z 600%Z 0 0 0 "fragSplat"%string).
  - reflexivity.
  - unfold fragment_ids. cbn [In]. tauto.
  - reflexivity.
Defined.

End StartupFailure.

(** ** Pointer events *)

Section PointerEvents.
Local Open Scope R_scope.

(** A frame of an idle world that finds a movement and stays at or below
    the threshold adds the speed and stays idle. *)
Lemma render_counts_idle now tnow s :
  loaded s ->
  isTransitioning s = false ->
  Pointer.moved (pointer s) = true ->
  totalSplatEnergy s + speed (pointer s) <= ADVANCE_ENERGY ->
  exists s',
    render now tnow s = Return tt s' /\
    isTransitioning s' = false /\
    totalSplatEnergy s' = totalSplatEnergy s + speed (pointer s).
Proof.
  intros Hl Hi Hm He.
  destruct (render_loaded now tnow s Hl)
    as (s1 & s2 & s3 & s4 & H1 & H2 & H3 & H4 & Hr & _ & C2 & C4).
  destruct (render_splat_counts (frame_dt now (lastTime s)) tnow
              (set_lastTime now s) Hl Hm) as (sa & Ca & Hs).
  rewrite Hs in H1. apply control_fields in Ca.
  destruct Ca as (_ & _ & _ & _ & _ & Ta & Sa & Ea & _).
  cbn [set_lastTime isTransitioning transitionStart totalSplatEnergy pointer]
    in *.
  rewrite checkAdvance_below in H1.
  2:{ unfold counted. cbn. congruence. }
  2:{ unfold counted. cbn. rewrite Ea. exact He. }
  injection H1 as <-.
  apply control_fields in C2.
  destruct C2 as (_ & _ & _ & _ & _ & T2 & S2 & E2 & _).
  unfold counted in *.
  cbn [set_pointer set_totalSplatEnergy isTransitioning transitionStart
       totalSplatEnergy] in *.
  rewrite updateTransition_idle in H3 by congruence. injection H3 as <-.
  apply control_fields in C4.
  destruct C4 as (_ & _ & _ & _ & _ & T4 & S4 & E4 & _).
  exists (set_scheduled true s4). split; [exact Hr|].
  cbn [set_scheduled isTransitioning totalSplatEnergy].
  split; congruence.
Qed.

(** X5.  A mouse move stores the position relative to the canvas, the
    displacement from the stored position, and raises [moved]; it touches
    nothing else.  Of two moves between frames only the second displacement
    is kept: the pointer ends at the second position with the displacement
    from the first position to the second, whatever the pointer was before.
    So the frame that follows two moves counts the length of the second
    displacement alone.  A touch start or touch move with a touch on the
    canvas does what a mouse move at that point does; without one the
    handler throws a TypeError and changes nothing. *)
Theorem pointer_tracking :
  (forall s x y l t,
     handle (mousemove x y l t) s
     = Return tt
         (set_pointer {| Pointer.x := x - l;
                         Pointer.y := y - t;
                         Pointer.dx := x - l - Pointer.x (pointer s);
                         Pointer.dy := y - t - Pointer.y (pointer s);
                         Pointer.moved := true |} s)) /\
  (forall s x1 y1 l1 t1 x2 y2 l2 t2,
     run [mousemove x1 y1 l1 t1; mousemove x2 y2 l2 t2] s
     = set_pointer {| Pointer.x := x2 - l2;
                      Pointer.y := y2 - t2;
                      Pointer.dx := (x2 - l2) - (x1 - l1);
                      Pointer.dy := (y2 - t2) - (y1 - t1);
                      Pointer.moved := true |} s) /\
  (forall s x1 y1 x2 y2 now tnow,
     loaded s ->
     isTransitioning s = false ->
     scheduled s = true ->
     totalSplatEnergy s
     + Math_sqrt ((x2 - x1) * (x2 - x1) + (y2 - y1) * (y2 - y1))
     <= ADVANCE_ENERGY ->
     totalSplatEnergy
       (run [mousemove x1 y1 0 0; mousemove x2 y2 0 0;
             animationFrame now tnow] s)
     = totalSplatEnergy s
       + Math_sqrt ((x2 - x1) * (x2 - x1) + (y2 - y1) * (y2 - y1))) /\
  (forall s x y l t,
     handle (touchmove (Some (x, y)) l t) s = handle (mousemove x y l t) s /\
     handle (touchstart (Some (x, y)) l t) s
     = handle (mousemove x y l t) s) /\
  (forall s l t,
     handle (touchmove None l t) s = Throw TypeError s /\
     handle (touchstart None l t) s = Throw TypeError s).
Proof.
  split; [reflexivity|]. split; [reflexivity|].
  split; [|split; intros; split; reflexivity].
  intros s x1 y1 x2 y2 now tnow Hl Hi Hs He.
  rewrite !run_cons, run_nil, !dispatch_mousemove.
  rewrite dispatch_frame by exact Hs.
  match goal with
  | |- context [render now tnow ?w] =>
      destruct (render_counts_idle now tnow w) as (s' & Hr & _ & Ht)
  end.
  - exact Hl.
  - exact Hi.
  - reflexivity.
  - cbn [set_scheduled set_pointer pointer totalSplatEnergy].
    unfold speed. cbn [Pointer.dx Pointer.dy Pointer.x Pointer.y].
    replace (x2 - 0 - (x1 - 0)) with (x2 - x1) by lra.
    replace (y2 - 0 - (y1 - 0)) with (y2 - y1) by lra.
    exact He.
  - rewrite Hr. cbn [state_of]. rewrite Ht.
    cbn [set_scheduled set_pointer pointer totalSplatEnergy].
    unfold speed. cbn [Pointer.dx Pointer.dy Pointer.x Pointer.y].
    replace (x2 - 0 - (x1 - 0)) with (x2 - x1) by lra.
    replace (y2 - 0 - (y1 - 0)) with (y2 - y1) by lra.
    reflexivity.
Qed.

(** In the sample world the pointer jumps far and then moves 3 right and 4
    down: the frame counts 5. *)
Lemma pointer_tracking_witness :
  totalSplatEnergy
    (run [mousemove 5000 100 0 0; mousemove 5003 104 0 0;
          animationFrame 16 16] sample_world)
  = totalSplatEnergy sample_world + 5.
Proof.
  destruct sample_world_facts as (_ & Hl & Hi & He & _ & _ & Hs).
  assert (Hsq : Math_sqrt ((5003 - 5000) * (5003 - 5000)
                           + (104 - 100) * (104 - 100)) = 5).
  { unfold Math_sqrt.
    replace ((5003 - 5000) * (5003 - 5000) + (104 - 100) * (104 - 100))
      with (5 * 5) by lra.
    apply sqrt_square. lra. }
  rewrite <- Hsq.
  apply (proj1 (proj2 (proj2 pointer_tracking))).
  - exact Hl.
  - exact Hi.
  - exact Hs.
  - rewrite He, Hsq. unfold ADVANCE_ENERGY. lra.
Defined.

End PointerEvents.

(** ** The splat passes *)

Section Splat.
Local Open Scope R_scope.

(** X6.  With the splat program linked and its five uniforms active,
    [addSplat] returns after exactly two draws with that program.  The first
    renders into the write buffer of the velocity field, sampling its read
    buffer on unit 0, with the point at [(x / width, 1 - y / height)] (the
    vertical axis flipped), the colour [(dx, - dy, 0)], the configured
    radius and the aspect ratio of the canvas.  The second renders into the
    write buffer of the dye field, sampling its read buffer, with the given
    colour and the point, ratio and radius left from the first.  Both fields
    are swapped afterwards and nothing else the script keeps changes. *)
Theorem splat_passes (x y dx dy : R) (c : R * R * R) (s : World)
  (sp : Program) :
  Programs.splat (programs s) = Some sp ->
  declares sp "u_target" ->
  declares sp "u_ratio" ->
  declares sp "u_point" ->
  declares sp "u_color" ->
  declares sp "u_radius" ->
  exists s' d1 d2,
    addSplat x y dx dy c s = Return tt s' /\
    draws s' = (draws s ++ [d1; d2])%list /\
    velocity s' = DoubleFBO.swap (velocity s) /\
    dye s' = DoubleFBO.swap (dye s) /\
    control s' = control s /\
    draw_program d1 = program sp /\
    draw_target d1 = Some (FBO.fbo (DoubleFBO.write (velocity s))) /\
    draw_unit d1 0%nat = Some (FBO.tex (DoubleFBO.read (velocity s))) /\
    draw_uniform d1 "u_target" = Some (U1i 0) /\
    draw_uniform d1 "u_ratio"
    = Some (U1f (IZR (canvas_width (platform s))
                 / IZR (canvas_height (platform s)))) /\
    draw_uniform d1 "u_point"
    = Some (U2f (x / IZR (canvas_width (platform s)))
                (1.0 - y / IZR (canvas_height (platform s)))) /\
    draw_uniform d1 "u_color" = Some (U3f dx (- dy) 0) /\
    draw_uniform d1 "u_radius" = Some (U1f CONFIG.SPLAT_RADIUS) /\
    draw_program d2 = program sp /\
    draw_target d2 = Some (FBO.fbo (DoubleFBO.write (dye s))) /\
    draw_unit d2 0%nat = Some (FBO.tex (DoubleFBO.read (dye s))) /\
    draw_uniform d2 "u_target" = Some (U1i 0) /\
    draw_uniform d2 "u_color"
    = Some (U3f (fst (fst c)) (snd (fst c)) (snd c)) /\
    draw_uniform d2 "u_point" = draw_uniform d1 "u_point" /\
    draw_uniform d2 "u_ratio" = draw_uniform d1 "u_ratio" /\
    draw_uniform d2 "u_radius" = draw_uniform d1 "u_radius".
Proof.
  intros Hp Ht Hr Hpt Hc Hrad. unfold draws, control.
  open_world s. destruct s_prg as [? ? ? ? ? ?]. simpl in Hp. subst.
  unfold declares in *.
  unfold addSplat. exec. rewrite Ht, Hr, Hpt, Hc, Hrad.
  cbn [loc_program loc_name]. rewrite !Nat.eqb_refl.
  do 3 eexists. split; [reflexivity|]. exec.
  split; [rewrite <- app_assoc; reflexivity|].
  repeat split.
Qed.

End Splat.

(** ** The display pass *)

Section Display.
Local Open Scope R_scope.

(** X7.  With the display program linked and its four uniforms active, the
    display block of a frame returns after exactly one draw with that
    program.  The draw goes to the canvas, over the whole canvas, and samples
    the read buffer of the dye field on unit 0, the current image on unit 1
    and the next image on unit 2 (no texture when an index is out of range),
    with [u_blend] at the blend factor.  The canvas then shows that draw; no
    texture image changes, and nothing the script keeps changes. *)
Theorem display_pass (s : World) (dp : Program) :
  Programs.display (programs s) = Some dp ->
  declares dp "u_fluid" ->
  declares dp "u_image0" ->
  declares dp "u_image1" ->
  declares dp "u_blend" ->
  exists s' d,
    render_display s = Return tt s' /\
    draws s' = (draws s ++ [d])%list /\
    control s' = control s /\
    rig s' = rig s /\
    draw_program d = program dp /\
    draw_target d = None /\
    draw_viewport d
    = (canvas_width (platform s), canvas_height (platform s)) /\
    draw_unit d 0%nat = Some (FBO.tex (DoubleFBO.read (dye s))) /\
    draw_unit d 1%nat = nth_error (imageTextures s) (currentImageIdx s) /\
    draw_unit d 2%nat = nth_error (imageTextures s) (nextImageIdx s) /\
    draw_uniform d "u_fluid" = Some (U1i 0) /\
    draw_uniform d "u_image0" = Some (U1i 1) /\
    draw_uniform d "u_image1" = Some (U1i 2) /\
    draw_uniform d "u_blend" = Some (U1f (blendFactor s)) /\
    gl_screen (gl (platform s')) = Drawn (List.length (draws s)) /\
    (forall t, gl_pixels (gl (platform s')) t = gl_pixels (gl (platform s)) t).
Proof.
  intros Hp Hf H0 H1 Hb. unfold draws, control, rig.
  open_world s. destruct s_prg as [? ? ? ? ? ?]. simpl in Hp. subst.
  unfold declares in *.
  unfold render_display. exec. rewrite Hf, H0, H1, Hb.
  cbn [loc_program loc_name]. rewrite !Nat.eqb_refl.
  do 2 eexists. split; [reflexivity|]. exec.
  repeat split.
Qed.

End Display.

(** ** What one frame draws *)

Section FramesOnPlatform.
Context {T : Type} (f : World -> T).

(** A call on the platform keeps an observation that the state it leaves
    does not change. *)
Lemma obs_onPlatform {A} (m : M Platform A) :
  (forall s, f (set_platform (state_of (m (platform s))) s) = f s) ->
  preserves f (onPlatform m).
Proof.
  intros H s. unfold onPlatform, zoom. specialize (H s).
  destruct (m (platform s)); exact H.
Qed.

End FramesOnPlatform.

Ltac frame_gl_step :=
  first
    [ frame_step
    | apply obs_onPlatform;
      let s := fresh "s" in
      intros s; open_world s; exec;
      first
        [ reflexivity
        | match goal with
          | |- context [match ?x with Some _ => _ | None => _ end] =>
              destruct x; reflexivity
          end ] ].

Ltac frame_gl := repeat frame_gl_step.

Section FrameDraws.
Local Open Scope R_scope.

Lemma canvas_render_splat dt tnow : preserves canvas_size (render_splat dt tnow).
Proof.
  unfold render_splat, addSplat, checkAdvance, startTransition. frame_gl.
Qed.

Lemma canvas_step dt : preserves canvas_size (step dt).
Proof. unfold step. frame_gl. Qed.

Lemma canvas_updateTransition now : preserves canvas_size (updateTransition now).
Proof. unfold updateTransition, clearDye. frame_gl. Qed.

Lemma keeps_updateTransition now :
  preserves (fun s => (pointer s, lastTime s)) (updateTransition now).
Proof. unfold updateTransition, clearDye. frame. Qed.

Lemma addSplat_two_draws x y dx dy c s sp :
  Programs.splat (programs s) = Some sp ->
  exists s' d1 d2,
    addSplat x y dx dy c s = Return tt s' /\
    draws s' = (draws s ++ [d1; d2])%list.
Proof.
  intros Hp. unfold draws.
  open_world s. destruct s_prg as [? ? ? ? ? ?]. simpl in Hp. subst.
  unfold addSplat. exec.
  do 3 eexists. split; [reflexivity|]. exec.
  rewrite <- app_assoc. reflexivity.
Qed.

Lemma step_twelve_draws dt s :
  loaded s ->
  exists s' ds,
    step dt s = Return tt s' /\
    draws s' = (draws s ++ ds)%list /\
    List.length ds = 12%nat.
Proof.
  unfold loaded, draws. intros Hl.
  open_world s.
  destruct s_prg as [[adv|] [div|] [pre|] [gra|] [spl|] [dis|]];
    try discriminate Hl. clear Hl.
  unfold step. exec.
  do 2 eexists. split; [reflexivity|]. exec.
  rewrite <- !app_assoc. cbn [app]. split; reflexivity.
Qed.

Lemma display_one_draw s :
  loaded s ->
  exists s' d,
    render_display s = Return tt s' /\
    draws s' = (draws s ++ [d])%list /\
    draw_target d = None /\
    draw_viewport d = canvas_size s /\
    gl_screen (gl (platform s')) = Drawn (List.length (draws s)) /\
    canvas_size s' = canvas_size s.
Proof.
  unfold loaded, draws, canvas_size. intros Hl.
  open_world s.
  destruct s_prg as [[adv|] [div|] [pre|] [gra|] [spl|] [dis|]];
    try discriminate Hl. clear Hl.
  unfold render_display. exec.
  do 2 eexists. split; [reflexivity|]. exec.
  repeat split.
Qed.

Lemma render_splat_draws dt tnow s :
  loaded s ->
  exists s1 ds,
    render_splat dt tnow s = Return tt s1 /\
    draws s1 = (draws s ++ ds)%list /\
    List.length ds = (if Pointer.moved (pointer s) then 2 else 0)%nat /\
    Pointer.moved (pointer s1) = false /\
    Pointer.x (pointer s1) = Pointer.x (pointer s) /\
    Pointer.y (pointer s1) = Pointer.y (pointer s) /\
    Pointer.dx (pointer s1) = Pointer.dx (pointer s) /\
    Pointer.dy (pointer s1) = Pointer.dy (pointer s) /\
    lastTime s1 = lastTime s.
Proof.
  intros Hl. destruct (Pointer.moved (pointer s)) eqn:Hm.
  - rewrite (render_splat_moved dt tnow s Hm). unfold loaded in Hl.
    destruct (programs s) as [[adv|] [div|] [pre|] [gra|] [spl|] [dis|]] eqn:Hp;
      try discriminate.
    assert (Hsp : Programs.splat (programs s) = Some spl)
      by (rewrite Hp; reflexivity).
    destruct (addSplat_two_draws (Pointer.x (pointer s))
                (Pointer.y (pointer s))
                (Pointer.dx (pointer s) * CONFIG.SPLAT_FORCE * dt)
                (Pointer.dy (pointer s) * CONFIG.SPLAT_FORCE * dt)
                (0.9, 0.85, 0.8) s spl Hsp) as (s1 & d1 & d2 & Ha & Hd).
    pose proof (control_addSplat (Pointer.x (pointer s))
                  (Pointer.y (pointer s))
                  (Pointer.dx (pointer s) * CONFIG.SPLAT_FORCE * dt)
                  (Pointer.dy (pointer s) * CONFIG.SPLAT_FORCE * dt)
                  (0.9, 0.85, 0.8) s) as Hc.
    rewrite Ha in Hc |- *. cbn [state_of] in Hc.
    apply control_fields in Hc.
    destruct Hc as (_ & _ & _ & _ & _ & _ & _ & _ & Hptr & Hlast & _).
    destruct (checkAdvance_cases tnow (counted (speed (pointer s)) s1))
      as [H|(_ & _ & H)]; rewrite H;
      eexists; exists [d1; d2]; (split; [reflexivity|]);
      (split; [exact Hd|]);
      unfold started, counted; cbn; rewrite Hptr, Hlast; repeat split.
  - rewrite (render_splat_still dt tnow s Hm). exists s, [].
    rewrite app_nil_r. repeat split. exact Hm.
Qed.

(** X8.  A frame of a world whose six programs are linked returns and
    requests the next frame.  It issues 13 draws, or 15 when the pointer has
    moved since the last frame (the two splats first); the draws before it
    stay in the log.  Its last draw goes to the canvas, over the whole
    canvas, and is what the canvas shows afterwards.  The frame lowers
    [moved]: a displacement is splatted once; the pointer's position and
    displacement stay, and [lastTime] is the frame's clock reading. *)
Theorem frame_draws (now tnow : R) (s : World) :
  loaded s ->
  exists s' ds d,
    render now tnow s = Return tt s' /\
    draws s' = (draws s ++ ds ++ [d])%list /\
    List.length (ds ++ [d])
    = (if Pointer.moved (pointer s) then 15 else 13)%nat /\
    draw_target d = None /\
    draw_viewport d = canvas_size s /\
    gl_screen (gl (platform s')) = Drawn (List.length (draws s') - 1) /\
    canvas_size s' = canvas_size s /\
    Pointer.moved (pointer s') = false /\
    Pointer.x (pointer s') = Pointer.x (pointer s) /\
    Pointer.y (pointer s') = Pointer.y (pointer s) /\
    Pointer.dx (pointer s') = Pointer.dx (pointer s) /\
    Pointer.dy (pointer s') = Pointer.dy (pointer s) /\
    lastTime s' = now /\
    scheduled s' = true.
Proof.
  intros Hl.
  destruct (render_loaded now tnow s Hl)
    as (s1 & s2 & s3 & s4 & H1 & H2 & H3 & H4 & Hr & P1 & C2 & C4).
  assert (Hl1 : loaded s1) by (unfold loaded; rewrite P1; exact Hl).
  destruct (render_splat_draws (frame_dt now (lastTime s)) tnow
              (set_lastTime now s) Hl)
    as (s1' & ds1 & E1 & D1 & N1 & M1 & X1 & Y1 & DX1 & DY1 & L1).
  rewrite H1 in E1. injection E1 as <-.
  destruct (step_twelve_draws (frame_dt now (lastTime s)) s1 Hl1)
    as (s2' & ds2 & E2 & D2 & N2).
  rewrite H2 in E2. injection E2 as <-.
  destruct (updateTransition_returns now s2) as (s3' & E3 & P3 & D3).
  rewrite H3 in E3. injection E3 as <-.
  pose proof (control_fields _ _ C2) as F2.
  destruct F2 as (P2 & _ & _ & _ & _ & _ & _ & _ & Q2 & L2 & _).
  pose proof (control_fields _ _ C4) as F4.
  destruct F4 as (_ & _ & _ & _ & _ & _ & _ & _ & Q4 & L4 & _).
  assert (Hl3 : loaded s3).
  { unfold loaded. rewrite P3, P2. exact Hl1. }
  destruct (display_one_draw s3 Hl3)
    as (s4' & d & E4 & D4 & T4 & V4 & S4 & K4).
  rewrite H4 in E4. injection E4 as <-.
  pose proof (canvas_render_splat (frame_dt now (lastTime s)) tnow
                (set_lastTime now s)) as K1.
  rewrite H1 in K1. cbn [state_of] in K1.
  pose proof (canvas_step (frame_dt now (lastTime s)) s1) as K2.
  rewrite H2 in K2. cbn [state_of] in K2.
  pose proof (canvas_updateTransition now s2) as K3.
  rewrite H3 in K3. cbn [state_of] in K3.
  pose proof (keeps_updateTransition now s2) as Q3.
  rewrite H3 in Q3. cbn [state_of] in Q3. injection Q3 as Q3 L3.
  cbn [set_lastTime pointer lastTime] in *.
  exists (set_scheduled true s4), (ds1 ++ ds2)%list, d.
  split; [exact Hr|].
  cbn [set_scheduled platform pointer lastTime scheduled].
  unfold draws in *. cbn [set_scheduled platform].
  split; [rewrite D4, D3, D2, D1, <- !app_assoc; reflexivity|].
  split.
  { rewrite !length_app, N1, N2. cbn [List.length].
    destruct (Pointer.moved (pointer s)); reflexivity. }
  split; [exact T4|].
  split; [rewrite V4, K3, K2, K1; reflexivity|].
  split.
  { rewrite S4, D4, length_app. cbn [List.length]. f_equal. lia. }
  split; [unfold canvas_size in *; cbn [set_scheduled platform];
          rewrite K4, K3, K2, K1; reflexivity|].
  rewrite Q4, Q3, Q2, L4, L3, L2.
  repeat split; assumption.
Qed.

End FrameDraws.

(** ** The end of the frame loop *)

Section LoopEnd.
Local Open Scope R_scope.














End LoopEnd.

(** ** Invariants of the picture state *)

Section Picture.
Local Open Scope R_scope.

Lemma show_of_control s s' : control s' = control s -> show s' = show s.
Proof.
  intros H. apply control_fields in H.
  destruct H as (_ & H1 & H2 & H3 & H4 & H5 & _).
  unfold show. now rewrite H1, H2, H3, H4, H5.
Qed.

Section Threaded.
Variable J : World -> Prop.
Hypothesis J_show : forall s s', show s' = show s -> J s -> J s'.
Hypothesis J_started :
  forall s tnow, J s -> isTransitioning s = false -> J (started tnow s).
Hypothesis J_running :
  forall s x, J s -> isTransitioning s = true -> x < 1 ->
              J (set_blendFactor x s).
Hypothesis J_completed :
  forall s, J s -> isTransitioning s = true -> J (completed s).

Lemma J_control {A} (m : M World A) : preserves control m -> moves J J m.
Proof.
  intros H s Hs. apply (J_show s); [|exact Hs]. apply show_of_control, H.
Qed.

Lemma J_render_splat dt tnow : moves J J (render_splat dt tnow).
Proof.
  intros s Hs. destruct (Pointer.moved (pointer s)) eqn:Hm.
  - rewrite (render_splat_moved dt tnow s Hm).
    pose proof (J_control _ (control_addSplat (Pointer.x (pointer s))
                  (Pointer.y (pointer s))
                  (Pointer.dx (pointer s) * CONFIG.SPLAT_FORCE * dt)
                  (Pointer.dy (pointer s) * CONFIG.SPLAT_FORCE * dt)
                  (0.9, 0.85, 0.8)) s Hs) as H1.
    destruct (addSplat _ _ _ _ _ s) as [[] s1|e s1]; cbn [state_of] in *;
      [|exact H1].
    assert (Hc : J (counted (speed (pointer s)) s1))
      by (apply (J_show s1); [reflexivity|exact H1]).
    destruct (checkAdvance_cases tnow (counted (speed (pointer s)) s1))
      as [H|(Hi & _ & H)]; rewrite H; cbn [state_of]; [exact Hc|].
    now apply J_started.
  - rewrite (render_splat_still dt tnow s Hm). exact Hs.
Qed.

Lemma J_updateTransition now : moves J J (updateTransition now).
Proof.
  intros s Hs.
  destruct (updateTransition_cases now s)
    as [[H _]|[(Ht & Hlt & H)|(Ht & Hge & H)]]; rewrite H; cbn [state_of].
  - exact Hs.
  - now apply J_running.
  - now apply J_completed.
Qed.

Lemma J_render now tnow : moves J J (render now tnow).
Proof.
  unfold render, requestAnimationFrame_render.
  apply inv_bind; [apply moves_the|intros last].
  apply inv_bind;
    [apply inv_modify; intros s; apply J_show; reflexivity|intros _].
  apply inv_bind; [apply J_render_splat|intros _].
  apply inv_bind; [apply J_control, control_step|intros _].
  apply inv_bind; [apply J_updateTransition|intros _].
  apply inv_bind; [apply J_control, control_render_display|intros _].
  apply inv_modify. intros s. apply J_show. reflexivity.
Qed.

Lemma show_handle e :
  (forall now tnow, e <> animationFrame now tnow) ->
  preserves show (handle e).
Proof.
  intros He. destruct e as [? ? ? ?|? ? ?|? ? ?|iw ih|now tnow|i|i];
    cbn [handle]; try (exfalso; eapply He; reflexivity).
  - unfold onMouseMove. frame.
  - unfold onTouchMove. frame.
  - unfold onTouchMove. frame.
  - unfold onResize, onPlatform, createDoubleFBO, createFBO. frame.
  - unfold onImageLoad, glw, onPlatform. frame.
  - unfold onImageError, onPlatform. frame.
Qed.

Lemma J_dispatch s e : J s -> J (dispatch s e).
Proof.
  intros Hs. unfold dispatch.
  destruct e as [? ? ? ?|? ? ?|? ? ?|iw ih|now tnow|i|i];
    try (apply (J_show s); [apply show_handle; discriminate|exact Hs]).
  cbn [handle]. unfold bind, the, modify.
  destruct (scheduled s); [|exact Hs].
  apply J_render. apply (J_show s); [reflexivity|exact Hs].
Qed.

Lemma J_run es s : J s -> J (run es s).
Proof.
  revert s. induction es as [|e es IH]; intros s Hs; [exact Hs|].
  rewrite run_cons. apply IH, J_dispatch, Hs.
Qed.

(** A property of the picture state that start-up establishes holds in
    every world the script reaches. *)
Lemma J_reachable host s :
  (forall innerWidth innerHeight t0 s0 p,
     boot host innerWidth innerHeight t0 page = Return s0 p -> J s0) ->
  reachable host s -> J s.
Proof.
  intros Hboot (iw & ih & t0 & now & tnow & s0 & first & es & Hm & ->).
  apply main_entered in Hm. destruct Hm as ((p & Hb) & ->).
  apply J_run, J_render. exact (Hboot iw ih t0 s0 p Hb).
Qed.

End Threaded.

Lemma mapM_length {S A B} (f : A -> M S B) l s bs s' :
  mapM f l s = Return bs s' -> List.length bs = List.length l.
Proof.
  revert s bs s'. induction l as [|a l IH]; intros s bs s' H; cbn [mapM] in H.
  - unfold ret in H. injection H as <- _. reflexivity.
  - apply bind_returns in H. destruct H as (b & s1 & _ & H).
    apply bind_returns in H. destruct H as (bs' & s2 & Hl & H).
    unfold ret in H. injection H as <- _. cbn [List.length].
    f_equal. exact (IH _ _ _ Hl).
Qed.

Lemma boot_images host innerWidth innerHeight t0 p s p' :
  boot host innerWidth innerHeight t0 p = Return s p' ->
  List.length (imageTextures s) = 4%nat.
Proof.
  intros H. unfold boot in H.
  repeat (apply bind_returns in H; destruct H as (? & ? & ? & H)).
  unfold ret in H. injection H as <- <-. cbn [imageTextures].
  match goal with
  | E : mapM loadImageTexture CONFIG.IMAGES _ = Return _ _ |- _ =>
      apply mapM_length in E; exact E
  end.
Qed.

Lemma in_step_reachable host s : reachable host s -> in_step s.
Proof.
  apply J_reachable.
  - unfold in_step, show. intros a b H. injection H as H1 H2 H3 _ _.
    now rewrite H1, H2, H3.
  - intros a tnow H _. exact H.
  - intros a x H _ _. exact H.
  - unfold in_step. intros a (Hl & Hc & Hn) _.
    destruct (completed_control a)
      as (Hc' & Hn' & _ & _ & _ & _ & _ & _ & _ & _ & Hi).
    unfold cyclic_next in Hn'. rewrite Hi, Hc', Hn', Hl.
    split; [reflexivity|]. split; [|reflexivity].
    rewrite Hn. apply Nat.mod_upper_bound. discriminate.
  - intros iw ih t0 s0 p Hb. unfold in_step.
    rewrite (boot_images _ _ _ _ _ _ _ Hb).
    destruct (boot_initial _ _ _ _ _ _ _ Hb) as (Hc & Hn & _).
    rewrite Hc, Hn. repeat split. lia.
Qed.

(** X10.  In every world the script reaches there are four image textures,
    [currentImageIdx] is below 4 and [nextImageIdx] is its successor modulo
    4.  So both look-ups of the display block find a texture, and the two
    images it blends are never the same one. *)
Theorem indices_in_step (host : Host) (s : World) :
  reachable host s ->
  in_step s /\
  (exists t0 t1,
     nth_error (imageTextures s) (currentImageIdx s) = Some t0 /\
     nth_error (imageTextures s) (nextImageIdx s) = Some t1) /\
  currentImageIdx s <> nextImageIdx s.
Proof.
  intros Hre. pose proof (in_step_reachable host s Hre) as H.
  split; [exact H|]. destruct H as (Hl & Hc & Hn).
  assert (Hn4 : (nextImageIdx s < 4)%nat).
  { rewrite Hn. apply Nat.mod_upper_bound. discriminate. }
  split.
  - destruct (nth_error (imageTextures s) (currentImageIdx s)) as [t0|] eqn:E0.
    2:{ apply nth_error_None in E0. lia. }
    destruct (nth_error (imageTextures s) (nextImageIdx s)) as [t1|] eqn:E1.
    2:{ apply nth_error_None in E1. lia. }
    eauto.
  - rewrite Hn.
    destruct (currentImageIdx s) as [|[|[|[|c]]]]; cbn; try lia.
Qed.

Lemma indices_in_step_witness :
  reachable sample_host sample_halfway /\
  (currentImageIdx sample_halfway < 4)%nat /\
  currentImageIdx sample_halfway <> nextImageIdx sample_halfway.
Proof.
  destruct sample_halfway_facts as (Hre & _).
  destruct (indices_in_step sample_host sample_halfway Hre)
    as ((_ & Hc & _) & _ & Hne).
  split; [exact Hre|]. split; [exact Hc|exact Hne].
Defined.

Lemma blend_ok_reachable host s : reachable host s -> blend_ok s.
Proof.
  apply J_reachable.
  - unfold blend_ok, show. intros a b H. injection H as _ _ _ H1 H2.
    now rewrite H1, H2.
  - unfold blend_ok, started. cbn. intros a tnow [H _] _.
    split; [exact H|discriminate].
  - unfold blend_ok. cbn. intros a x _ Ht Hx.
    split; [exact Hx|]. rewrite Ht. discriminate.
  - unfold blend_ok. intros a _ _.
    destruct (completed_control a) as (_ & _ & Hb & _).
    rewrite Hb. split; [lra|reflexivity].
  - intros iw ih t0 s0 p Hb. unfold blend_ok.
    destruct (boot_initial _ _ _ _ _ _ _ Hb) as (_ & _ & Hbl & _).
    rewrite Hbl. split; [lra|reflexivity].
Qed.

(** X11.  In every world the script reaches the blend factor is below 1,
    and it is 0 whenever no transition is running: between transitions the
    display shows the current image under the dye mask with no fade, and a
    fade never reaches the full next image before the indices advance. *)
Theorem blend_below_one (host : Host) (s : World) :
  reachable host s ->
  blendFactor s < 1 /\ (isTransitioning s = false -> blendFactor s = 0).
Proof. intros Hre. exact (blend_ok_reachable host s Hre). Qed.

Lemma blend_below_one_witness :
  reachable sample_host sample_halfway /\ blendFactor sample_halfway < 1.
Proof.
  destruct sample_halfway_facts as (Hre & _).
  split; [exact Hre|].
  exact (proj1 (blend_below_one sample_host sample_halfway Hre)).
Defined.

End Picture.

(** ** The frame that starts a transition *)

Section TriggerFrame.
Local Open Scope R_scope.

(** X12.  [startTransition] reads the clock again, after the frame took its
    own reading, and [updateTransition] runs in the same frame with the
    earlier one.  So the frame that starts a transition leaves
    [blendFactor] at [(now - tnow) / 1200], which is never positive and is
    negative as soon as the clock advanced between the two readings: the
    fraction is capped at 1 but has no floor at 0. *)
Theorem trigger_frame_blend (now tnow : R) (s : World) :
  loaded s ->
  isTransitioning s = false ->
  Pointer.moved (pointer s) = true ->
  ADVANCE_ENERGY < totalSplatEnergy s + speed (pointer s) ->
  now <= tnow ->
  exists s',
    render now tnow s = Return tt s' /\
    isTransitioning s' = true /\
    transitionStart s' = tnow /\
    blendFactor s' = (now - tnow) / 1200 /\
    blendFactor s' <= 0 /\
    (now < tnow ->
     blendFactor s' < 0 /\
     blendFactor s' <> clamp ((now - transitionStart s') / 1200) 0 1).
Proof.
  intros Hl Hi Hm He Hc.
  destruct (render_triggers now tnow s Hl Hi Hm He Hc)
    as (s' & Hr & Ht & Hs & _ & Hb & _).
  exists s'. unfold TRANSITION_DURATION in Hb.
  split; [exact Hr|]. split; [exact Ht|]. split; [exact Hs|].
  split; [exact Hb|]. rewrite Hb, Hs. split; [lra|].
  intros Hlt. split; [lra|].
  unfold clamp, Math_max, Math_min, Rmax, Rmin.
  destruct (Rle_dec ((now - tnow) / 1200) 1); [|lra].
  destruct (Rle_dec 0 ((now - tnow) / 1200)); lra.
Qed.

(** In the sample world a movement of speed 8001 is found by a frame that
    reads the clock at 16 ms and, for the transition, at 17 ms. *)
Lemma trigger_frame_blend_witness :
  exists s',
    render 16 17
      (set_pointer {| Pointer.x := 8401; Pointer.y := 300;
                      Pointer.dx := 8001; Pointer.dy := 0;
                      Pointer.moved := true |} sample_world)
    = Return tt s' /\
    isTransitioning s' = true /\
    blendFactor s' < 0.
Proof.
  destruct sample_world_facts as (_ & Hl & Hi & He & _).
  destruct (trigger_frame_blend 16 17
              (set_pointer {| Pointer.x := 8401; Pointer.y := 300;
                              Pointer.dx := 8001; Pointer.dy := 0;
                              Pointer.moved := true |} sample_world))
    as (s' & Hr & Ht & _ & _ & _ & Hneg).
  - exact Hl.
  - exact Hi.
  - reflexivity.
  - cbn [set_pointer pointer totalSplatEnergy]. rewrite He.
    rewrite speed_horizontal; [|lra|reflexivity].
    unfold ADVANCE_ENERGY. lra.
  - lra.
  - exists s'. split; [exact Hr|]. split; [exact Ht|].
    apply Hneg. lra.
Defined.

End TriggerFrame.

(** ** Reading and writing apart *)

Section Feedback.
Local Open Scope R_scope.




End Feedback.

(** ** Image textures *)

Section Images.
Local Open Scope R_scope.

(** After start-up the image textures are four different textures, each
    holding the black placeholder, and none is a texture of a simulation
    buffer. *)
Lemma boot_placeholders host innerWidth innerHeight t0 s p :
  boot host innerWidth innerHeight t0 page = Return s p ->
  textures_ok s /\
  Forall (fun t => gl_pixels (gl (platform s)) t = BlackPixel)
    (imageTextures s).
Proof.
  unfold boot, shaderSrc.
  destruct (host_webgl host); [|exec; discriminate].
  destruct (host_script host "vertShader") as [v|]; [|exec; discriminate].
  destruct (host_script host "fragAdvection") as [f1|]; [|exec; discriminate].
  destruct (host_script host "fragDivergence") as [f2|];
    [|cbv beta iota delta [bind modify ret deref throw];
      destruct (createProgram _ _ _ _); discriminate].
  cbv beta iota delta [bind modify ret deref throw].
  generalize (set_canvas innerWidth innerHeight page). intros p0.
  destruct (createProgram host v f1 p0) as [r1 p1|e p1]; [|discriminate].
  destruct (createProgram host v f2 p1) as [r2 p2|e p2]; [|discriminate].
  destruct (host_script host "fragPressure") as [f3|]; [|discriminate].
  destruct (createProgram host v f3 p2) as [r3 p3|e p3]; [|discriminate].
  destruct (host_script host "fragGradientSubtract") as [f4|];
    [|discriminate].
  destruct (createProgram host v f4 p3) as [r4 p4|e p4]; [|discriminate].
  destruct (host_script host "fragSplat") as [f5|]; [|discriminate].
  destruct (createProgram host v f5 p4) as [r5 p5|e p5]; [|discriminate].
  destruct (host_script host "fragDisplay") as [f6|]; [|discriminate].
  destruct (createProgram host v f6 p5) as [r6 p6|e p6]; [|discriminate].
  clear. open_platform p6. unfold CONFIG.IMAGES. exec.
  intros H. injection H as <- _.
  unfold textures_ok, textures, buffers. exec. cbn [map FBO.tex app].
  split; [split|].
  - repeat (apply NoDup_cons; [cbn [In]; lia|]). apply NoDup_nil.
  - repeat (apply Forall_cons; [lia|]). apply Forall_nil.
  - repeat (apply Forall_cons; [decide_names; reflexivity|]).
    apply Forall_nil.
Qed.

(** What the [onload] handler of image [i] does. *)
Lemma onImageLoad_spec s i tex url :
  nth_error (imageTextures s) i = Some tex ->
  nth_error CONFIG.IMAGES i = Some url ->
  exists s',
    handle (imageLoad i) s = Return tt s' /\
    gl_pixels (gl (platform s')) tex = Picture url /\
    (forall t, t <> tex ->
               gl_pixels (gl (platform s')) t = gl_pixels (gl (platform s)) t) /\
    control s' = control s /\
    rig s' = rig s /\
    output s' = output s /\
    gl_units (gl (platform s')) (gl_active (gl (platform s))) = Some tex.
Proof.
  intros Ht Hu. cbn [handle]. unfold bind, the. rewrite Ht, Hu.
  unfold control, rig, output, draws. open_world s.
  unfold onImageLoad. exec. eexists. split; [reflexivity|]. exec.
  split; [decide_names; reflexivity|].
  split; [intros t Hne; decide_names; reflexivity|].
  split; [reflexivity|]. split; [reflexivity|]. split; [reflexivity|].
  decide_names. reflexivity.
Qed.

Lemma onImageError_spec s i url :
  nth_error CONFIG.IMAGES i = Some url ->
  handle (imageError i) s
  = Return tt
      (set_platform
         (set_console (console (platform s) ++ ["Failed to load image:"%string])
            (platform s)) s).
Proof. intros Hu. cbn [handle]. rewrite Hu. reflexivity. Qed.

(** X14.  Start-up, when it reaches the frame loop, leaves four different
    image textures, each holding the 1 by 1 black placeholder.  When image
    [i] arrives, its texture holds the picture of the [i]-th configured
    address and no other texture image changes; the handler leaves the
    texture bound to the unit that was active, draws nothing, and changes
    nothing the script keeps.  When an image fails to load the handler logs
    one line and changes nothing else, so the placeholder stays. *)
Theorem image_placeholder_then_picture :
  (forall host innerWidth innerHeight t0 now tnow s first,
     main host innerWidth innerHeight t0 now tnow = Entered s first ->
     List.length (imageTextures s) = 4%nat /\
     NoDup (imageTextures s) /\
     Forall (fun t => gl_pixels (gl (platform s)) t = BlackPixel)
       (imageTextures s)) /\
  (forall s i tex url,
     nth_error (imageTextures s) i = Some tex ->
     nth_error CONFIG.IMAGES i = Some url ->
     exists s',
       handle (imageLoad i) s = Return tt s' /\
       gl_pixels (gl (platform s')) tex = Picture url /\
       (forall t, t <> tex ->
          gl_pixels (gl (platform s')) t = gl_pixels (gl (platform s)) t) /\
       control s' = control s /\
       rig s' = rig s /\
       output s' = output s /\
       gl_units (gl (platform s')) (gl_active (gl (platform s))) = Some tex) /\
  (forall s i url,
     nth_error CONFIG.IMAGES i = Some url ->
     handle (imageError i) s
     = Return tt
         (set_platform
            (set_console
               (console (platform s) ++ ["Failed to load image:"%string])
               (platform s)) s)).
Proof.
  split; [|split].
  - intros host iw ih t0 now tnow s first Hm.
    apply main_entered in Hm. destruct Hm as ((p & Hb) & _).
    split; [exact (boot_images _ _ _ _ _ _ _ Hb)|].
    destruct (boot_placeholders _ _ _ _ _ _ Hb) as ((Hn & _) & Hp).
    split; [|exact Hp].
    unfold textures in Hn. now apply NoDup_app_remove_r in Hn.
  - exact onImageLoad_spec.
  - exact onImageError_spec.
Qed.

(** On the sample host the second image arrives right after start-up. *)
Lemma image_placeholder_then_picture_witness :
  exists s tex s',
    main sample_host 800 600 0 0 0 = Entered s (render 0 0 s) /\
    nth_error (imageTextures s) 1 = Some tex /\
    gl_pixels (gl (platform s)) tex = BlackPixel /\
    handle (imageLoad 1) s = Return tt s' /\
    gl_pixels (gl (platform s')) tex = Picture "resources/p2.jpg".
Proof.
  assert (Hm : main sample_host 800 600 0 0 0
               = Entered sample_start (render 0 0 sample_start)).
  { rewrite sample_start_eq. apply booted_main. reflexivity. }
  destruct (proj1 image_placeholder_then_picture _ _ _ _ _ _ _ _ Hm)
    as (Hl & _ & Hp).
  destruct (nth_error (imageTextures sample_start) 1) as [tex|] eqn:Ht.
  2:{ apply nth_error_None in Ht. lia. }
  destruct (proj1 (proj2 image_placeholder_then_picture) sample_start
              1%nat tex "resources/p2.jpg"%string Ht eq_refl)
    as (s' & Hh & Hpic & _).
  exists sample_start, tex, s'.
  split; [exact Hm|]. split; [exact Ht|].
  split; [|split; [exact Hh|exact Hpic]].
  apply nth_error_In in Ht.
  exact (proj1 (Forall_forall _ _) Hp tex Ht).
Defined.

End Images.

(** ** The script's textures stay apart *)

Section Apart.
Local Open Scope R_scope.

Lemma textures_ok_stock s s' :
  stock s' = stock s -> textures_ok s -> textures_ok s'.
Proof.
  unfold stock, textures_ok, textures, buffers. intros H.
  injection H as E1 E2 E3 E4 E5 E6. now rewrite E1, E2, E3, E4, E5, E6.
Qed.

Lemma stock_apart {A} (m : M World A) :
  preserves stock m -> moves textures_ok textures_ok m.
Proof. apply (moves_preserved stock). exact textures_ok_stock. Qed.

Lemma textures_ok_perm s s' :
  gl_next (gl (platform s')) = gl_next (gl (platform s)) ->
  Permutation (textures s) (textures s') ->
  textures_ok s -> textures_ok s'.
Proof.
  intros Hn Hp [H1 H2]. unfold textures_ok. rewrite Hn. split.
  - exact (Permutation_NoDup Hp H1).
  - exact (Permutation_Forall Hp H2).
Qed.

Lemma velocity_swap_apart : moves textures_ok textures_ok velocity_swap.
Proof.
  intros s. unfold velocity_swap, modify. cbn [state_of].
  apply textures_ok_perm; [reflexivity|].
  unfold textures, buffers. cbn. apply Permutation_app_head, perm_swap.
Qed.

Lemma dye_swap_apart : moves textures_ok textures_ok dye_swap.
Proof.
  intros s. unfold dye_swap, modify. cbn [state_of].
  apply textures_ok_perm; [reflexivity|].
  unfold textures, buffers. cbn. apply Permutation_app_head.
  do 2 apply perm_skip. apply perm_swap.
Qed.

Lemma pressure_swap_apart : moves textures_ok textures_ok pressure_swap.
Proof.
  intros s. unfold pressure_swap, modify. cbn [state_of].
  apply textures_ok_perm; [reflexivity|].
  unfold textures, buffers. cbn. apply Permutation_app_head.
  do 5 apply perm_skip. apply perm_swap.
Qed.

Ltac apart_step :=
  first
    [ apply inv_bind; [ | intros ]
    | apply inv_ret
    | apply moves_the
    | apply inv_deref
    | apply inv_throw
    | apply velocity_swap_apart
    | apply dye_swap_apart
    | apply pressure_swap_apart
    | apply inv_repeatM
    | match goal with
      | |- moves _ _ (if ?b then _ else _) => destruct b
      end
    | apply stock_apart; solve [ frame_gl ] ].

Ltac apart := repeat apart_step.

Lemma addSplat_apart x y dx dy c :
  moves textures_ok textures_ok (addSplat x y dx dy c).
Proof. unfold addSplat. apart. Qed.













End Apart.

(** ** The frame properties on the sample run *)

Section FrameWitnesses.
Local Open Scope R_scope.

Lemma sample_start_painters :
  Programs.splat (programs sample_start) = Some (sample_program 15) /\
  Programs.display (programs sample_start) = Some (sample_program 18).
Proof. rewrite sample_start_eq. split; reflexivity. Qed.

Lemma sample_declares p name :
  In name sample_uniforms -> declares (sample_program p) name.
Proof. apply sample_program_declares. Qed.

(** A splat at the centre of the sample canvas. *)
Lemma splat_passes_witness :
  exists s' d1 d2,
    addSplat 400 300 1 2 (0.9, 0.85, 0.8) sample_start = Return tt s' /\
    draws s' = (draws sample_start ++ [d1; d2])%list /\
    draw_uniform d1 "u_color" = Some (U3f 1 (- 2) 0) /\
    draw_uniform d2 "u_color" = Some (U3f 0.9 0.85 0.8).
Proof.
  destruct sample_start_painters as [Hs _].
  destruct (splat_passes 400 300 1 2 (0.9, 0.85, 0.8) sample_start
              (sample_program 15) Hs)
    as (s' & d1 & d2 & Ha & Hd & _ & _ & _ & _ & _ & _ & _ & _ & _ & Hc1 & _
        & _ & _ & _ & _ & Hc2 & _);
    try (apply sample_declares; unfold sample_uniforms; cbn [In]; tauto).
  exists s', d1, d2. split; [exact Ha|]. split; [exact Hd|].
  split; [exact Hc1|exact Hc2].
Defined.

(** The display block right after start-up on the sample host. *)
Lemma display_pass_witness :
  exists s' d,
    render_display sample_start = Return tt s' /\
    draw_target d = None /\
    draw_uniform d "u_blend" = Some (U1f (blendFactor sample_start)) /\
    gl_screen (gl (platform s')) = Drawn (List.length (draws sample_start)).
Proof.
  destruct sample_start_painters as [_ Hd].
  destruct (display_pass sample_start (sample_program 18) Hd)
    as (s' & d & Hr & _ & _ & _ & _ & Ht & _ & _ & _ & _ & _ & _ & _ & Hb
        & Hs & _);
    try (apply sample_declares; unfold sample_uniforms; cbn [In]; tauto).
  exists s', d. split; [exact Hr|]. split; [exact Ht|].
  split; [exact Hb|exact Hs].
Defined.

(** A frame of the sample world, whose pointer has not moved. *)
Lemma frame_draws_witness :
  loaded sample_world /\
  exists s',
    render 16 16 sample_world = Return tt s' /\
    List.length (draws s') = (List.length (draws sample_world) + 13)%nat /\
    scheduled s' = true.
Proof.
  destruct sample_world_facts as (_ & Hl & _ & _ & _ & Hp & _).
  destruct sample_start_facts as (_ & _ & _ & _ & _ & Hm & _).
  split; [exact Hl|].
  destruct (frame_draws 16 16 sample_world Hl)
    as (s' & ds & d & Hr & Hd & Hn & _ & _ & _ & _ & _ & _ & _ & _ & _ & _
        & Hs).
  exists s'. split; [exact Hr|]. split; [|exact Hs].
  rewrite Hp, Hm in Hn. rewrite Hd, length_app, Hn. reflexivity.
Defined.

End FrameWitnesses.

(** ** The uniform table of a program *)

Section UniformTable.
Local Open Scope R_scope.

Lemma uniform_of_table p names name :
  uniform_of
    {| program := p;
       uniforms :=
         map (fun n => (n, {| loc_program := p; loc_name := n |})) names |}
    name
  = if in_dec string_dec name names
    then Some {| loc_program := p; loc_name := name |}
    else None.
Proof.
  unfold uniform_of. cbn [uniforms].
  induction names as [|n ns IH]; cbn [map find fst snd]; [reflexivity|].
  destruct (String.eqb_spec n name) as [->|Hn].
  - destruct (in_dec string_dec name (name :: ns)) as [_|H];
      [reflexivity|exfalso; apply H; now left].
  - rewrite IH.
    destruct (in_dec string_dec name ns) as [Hi|Hi];
      destruct (in_dec string_dec name (n :: ns)) as [Hj|Hj];
      try reflexivity; exfalso.
    + apply Hj. now right.
    + destruct Hj as [Hj|Hj]; [now apply Hn|now apply Hi].
Qed.

Lemma createProgram_table host vertSrc fragSrc p q p' :
  createProgram host vertSrc fragSrc p = Return (Some q) p' ->
  q = {| program := S (S (gl_next (gl p)));
         uniforms :=
           map (fun n => (n, {| loc_program := S (S (gl_next (gl p)));
                                loc_name := n |}))
             (host_active_uniforms host vertSrc fragSrc) |}.
Proof.
  open_platform p. unfold createProgram, compileShader, attachShader.
  destruct (host_compiles host VERTEX_SHADER vertSrc);
    destruct (host_compiles host FRAGMENT_SHADER fragSrc);
    destruct (host_null_argument_throws host); exec;
    try discriminate;
    match goal with
    | |- context [GL.LINK_STATUS ?a ?b] => destruct (GL.LINK_STATUS a b)
    end; exec; intros H; try discriminate H;
    injection H as <- _; reflexivity.
Qed.

(** X16.  The uniform table of a program that [createProgram] returns
    holds exactly the active uniforms the driver reports: looking up an
    active name gives that name's location in this program, every location
    in the table is one of this program for the name it is filed under, and
    looking up any other name gives nothing (the undefined that the
    [uniform] calls then ignore). *)
Theorem createProgram_uniforms (host : Host) (vertSrc fragSrc : string)
  (p p' : Platform) (q : Program) :
  createProgram host vertSrc fragSrc p = Return (Some q) p' ->
  faithful q /\
  (forall name,
     In name (host_active_uniforms host vertSrc fragSrc) ->
     declares q name) /\
  (forall name,
     ~ In name (host_active_uniforms host vertSrc fragSrc) ->
     uniform_of q name = None).
Proof.
  intros H. apply createProgram_table in H. subst q.
  split; [|split].
  - intros name l. rewrite uniform_of_table.
    destruct (in_dec string_dec name _); [|discriminate].
    intros E. injection E as <-. reflexivity.
  - intros name Hin. unfold declares. rewrite uniform_of_table.
    cbn [program]. destruct (in_dec string_dec name _); [reflexivity|].
    contradiction.
  - intros name Hin. rewrite uniform_of_table.
    destruct (in_dec string_dec name _); [contradiction|reflexivity].
Qed.

Lemma createProgram_uniforms_witness :
  exists q p',
    createProgram sample_host "vertShader" "fragAdvection"
      (set_canvas 800 600 page)
    = Return (Some q) p' /\
    declares q "u_dt" /\
    uniform_of q "u_missing" = None.
Proof.
  destruct (createProgram_compiled sample_host "vertShader" "fragAdvection"
              (set_canvas 800 600 page) eq_refl eq_refl (page_clean 800 600))
    as (r & p' & H & Hnull & _).
  destruct r as [q|]; [|discriminate Hnull].
  destruct (createProgram_uniforms sample_host _ _ _ _ _ H)
    as (_ & Hd & Hn).
  exists q, p'. split; [exact H|].
  split.
  - apply Hd. cbn. tauto.
  - apply Hn. cbn. intros Hin.
    repeat (destruct Hin as [Hin|Hin]; [discriminate Hin|]). exact Hin.
Defined.

End UniformTable.

(** ** The samplers of the solver's passes *)

Section Wiring.
Local Open Scope R_scope.

(** X17.  With the four solver programs linked and their sampler and texel
    uniforms active, every pass of a step reads the buffers its uniforms
    name: the velocity advection reads the read buffer of velocity as both
    velocity and source, with [u_dyeTexel] at the texel size of velocity;
    the dye advection reads the advected velocity and the read buffer of
    dye, with [u_dyeTexel] at the texel size of dye; the divergence pass
    reads the advected velocity; each of the eight pressure iterations
    reads the divergence buffer and the pressure buffer written by the
    iteration before it (the first one reads what the previous frame left);
    the gradient pass reads the last pressure written and the advected
    velocity. *)
Theorem solver_wiring (dt : R) (s : World) (adv div pre gra : Program) :
  Programs.advection (programs s) = Some adv ->
  Programs.divergence (programs s) = Some div ->
  Programs.pressure (programs s) = Some pre ->
  Programs.gradientSubtract (programs s) = Some gra ->
  faithful adv ->
  declares adv "u_velocity" -> declares adv "u_source" ->
  declares adv "u_texel" -> declares adv "u_dyeTexel" ->
  declares div "u_velocity" ->
  declares pre "u_divergence" -> declares pre "u_pressure" ->
  declares gra "u_pressure" -> declares gra "u_velocity" ->
  let V := velocity s in
  let V1 := DoubleFBO.swap V in
  let D := dye s in
  let P := pressure s in
  let P1 := DoubleFBO.swap P in
  exists s' d1 d2 d3 j1 j2 j3 j4 j5 j6 j7 j8 d12,
    step dt s = Return tt s' /\
    new_draws s s'
    = [d1; d2; d3; j1; j2; j3; j4; j5; j6; j7; j8; d12] /\
    wired d1 "u_velocity" (DoubleFBO.read V) /\
    wired d1 "u_source" (DoubleFBO.read V) /\
    draw_uniform d1 "u_dyeTexel"
    = Some (U2f (DoubleFBO.texelX V) (DoubleFBO.texelY V)) /\
    wired d2 "u_velocity" (DoubleFBO.read V1) /\
    wired d2 "u_source" (DoubleFBO.read D) /\
    draw_uniform d2 "u_texel"
    = Some (U2f (DoubleFBO.texelX V) (DoubleFBO.texelY V)) /\
    draw_uniform d2 "u_dyeTexel"
    = Some (U2f (DoubleFBO.texelX D) (DoubleFBO.texelY D)) /\
    wired d3 "u_velocity" (DoubleFBO.read V1) /\
    Forall2 (fun d Q => wired d "u_divergence" (divergence s) /\
                        wired d "u_pressure" (DoubleFBO.read Q) /\
                        draw_target d = Some (FBO.fbo (DoubleFBO.write Q)))
      [j1; j2; j3; j4; j5; j6; j7; j8] [P; P1; P; P1; P; P1; P; P1] /\
    wired d12 "u_pressure" (DoubleFBO.read P) /\
    wired d12 "u_velocity" (DoubleFBO.read V1).
Proof.
  intros Ha Hd Hp Hg Hf A1 A2 A3 A4 D1 P1 P2 G1 G2. cbv zeta.
  unfold new_draws, draws.
  open_world s. destruct s_prg as [? ? ? ? ? ?]. simpl in Ha, Hd, Hp, Hg. subst.
  unfold declares in *.
  pose proof (Hf "u_dt"%string) as Fdt.
  pose proof (Hf "u_dissipation"%string) as Fdis.
  unfold step. exec.
  destruct (uniform_of adv "u_dt") as [l1|];
    [rewrite (Fdt l1 eq_refl)|];
    (destruct (uniform_of adv "u_dissipation") as [l2|];
     [rewrite (Fdis l2 eq_refl)|]); rewrite A1, A2, A3, A4, D1, P1, P2, G1, G2;
  cbn [loc_program loc_name]; rewrite !Nat.eqb_refl;
  do 13 eexists;
  (split; [reflexivity|]); exec;
  (split; [rewrite <- !app_assoc, skipn_app_exact; reflexivity|]);
  unfold wired, upd; cbn [draw_uniform draw_unit draw_target];
  repeat split;
    try (repeat (apply Forall2_cons; [repeat split|]); try apply Forall2_nil);
    try (eexists; split; reflexivity).
Qed.

End Wiring.

(** ** The order of the images *)

Section Slideshow.
Local Open Scope R_scope.

Lemma indices_render_splat dt tnow :
  preserves (fun s => (currentImageIdx s, nextImageIdx s))
    (render_splat dt tnow).
Proof. unfold render_splat, addSplat, checkAdvance, startTransition. frame. Qed.

Lemma preserves_imageTextures_splat dt tnow :
  preserves imageTextures (render_splat dt tnow).
Proof. unfold render_splat, addSplat, checkAdvance, startTransition. frame. Qed.

Lemma indices_of_control {A} (m : M World A) :
  preserves control m ->
  preserves (fun s => (currentImageIdx s, nextImageIdx s)) m.
Proof.
  intros H s. specialize (H s). apply control_fields in H.
  destruct H as (_ & _ & H1 & H2 & _). now rewrite H1, H2.
Qed.

(** What a frame can do to the indices: nothing, or the one step of a
    completion. *)
Lemma render_indices now tnow s :
  let s' := state_of (render now tnow s) in
  (currentImageIdx s' = currentImageIdx s /\
   nextImageIdx s' = nextImageIdx s) \/
  (currentImageIdx s' = nextImageIdx s /\
   nextImageIdx s' = cyclic_next s /\
   imageTextures s' = imageTextures s /\
   isTransitioning s' = false /\
   blendFactor s' = 0 /\
   totalSplatEnergy s' = 0).
Proof.
  cbv zeta. unfold render, requestAnimationFrame_render.
  cbv beta iota delta [bind the modify].
  pose proof (indices_render_splat (frame_dt now (lastTime s)) tnow
                (set_lastTime now s)) as K1.
  pose proof (preserves_imageTextures_splat (frame_dt now (lastTime s)) tnow
                (set_lastTime now s)) as I1.
  destruct (render_splat _ tnow (set_lastTime now s)) as [[] a1|e1 a1];
    cbn [state_of set_lastTime currentImageIdx nextImageIdx imageTextures]
      in K1, I1;
    injection K1 as K1c K1n; [|left; cbn [state_of]; split; assumption].
  pose proof (control_step (frame_dt now (lastTime s)) a1) as K2.
  destruct (step _ a1) as [[] a2|e2 a2]; cbn [state_of] in K2 |- *;
    apply control_fields in K2;
    destruct K2 as (_ & I2 & C2 & N2 & _);
    [|left; split; congruence].
  destruct (updateTransition_cases now a2)
    as [[H _]|[(_ & _ & H)|(_ & _ & H)]]; rewrite H.
  - pose proof (control_render_display a2) as K4.
    destruct (render_display a2) as [[] a4|e4 a4]; cbn [state_of] in *;
      apply control_fields in K4; destruct K4 as (_ & _ & C4 & N4 & _);
      left; cbn [set_scheduled currentImageIdx nextImageIdx];
      split; congruence.
  - pose proof (control_render_display
                  (set_blendFactor
                     ((now - transitionStart a2) / TRANSITION_DURATION) a2))
      as K4.
    destruct (render_display _) as [[] a4|e4 a4]; cbn [state_of] in *;
      apply control_fields in K4; destruct K4 as (_ & _ & C4 & N4 & _);
      cbn [set_blendFactor currentImageIdx nextImageIdx] in C4, N4;
      left; cbn [set_scheduled currentImageIdx nextImageIdx];
      split; congruence.
  - pose proof (control_render_display (completed a2)) as K4.
    destruct (completed_control a2)
      as (Hc & Hn & Hb & Hi & He & _ & _ & _ & _ & _ & Him).
    unfold cyclic_next in *.
    destruct (render_display _) as [[] a4|e4 a4]; cbn [state_of] in *;
      apply control_fields in K4;
      destruct K4 as (_ & I4 & C4 & N4 & B4 & T4 & _ & E4 & _);
      right;
      cbn [set_scheduled currentImageIdx nextImageIdx imageTextures
           isTransitioning blendFactor totalSplatEnergy];
      rewrite I4, C4, N4, B4, T4, E4, Hc, Hn, Hb, Hi, He, Him, N2, I2, K1n,
        I1; repeat split.
Qed.

Lemma show_indices s s' :
  show s' = show s ->
  currentImageIdx s' = currentImageIdx s /\
  nextImageIdx s' = nextImageIdx s.
Proof. unfold show. intros H. injection H as _ H1 H2 _ _. now split. Qed.

(** X18.  In a world the script reaches, an event either leaves the two
    image indices as they are, or it is a frame that completes a
    transition: then the current index moves to its successor modulo 4,
    the next index follows it, and the frame ends idle with blend factor and
    energy at 0.  The images are shown in their configured order, one step
    per completed transition; nothing else moves the indices. *)
Theorem slideshow_steps (host : Host) (s : World) (e : Event) :
  reachable host s ->
  let s' := dispatch s e in
  (currentImageIdx s' = currentImageIdx s /\
   nextImageIdx s' = nextImageIdx s) \/
  (currentImageIdx s' = ((currentImageIdx s + 1) mod 4)%nat /\
   nextImageIdx s' = ((currentImageIdx s + 2) mod 4)%nat /\
   isTransitioning s' = false /\
   blendFactor s' = 0 /\
   totalSplatEnergy s' = 0 /\
   exists now tnow, e = animationFrame now tnow).
Proof.
  intros Hre. cbv zeta.
  destruct (in_step_reachable host s Hre) as (Hl & Hc & Hn).
  unfold dispatch.
  destruct e as [? ? ? ?|? ? ?|? ? ?|iw ih|now tnow|i|i];
    try (left; apply show_indices, show_handle; discriminate).
  cbn [handle]. unfold bind, the, modify.
  destruct (scheduled s); [|left; split; reflexivity].
  destruct (render_indices now tnow (set_scheduled false s))
    as [H|(H1 & H2 & _ & H3 & H4 & H5)]; [left; exact H|right].
  unfold cyclic_next in H2.
  cbn [set_scheduled currentImageIdx nextImageIdx imageTextures] in H1, H2.
  rewrite H1, H2, Hl, Hn.
  split; [reflexivity|]. split.
  { rewrite Nat.Div0.add_mod_idemp_l. f_equal. lia. }
  split; [exact H3|]. split; [exact H4|]. split; [exact H5|].
  exists now, tnow. reflexivity.
Qed.

Lemma slideshow_steps_witness :
  reachable sample_host sample_halfway /\
  ((currentImageIdx (dispatch sample_halfway (animationFrame 1216 1216))
    = currentImageIdx sample_halfway /\
    nextImageIdx (dispatch sample_halfway (animationFrame 1216 1216))
    = nextImageIdx sample_halfway) \/
   currentImageIdx (dispatch sample_halfway (animationFrame 1216 1216))
   = ((currentImageIdx sample_halfway + 1) mod 4)%nat).
Proof.
  destruct sample_halfway_facts as (Hre & _).
  split; [exact Hre|].
  destruct (slideshow_steps sample_host sample_halfway
              (animationFrame 1216 1216) Hre) as [H|(H & _)];
    [left; exact H|right; exact H].
Defined.

(** The sample programs answer for every sample uniform. *)
Lemma sample_program_faithful p : faithful (sample_program p).
Proof.
  intros name l. unfold sample_program. rewrite uniform_of_table.
  destruct (in_dec string_dec name sample_uniforms); [|discriminate].
  intros E. injection E as <-. reflexivity.
Qed.

Lemma solver_wiring_witness :
  exists s' d1 rest,
    step 0.016 sample_start = Return tt s' /\
    new_draws sample_start s' = d1 :: rest /\
    wired d1 "u_velocity" (DoubleFBO.read (velocity sample_start)).
Proof.
  destruct sample_start_programs as (Ha & Hd & Hp & Hg).
  destruct (solver_wiring 0.016 sample_start (sample_program 3)
              (sample_program 6) (sample_program 9) (sample_program 12)
              Ha Hd Hp Hg (sample_program_faithful 3))
    as (s' & d1 & d2 & d3 & j1 & j2 & j3 & j4 & j5 & j6 & j7 & j8 & d12 & Hs
        & Hn & Hw & _);
    try (apply sample_declares; unfold sample_uniforms; cbn [In]; tauto).
  exists s', d1. eexists. split; [exact Hs|]. split; [exact Hn|exact Hw].
Defined.

End Slideshow.

(** ** One pass of a double-buffered field *)

Section PingPong.
Local Open Scope R_scope.

Lemma buffers_ok_fields s :
  buffers_ok s ->
  (attached s (DoubleFBO.write (velocity s)) /\
   FBO.tex (DoubleFBO.read (velocity s))
   <> FBO.tex (DoubleFBO.write (velocity s))) /\
  (attached s (DoubleFBO.write (dye s)) /\
   FBO.tex (DoubleFBO.read (dye s)) <> FBO.tex (DoubleFBO.write (dye s))) /\
  (attached s (DoubleFBO.write (pressure s)) /\
   FBO.tex (DoubleFBO.read (pressure s))
   <> FBO.tex (DoubleFBO.write (pressure s))).
Proof.
  intros [Ha Hn]. unfold buffers in *.
  rewrite !Forall_cons_iff in Ha.
  pose proof (NoDup_apart _ 0 1 Hn) as N1.
  pose proof (NoDup_apart _ 2 3 Hn) as N2.
  pose proof (NoDup_apart _ 5 6 Hn) as N3.
  cbn [map List.length nth] in N1, N2, N3.
  unfold DoubleFBO.read, DoubleFBO.write.
  repeat split; try tauto;
    first [apply N1|apply N2|apply N3]; lia.
Qed.

(** Rendering into the write buffer of a field and swapping. *)
Lemma velocity_pass s p :
  gl_program (gl (platform s)) = Some p ->
  attached s (DoubleFBO.write (velocity s)) ->
  FBO.tex (DoubleFBO.read (velocity s))
  <> FBO.tex (DoubleFBO.write (velocity s)) ->
  exists s',
    bind (drawQuad_write velocity) (fun _ => velocity_swap) s = Return tt s' /\
    List.length (draws s') = S (List.length (draws s)) /\
    image_of s' (DoubleFBO.read (velocity s'))
    = Drawn (List.length (draws s)) /\
    image_of s' (DoubleFBO.write (velocity s'))
    = image_of s (DoubleFBO.read (velocity s)) /\
    (forall t, t <> FBO.tex (DoubleFBO.write (velocity s)) ->
               gl_pixels (gl (platform s')) t = gl_pixels (gl (platform s)) t).
Proof.
  unfold attached, image_of, draws. open_world s. intros Hp Ha Hne.
  subst g_prog. exec. exec in Ha. exec in Hne.
  eexists. split; [reflexivity|]. exec. rewrite Ha.
  rewrite last_length. split; [reflexivity|].
  split; [decide_names; reflexivity|].
  split; [decide_names; reflexivity|].
  intros t Ht. decide_names. reflexivity.
Qed.

Lemma dye_pass s p :
  gl_program (gl (platform s)) = Some p ->
  attached s (DoubleFBO.write (dye s)) ->
  FBO.tex (DoubleFBO.read (dye s)) <> FBO.tex (DoubleFBO.write (dye s)) ->
  exists s',
    bind (drawQuad_write dye) (fun _ => dye_swap) s = Return tt s' /\
    List.length (draws s') = S (List.length (draws s)) /\
    image_of s' (DoubleFBO.read (dye s')) = Drawn (List.length (draws s)) /\
    image_of s' (DoubleFBO.write (dye s'))
    = image_of s (DoubleFBO.read (dye s)) /\
    (forall t, t <> FBO.tex (DoubleFBO.write (dye s)) ->
               gl_pixels (gl (platform s')) t = gl_pixels (gl (platform s)) t).
Proof.
  unfold attached, image_of, draws. open_world s. intros Hp Ha Hne.
  subst g_prog. exec. exec in Ha. exec in Hne.
  eexists. split; [reflexivity|]. exec. rewrite Ha.
  rewrite last_length. split; [reflexivity|].
  split; [decide_names; reflexivity|].
  split; [decide_names; reflexivity|].
  intros t Ht. decide_names. reflexivity.
Qed.

Lemma pressure_pass s p :
  gl_program (gl (platform s)) = Some p ->
  attached s (DoubleFBO.write (pressure s)) ->
  FBO.tex (DoubleFBO.read (pressure s))
  <> FBO.tex (DoubleFBO.write (pressure s)) ->
  exists s',
    bind (drawQuad_write pressure) (fun _ => pressure_swap) s
    = Return tt s' /\
    List.length (draws s') = S (List.length (draws s)) /\
    image_of s' (DoubleFBO.read (pressure s'))
    = Drawn (List.length (draws s)) /\
    image_of s' (DoubleFBO.write (pressure s'))
    = image_of s (DoubleFBO.read (pressure s)) /\
    (forall t, t <> FBO.tex (DoubleFBO.write (pressure s)) ->
               gl_pixels (gl (platform s')) t = gl_pixels (gl (platform s)) t).
Proof.
  unfold attached, image_of, draws. open_world s. intros Hp Ha Hne.
  subst g_prog. exec. exec in Ha. exec in Hne.
  eexists. split; [reflexivity|]. exec. rewrite Ha.
  rewrite last_length. split; [reflexivity|].
  split; [decide_names; reflexivity|].
  split; [decide_names; reflexivity|].
  intros t Ht. decide_names. reflexivity.
Qed.

(** X19.  The pattern of every pass on a double-buffered field: draw into
    the write buffer, then swap.  In a world whose seven buffers are
    attached to seven different textures (every world the script reaches
    is one), with a program current, the draw is logged, and after the swap
    the read buffer of the field holds what the draw produced while the
    write buffer holds what the read buffer held before; no other texture
    changes.  So each pass hands its result to the next reader of the field
    and keeps the previous state for one more pass. *)
Theorem write_then_swap (s : World) (p : nat) :
  gl_program (gl (platform s)) = Some p ->
  buffers_ok s ->
  (exists s',
     bind (drawQuad_write velocity) (fun _ => velocity_swap) s
     = Return tt s' /\
     List.length (draws s') = S (List.length (draws s)) /\
     image_of s' (DoubleFBO.read (velocity s'))
     = Drawn (List.length (draws s)) /\
     image_of s' (DoubleFBO.write (velocity s'))
     = image_of s (DoubleFBO.read (velocity s)) /\
     (forall t, t <> FBO.tex (DoubleFBO.write (velocity s)) ->
        gl_pixels (gl (platform s')) t = gl_pixels (gl (platform s)) t)) /\
  (exists s',
     bind (drawQuad_write dye) (fun _ => dye_swap) s = Return tt s' /\
     List.length (draws s') = S (List.length (draws s)) /\
     image_of s' (DoubleFBO.read (dye s')) = Drawn (List.length (draws s)) /\
     image_of s' (DoubleFBO.write (dye s'))
     = image_of s (DoubleFBO.read (dye s)) /\
     (forall t, t <> FBO.tex (DoubleFBO.write (dye s)) ->
        gl_pixels (gl (platform s')) t = gl_pixels (gl (platform s)) t)) /\
  (exists s',
     bind (drawQuad_write pressure) (fun _ => pressure_swap) s
     = Return tt s' /\
     List.length (draws s') = S (List.length (draws s)) /\
     image_of s' (DoubleFBO.read (pressure s'))
     = Drawn (List.length (draws s)) /\
     image_of s' (DoubleFBO.write (pressure s'))
     = image_of s (DoubleFBO.read (pressure s)) /\
     (forall t, t <> FBO.tex (DoubleFBO.write (pressure s)) ->
        gl_pixels (gl (platform s')) t = gl_pixels (gl (platform s)) t)).
Proof.
  intros Hp Hok.
  destruct (buffers_ok_fields s Hok) as ((V1 & V2) & (D1 & D2) & (P1 & P2)).
  split; [exact (velocity_pass s p Hp V1 V2)|].
  split; [exact (dye_pass s p Hp D1 D2)|exact (pressure_pass s p Hp P1 P2)].
Qed.

(** The sample world with the advection program made current. *)
Lemma write_then_swap_witness :
  exists s',
    bind (drawQuad_write dye) (fun _ => dye_swap)
      (state_of (glw (GL.useProgram 3) sample_world))
    = Return tt s' /\
    image_of s' (DoubleFBO.read (dye s'))
    = Drawn (List.length
               (draws (state_of (glw (GL.useProgram 3) sample_world)))).
Proof.
  destruct sample_world_facts as (Hre & _).
  assert (Hok : buffers_ok (state_of (glw (GL.useProgram 3) sample_world))).
  { apply (buffers_ok_rig sample_world); [apply rig_useProgram|].
    exact (reachable_buffers_ok sample_host sample_world Hre). }
  destruct (write_then_swap (state_of (glw (GL.useProgram 3) sample_world))
              3 eq_refl Hok) as (_ & (s' & H & _ & Hr & _) & _).
  exists s'. split; [exact H|exact Hr].
Defined.

End PingPong.
